(** * Dream-Canvas-Art: error classification, media validation, model routing
      and media upload, embedded from the Python sources.

    Sources embedded here:
    - [app/core/error_handlers.py]
    - [app/features/image_generation/image_generation_schema.py]
    - [app/features/image_generation/image_generation_route.py]
    - [app/features/image_generation/image_generation.py]
    - [app/utils/media_uploader.py]
    - [app/features/video_generation/video_generation_schema.py] and
      [video_generation_route.py]
    - [app/features/ai_avatar/ai_avatar_service.py] and [ai_avatar_route.py]
    - [main.py], the handler of [HTTPException]

    Modelling conventions.
    - A Python [str] is a [string]; its characters are read as ASCII text, so
      [str.lower] maps [A-Z] to [a-z] and leaves every other character alone.
      Slicing, [str.strip] and [str.isalnum] are those of Python on ASCII
      text only, where a code point is one character: a statement that rests
      on them carries the hypothesis [ascii_text].
    - A Python [dict] whose keys are written out in the source is an
      association list in insertion order; a JSON-like value is a [json].
    - A raised exception is a value of [exn]: either an [HTTPException] or any
      other instance of [Exception], of which the code observes the class and
      [str(e)]. The classes that derive from [BaseException] only
      ([asyncio.CancelledError], [KeyboardInterrupt], [SystemExit]) are not
      modelled: no [except] clause of the sources catches them.
    - The provider SDKs, the HTTP client, the stores, PIL, the clock and the
      configuration are fields of an environment [Env]; a request runs in a
      state and exception monad that records every effect on them.
    - Logging calls have no effect on results and are left out. *)

From Stdlib Require Import ZArith Ascii String List Bool Lia.
From stdpp Require Import base option list strings pretty gmap.

Local Open Scope Z_scope.

(** ** Python string operations *)

Module PyStr.

Definition is_upper (c : ascii) : bool :=
  let n := nat_of_ascii c in (Nat.leb 65 n) && (Nat.leb n 90).

(** [c.lower()] on one ASCII character. *)
Definition lower_ascii (c : ascii) : ascii :=
  if is_upper c then ascii_of_nat (nat_of_ascii c + 32) else c.

(** [s.lower()] *)
Fixpoint lower (s : string) : string :=
  match s with
  | EmptyString => EmptyString
  | String c s' => String (lower_ascii c) (lower s')
  end.

(** [p in s] for two strings: [p] occurs in [s] as a contiguous substring. *)
Fixpoint str_in (p s : string) : bool :=
  String.prefix p s ||
  match s with
  | EmptyString => false
  | String _ s' => str_in p s'
  end.

(** [any(pattern in s for pattern in patterns)] *)
Definition any_in (patterns : list string) (s : string) : bool :=
  existsb (fun pattern => str_in pattern s) patterns.

(** [x in xs] for a list of strings. *)
Definition mem (x : string) (xs : list string) : bool :=
  existsb (String.eqb x) xs.

(** [sep.join(xs)] *)
Fixpoint join (sep : string) (xs : list string) : string :=
  match xs with
  | [] => ""
  | [x] => x
  | x :: rest => x +:+ sep +:+ join sep rest
  end.

(** [str.isspace] on one ASCII character: TAB, LF, VT, FF, CR, FS, GS, RS,
    US and SPACE. *)
Definition is_space (c : ascii) : bool :=
  let n := nat_of_ascii c in
  ((Nat.leb 9 n) && (Nat.leb n 13)) || ((Nat.leb 28 n) && (Nat.leb n 32)).

(** [not s.strip()] on ASCII text: stripping leaves nothing. *)
Fixpoint blank (s : string) : bool :=
  match s with
  | EmptyString => true
  | String c s' => is_space c && blank s'
  end.

(** [s[:n]] on ASCII text, where every code point is one character. *)
Definition take_chars (n : nat) (s : string) : string := String.substring 0 n s.

(** [s.startswith(p)] *)
Definition startswith (p s : string) : bool := String.prefix p s.

(** [s.endswith("/")] *)
Fixpoint ends_with_slash (s : string) : bool :=
  match s with
  | EmptyString => false
  | String c EmptyString => Ascii.eqb c "/"
  | String _ s' => ends_with_slash s'
  end.

(** [int.__str__] for the non-negative counts formatted by the code. *)
Definition of_nat (n : nat) : string := pretty n.

End PyStr.
Import PyStr.

(** ** JSON-like values and HTTP errors *)

#[warnings="-register-all"]
Inductive json : Type :=
| JNull
| JBool (b : bool)
| JInt (z : Z)
| JStr (s : string)
| JList (l : list json)
| JObj (o : list (string * json)).

(** A Python dict literal, in insertion order. *)
Definition dict := list (string * json).

Fixpoint dict_get (d : dict) (k : string) : option json :=
  match d with
  | [] => None
  | (k', v) :: d' => if String.eqb k k' then Some v else dict_get d' k
  end.

(** [fastapi.HTTPException(status_code=..., detail=...)] *)
Record HTTPException := mkHTTPException {
  status_code : Z;
  detail : dict
}.

(** The ["error"] entry of the detail: the error type shown to the caller. *)
Definition error_type_of (h : HTTPException) : option json := dict_get (detail h) "error".
Definition message_of (h : HTTPException) : option json := dict_get (detail h) "message".
Definition details_of (h : HTTPException) : option json := dict_get (detail h) "details".

(** ** [app/core/error_handlers.py] *)

(** [create_error_response(status_code, error_type, message, details, field)] *)
Definition create_error_response (status : Z) (error_type message : string)
    (details : option json) (field : option string) : HTTPException :=
  let error_detail :=
    [("error", JStr error_type); ("message", JStr message); ("status_code", JInt status)] in
  let error_detail :=
    match details with
    | Some d => error_detail ++ [("details", d)]
    | None => error_detail
    end in
  let error_detail :=
    match field with
    | Some f => error_detail ++ [("field", JStr f)]
    | None => error_detail
    end in
  mkHTTPException status error_detail.

(** The [details] dict that every branch of [handle_fal_ai_error] but two
    builds: service, operation, error_type, resolution. *)
Definition ai_details (operation error_type resolution : string) : json :=
  JObj [("service", JStr "AI Service"); ("operation", JStr operation);
        ("error_type", JStr error_type); ("resolution", JStr resolution)].

(** The pattern lists of [handle_fal_ai_error], in the order of the source. *)
Definition pat_rate_limit : list string :=
  ["rate limit"; "429"; "quota exceeded"; "too many requests"; "rate exceeded"; "throttled"; "quota"].
Definition pat_authentication : list string :=
  ["api key"; "unauthorized"; "401"; "authentication failed"; "invalid api key"; "missing api key"; "fal_key"].
Definition pat_face_detection_error : list string :=
  ["face_detection_error"; "could not detect face"; "no face detected"; "face detection failed"; "face not found"].
Definition pat_content_policy_violation : list string :=
  ["safety"; "content policy"; "inappropriate"; "nsfw"; "violation"; "safety checker"; "moderation"; "blocked"; "filtered"; "content_policy_violation"].
Definition pat_image_too_small : list string :=
  ["image_too_small"; "image too small"; "minimum size"; "min_height"; "min_width"].
Definition pat_image_too_large : list string :=
  ["image_too_large"; "image too large"; "maximum size"; "max_height"; "max_width"; "image dimensions exceed"].
Definition pat_unsupported_image_format : list string :=
  ["unsupported_image_format"; "unsupported image format"; "invalid image format"; "image format not supported"].
Definition pat_unsupported_audio_format : list string :=
  ["unsupported_audio_format"; "unsupported audio format"; "invalid audio format"; "audio format not supported"].
Definition pat_unsupported_video_format : list string :=
  ["unsupported_video_format"; "unsupported video format"; "invalid video format"; "video format not supported"].
Definition pat_model_not_found : list string :=
  ["404"; "not found"; "model not found"; "endpoint not found"; "invalid model"; "model does not exist"].
Definition pat_file_too_large : list string :=
  ["file_too_large"; "file too large"; "file size"; "exceeds maximum"; "max_size"].
Definition pat_invalid_archive : list string :=
  ["invalid_archive"; "invalid archive"; "corrupted archive"; "cannot read archive"; "archive format"; "unsupported archive"].
Definition pat_archive_file_count_below_minimum : list string :=
  ["archive_file_count_below_minimum"; "too few files"; "minimum files"; "min_count"].
Definition pat_archive_file_count_exceeds_maximum : list string :=
  ["archive_file_count_exceeds_maximum"; "too many files"; "maximum files"; "max_count"].
Definition pat_audio_duration_too_long : list string :=
  ["audio_duration_too_long"; "audio duration too long"; "audio too long"; "max_duration"].
Definition pat_audio_duration_too_short : list string :=
  ["audio_duration_too_short"; "audio duration too short"; "audio too short"; "min_duration"].
Definition pat_video_duration_too_long : list string :=
  ["video_duration_too_long"; "video duration too long"; "video too long"].
Definition pat_video_duration_too_short : list string :=
  ["video_duration_too_short"; "video duration too short"; "video too short"].
Definition pat_greater_than : list string :=
  ["greater_than"; "should be greater than"; "must be greater than"; "gt"].
Definition pat_greater_than_equal : list string :=
  ["greater_than_equal"; "should be greater than or equal"; "must be greater than or equal"; "ge"].
Definition pat_less_than : list string :=
  ["less_than"; "should be less than"; "must be less than"; "lt"].
Definition pat_less_than_equal : list string :=
  ["less_than_equal"; "should be less than or equal"; "must be less than or equal"; "le"].
Definition pat_multiple_of : list string :=
  ["multiple_of"; "should be a multiple of"; "must be a multiple of"; "multiple"].
Definition pat_sequence_too_short : list string :=
  ["sequence_too_short"; "sequence too short"; "should have at least"; "min_length"].
Definition pat_sequence_too_long : list string :=
  ["sequence_too_long"; "sequence too long"; "should have at most"; "max_length"].
Definition pat_one_of : list string :=
  ["one_of"; "should be"; "invalid choice"; "not in allowed values"; "expected"].
Definition pat_generation_timeout : list string :=
  ["generation_timeout"; "generation timeout"; "request timeout"; "operation timed out"].
Definition pat_downstream_service_error : list string :=
  ["downstream_service_error"; "downstream service error"; "external service error"].
Definition pat_downstream_service_unavailable : list string :=
  ["downstream_service_unavailable"; "downstream service unavailable"; "external service unavailable"].
Definition pat_feature_not_supported : list string :=
  ["feature_not_supported"; "feature not supported"; "not supported"; "unsupported feature"].
Definition pat_image_load_error : list string :=
  ["image_load_error"; "image load error"; "failed to load image"; "corrupted image"].
Definition pat_file_download_error : list string :=
  ["file_download_error"; "file download error"; "failed to download"; "download failed"].
Definition pat_service_unavailable : list string :=
  ["503"; "502"; "500"; "service unavailable"; "server error"; "model unavailable"; "temporarily unavailable"; "maintenance"].
Definition pat_timeout : list string :=
  ["timeout"; "504"; "gateway timeout"; "request timeout"; "time out"; "timed out"; "deadline exceeded"].
Definition pat_invalid_parameters : list string :=
  ["400"; "bad request"; "invalid"; "parameter"; "argument"; "validation error"; "invalid input"; "malformed"; "parse error"].
Definition pat_file_upload_error : list string :=
  ["upload"; "file"; "image too large"; "file size"; "format not supported"; "invalid file"; "corrupted"; "unsupported format"].
Definition pat_network_error : list string :=
  ["connection"; "network"; "dns"; "unreachable"; "connection refused"; "connection error"; "network error"; "ssl error"].
Definition pat_generation_failed : list string :=
  ["no images"; "empty result"; "no output"; "failed to generate"; "generation failed"; "no content generated"].
Definition pat_payment_required : list string :=
  ["payment"; "billing"; "insufficient"; "credits"; "balance"; "subscription"; "plan"; "payment required"].

(** The same lists, collected in the order in which the chain tests them. *)
Definition fal_pattern_groups : list (list string) :=
  [pat_rate_limit;
   pat_authentication;
   pat_face_detection_error;
   pat_content_policy_violation;
   pat_image_too_small;
   pat_image_too_large;
   pat_unsupported_image_format;
   pat_unsupported_audio_format;
   pat_unsupported_video_format;
   pat_model_not_found;
   pat_file_too_large;
   pat_invalid_archive;
   pat_archive_file_count_below_minimum;
   pat_archive_file_count_exceeds_maximum;
   pat_audio_duration_too_long;
   pat_audio_duration_too_short;
   pat_video_duration_too_long;
   pat_video_duration_too_short;
   pat_greater_than;
   pat_greater_than_equal;
   pat_less_than;
   pat_less_than_equal;
   pat_multiple_of;
   pat_sequence_too_short;
   pat_sequence_too_long;
   pat_one_of;
   pat_generation_timeout;
   pat_downstream_service_error;
   pat_downstream_service_unavailable;
   pat_feature_not_supported;
   pat_image_load_error;
   pat_file_download_error;
   pat_service_unavailable;
   pat_timeout;
   pat_invalid_parameters;
   pat_file_upload_error;
   pat_network_error;
   pat_generation_failed;
   pat_payment_required].

(** [handle_fal_ai_error(e, operation)]: [e] stands for [str(e)]. *)
Definition handle_fal_ai_error (e operation : string) : HTTPException :=
  let error_msg := lower e in
  let original_error := e in
  if any_in pat_rate_limit error_msg then
    create_error_response 429 "Rate Limit Error"
      "API rate limit exceeded. You've made too many requests in a short time period."
      (Some (ai_details operation "rate_limit"
         "Wait a few minutes before making another request. Consider upgrading your service plan for higher limits.")) None
  else
  if any_in pat_authentication error_msg then
    create_error_response 401 "Authentication Error"
      "API authentication failed. Please check that your API key is correctly configured in the environment."
      (Some (ai_details operation "authentication"
         "Verify that your API key environment variable is set with a valid API key")) None
  else
  if any_in pat_face_detection_error error_msg then
    create_error_response 422 "Face Detection Error"
      "Could not detect a face in the provided image. Face detection is required for this operation."
      (Some (ai_details operation "face_detection_error"
         "Ensure the image contains a clear, visible face and try again with a different image.")) None
  else
  if any_in pat_content_policy_violation error_msg then
    create_error_response 422 "Content Policy Violation"
      "Your request was blocked by the service's safety filters. The prompt may contain inappropriate content."
      (Some (ai_details operation "content_policy_violation"
         "Modify your prompt to remove potentially inappropriate, violent, or explicit content and try again.")) None
  else
  if any_in pat_image_too_small error_msg then
    create_error_response 422 "Image Too Small"
      "The provided image dimensions are smaller than the required minimum size."
      (Some (ai_details operation "image_too_small"
         "Use an image with larger dimensions that meets the minimum size requirements.")) None
  else
  if any_in pat_image_too_large error_msg then
    create_error_response 422 "Image Too Large"
      "The provided image dimensions exceed the maximum allowed limits."
      (Some (ai_details operation "image_too_large"
         "Resize your image to smaller dimensions that meet the maximum size requirements.")) None
  else
  if any_in pat_unsupported_image_format error_msg then
    create_error_response 422 "Unsupported Image Format"
      "The image file format is not supported. Use a supported format like JPEG, PNG, or WebP."
      (Some (ai_details operation "unsupported_image_format"
         "Convert your image to a supported format (JPEG, PNG, WebP) and try again.")) None
  else
  if any_in pat_unsupported_audio_format error_msg then
    create_error_response 422 "Unsupported Audio Format"
      "The audio file format is not supported. Use a supported format like MP3, WAV, or OGG."
      (Some (ai_details operation "unsupported_audio_format"
         "Convert your audio file to a supported format (MP3, WAV, OGG) and try again.")) None
  else
  if any_in pat_unsupported_video_format error_msg then
    create_error_response 422 "Unsupported Video Format"
      "The video file format is not supported. Use a supported format like MP4, MOV, or WebM."
      (Some (ai_details operation "unsupported_video_format"
         "Convert your video file to a supported format (MP4, MOV, WebM) and try again.")) None
  else
  if any_in pat_model_not_found error_msg then
    create_error_response 404 "Model Not Found"
      "The specified AI model or endpoint was not found. The model may have been updated or deprecated."
      (Some (ai_details operation "model_not_found"
         "Check the API documentation for the correct model endpoint name and update your code.")) None
  else
  if any_in pat_file_too_large error_msg then
    create_error_response 422 "File Too Large"
      "The uploaded file exceeds the maximum allowed size limit."
      (Some (ai_details operation "file_too_large"
         "Reduce the file size or use a smaller file that meets the size requirements.")) None
  else
  if any_in pat_invalid_archive error_msg then
    create_error_response 422 "Invalid Archive"
      "The provided archive file cannot be read or processed. It may be corrupted or in an unsupported format."
      (Some (ai_details operation "invalid_archive"
         "Ensure the archive is a valid ZIP or TAR.GZ file and not corrupted.")) None
  else
  if any_in pat_archive_file_count_below_minimum error_msg then
    create_error_response 422 "Archive Has Too Few Files"
      "The provided archive contains fewer files than the minimum required count."
      (Some (ai_details operation "archive_file_count_below_minimum"
         "Add more files to your archive to meet the minimum file count requirement.")) None
  else
  if any_in pat_archive_file_count_exceeds_maximum error_msg then
    create_error_response 422 "Archive Has Too Many Files"
      "The provided archive contains more files than the maximum allowed count."
      (Some (ai_details operation "archive_file_count_exceeds_maximum"
         "Remove some files from your archive to meet the maximum file count limit.")) None
  else
  if any_in pat_audio_duration_too_long error_msg then
    create_error_response 422 "Audio Duration Too Long"
      "The provided audio file exceeds the maximum allowed duration."
      (Some (ai_details operation "audio_duration_too_long"
         "Trim your audio file to meet the maximum duration requirement.")) None
  else
  if any_in pat_audio_duration_too_short error_msg then
    create_error_response 422 "Audio Duration Too Short"
      "The provided audio file is shorter than the minimum required duration."
      (Some (ai_details operation "audio_duration_too_short"
         "Use a longer audio file that meets the minimum duration requirement.")) None
  else
  if any_in pat_video_duration_too_long error_msg then
    create_error_response 422 "Video Duration Too Long"
      "The provided video file exceeds the maximum allowed duration."
      (Some (ai_details operation "video_duration_too_long"
         "Trim your video file to meet the maximum duration requirement.")) None
  else
  if any_in pat_video_duration_too_short error_msg then
    create_error_response 422 "Video Duration Too Short"
      "The provided video file is shorter than the minimum required duration."
      (Some (ai_details operation "video_duration_too_short"
         "Use a longer video file that meets the minimum duration requirement.")) None
  else
  if any_in pat_greater_than error_msg then
    create_error_response 422 "Value Too Small"
      "The provided numeric value is not greater than the required minimum."
      (Some (ai_details operation "greater_than"
         "Use a larger value that meets the minimum requirement.")) None
  else
  if any_in pat_greater_than_equal error_msg then
    create_error_response 422 "Value Too Small"
      "The provided numeric value is less than the required minimum."
      (Some (ai_details operation "greater_than_equal"
         "Use a value greater than or equal to the minimum requirement.")) None
  else
  if any_in pat_less_than error_msg then
    create_error_response 422 "Value Too Large"
      "The provided numeric value is not less than the required maximum."
      (Some (ai_details operation "less_than"
         "Use a smaller value that meets the maximum requirement.")) None
  else
  if any_in pat_less_than_equal error_msg then
    create_error_response 422 "Value Too Large"
      "The provided numeric value is greater than the required maximum."
      (Some (ai_details operation "less_than_equal"
         "Use a value less than or equal to the maximum requirement.")) None
  else
  if any_in pat_multiple_of error_msg then
    create_error_response 422 "Invalid Multiple"
      "The provided numeric value is not a multiple of the required factor."
      (Some (ai_details operation "multiple_of"
         "Use a value that is a multiple of the required factor.")) None
  else
  if any_in pat_sequence_too_short error_msg then
    create_error_response 422 "Sequence Too Short"
      "The provided sequence has fewer items than the required minimum length."
      (Some (ai_details operation "sequence_too_short"
         "Add more items to meet the minimum length requirement.")) None
  else
  if any_in pat_sequence_too_long error_msg then
    create_error_response 422 "Sequence Too Long"
      "The provided sequence has more items than the maximum allowed length."
      (Some (ai_details operation "sequence_too_long"
         "Remove some items to meet the maximum length limit.")) None
  else
  if any_in pat_one_of error_msg then
    create_error_response 422 "Invalid Choice"
      "The provided value is not among the set of allowed values."
      (Some (ai_details operation "one_of"
         "Use one of the allowed values specified in the API documentation.")) None
  else
  if any_in pat_generation_timeout error_msg then
    create_error_response 504 "Generation Timeout"
      "The generation request took longer than the allowed time limit to complete."
      (Some (ai_details operation "generation_timeout"
         "Try again with simpler parameters or retry later when the service is less busy.")) None
  else
  if any_in pat_downstream_service_error error_msg then
    create_error_response 400 "Downstream Service Error"
      "There was a problem communicating with an external service required to fulfill the request."
      (Some (ai_details operation "downstream_service_error"
         "This is usually a temporary issue. Try again in a few minutes.")) None
  else
  if any_in pat_downstream_service_unavailable error_msg then
    create_error_response 500 "Downstream Service Unavailable"
      "A required third-party service is currently unavailable, preventing the request from being fulfilled."
      (Some (ai_details operation "downstream_service_unavailable"
         "Wait a few minutes and try again. The external service should be back online shortly.")) None
  else
  if any_in pat_feature_not_supported error_msg then
    create_error_response 422 "Feature Not Supported"
      "The combination of input parameters requests a feature that is not supported by this endpoint."
      (Some (ai_details operation "feature_not_supported"
         "Check the API documentation for supported features and adjust your parameters.")) None
  else
  if any_in pat_image_load_error error_msg then
    create_error_response 422 "Image Load Error"
      "Failed to load or process the provided image. The image may be corrupted or in an unsupported format."
      (Some (ai_details operation "image_load_error"
         "Verify the image file is not corrupted and is in a supported format.")) None
  else
  if any_in pat_file_download_error error_msg then
    create_error_response 422 "File Download Error"
      "Failed to download the file from the provided URL. Ensure the URL is publicly accessible."
      (Some (ai_details operation "file_download_error"
         "Check that the URL is correct, publicly accessible, and not behind authentication.")) None
  else
  if any_in pat_service_unavailable error_msg then
    create_error_response 503 "Service Unavailable"
      "AI service is temporarily unavailable. This may be due to high demand or maintenance."
      (Some (ai_details operation "service_unavailable"
         "Wait a few minutes and try again. Check the service status page for any ongoing issues.")) None
  else
  if any_in pat_timeout error_msg then
    create_error_response 504 "Request Timeout"
      "The request to the AI service timed out. Complex prompts or high-resolution images may take longer to process."
      (Some (ai_details operation "timeout"
         "Try simplifying your prompt, reducing image size, or trying again later when the service is less busy.")) None
  else
  if any_in pat_invalid_parameters error_msg then
    let param_hint :=
      if str_in "image_size" error_msg then
        " Check that image_size is valid (e.g., 'square_hd', 'portrait_4_3', 'landscape_4_3')."
      else if str_in "prompt" error_msg then
        " Ensure your prompt is not empty and contains valid text."
      else if str_in "num_inference_steps" error_msg then
        " Check that num_inference_steps is within the valid range (typically 1-50)."
      else if str_in "guidance_scale" error_msg then
        " Ensure guidance_scale is a positive number (typically 1.0-20.0)."
      else "" in
    create_error_response 400 "Invalid Request"
      ("Invalid parameters sent to the AI service." +:+ param_hint)
      (Some (JObj [("service", JStr "AI Service"); ("operation", JStr operation);
                   ("error_type", JStr "invalid_parameters");
                   ("resolution", JStr "Check the API documentation for valid parameter values and formats.");
                   ("original_error", JStr original_error)])) None
  else
  if any_in pat_file_upload_error error_msg then
    create_error_response 400 "File Upload Error"
      "There was an issue with the uploaded file. Check file format, size, and integrity."
      (Some (ai_details operation "file_upload_error"
         "Ensure files are in supported formats (JPEG, PNG, WebP), under size limits, and not corrupted.")) None
  else
  if any_in pat_network_error error_msg then
    create_error_response 503 "Network Error"
      "Unable to connect to AI services. Check your internet connection."
      (Some (ai_details operation "network_error"
         "Check your internet connection and firewall settings. The issue may be temporary.")) None
  else
  if any_in pat_generation_failed error_msg then
    create_error_response 500 "Generation Failed"
      "AI service failed to generate any output. This may be due to prompt complexity or temporary service issues."
      (Some (ai_details operation "generation_failed"
         "Try simplifying your prompt, adjusting parameters, or trying again in a few minutes.")) None
  else
  if any_in pat_payment_required error_msg then
    create_error_response 402 "Payment Required"
      "Your AI service account has insufficient credits or an inactive subscription."
      (Some (ai_details operation "payment_required"
         "Check your account balance and add credits or upgrade your subscription plan.")) None
  else
    create_error_response 500 "AI Service Error"
      ("An unexpected error occurred with AI service during " +:+ operation +:+
       ". This may be a temporary service issue.")
      (Some (JObj [("service", JStr "AI Service"); ("operation", JStr operation);
                   ("error_type", JStr "generic");
                   ("resolution", JStr "Try again in a few minutes. If the problem persists, contact support.");
                   ("original_error", JStr (take_chars 200 original_error))])) None.

(** [handle_openai_error(e, operation)] *)
Definition handle_openai_error (e operation : string) : HTTPException :=
  let error_msg := lower e in
  let details := Some (JObj [("service", JStr "OpenAI"); ("operation", JStr operation)]) in
  if str_in "api key" error_msg || str_in "unauthorized" error_msg then
    create_error_response 401 "Authentication Error"
      "OpenAI authentication failed. Please check the service configuration."
      details None
  else if str_in "rate limit" error_msg || str_in "quota" error_msg then
    create_error_response 429 "Rate Limit Error"
      "OpenAI rate limit exceeded. Please wait a moment before trying again."
      details None
  else if str_in "content policy" error_msg || str_in "safety" error_msg then
    create_error_response 400 "Content Policy Violation"
      "Your request was rejected due to content policy restrictions. Please modify your prompt and try again."
      details None
  else
    create_error_response 500 "AI Service Error"
      ("An error occurred with OpenAI during " +:+ operation +:+ ". Please try again later.")
      details None.

(** [handle_google_ai_error(e, operation)] *)
Definition handle_google_ai_error (e operation : string) : HTTPException :=
  let error_msg := lower e in
  let details := Some (JObj [("service", JStr "Google AI"); ("operation", JStr operation)]) in
  if str_in "api key" error_msg || str_in "unauthorized" error_msg then
    create_error_response 401 "Authentication Error"
      "Google AI authentication failed. Please check the service configuration."
      details None
  else if str_in "quota" error_msg || str_in "rate limit" error_msg then
    create_error_response 429 "Rate Limit Error"
      "Google AI rate limit exceeded. Please wait a moment before trying again."
      details None
  else if str_in "safety" error_msg || str_in "content policy" error_msg then
    create_error_response 400 "Content Policy Violation"
      "Your request was rejected due to content policy restrictions. Please modify your prompt and try again."
      details None
  else
    create_error_response 500 "AI Service Error"
      ("An error occurred with Google AI during " +:+ operation +:+ ". Please try again later.")
      details None.

(** [handle_storage_error(e, operation)]; in the second test [and] binds
    tighter than [or]. *)
Definition handle_storage_error (e operation : string) : HTTPException :=
  let error_msg := lower e in
  let details := Some (JObj [("service", JStr "Storage"); ("operation", JStr operation)]) in
  if str_in "permission" error_msg || str_in "access denied" error_msg then
    create_error_response 403 "Storage Permission Error"
      "Unable to save the generated content due to storage permissions."
      details None
  else if str_in "quota" error_msg || (str_in "storage" error_msg && str_in "full" error_msg) then
    create_error_response 507 "Storage Full"
      "Storage quota exceeded. Please contact support."
      details None
  else
    create_error_response 500 "Storage Error"
      "Unable to save the generated content. The content was generated successfully but couldn't be stored."
      details None.

(** The test of [handle_service_error] that sends a fault to
    [handle_fal_ai_error]. *)
Definition routes_to_fal (error_msg service_name : string) : bool :=
  existsb (fun indicator => str_in indicator (lower service_name)) ["fal"; "flux"; "kontext"]
  || any_in ["fal.ai"; "fal_client"; "fal-ai"] error_msg.

(** [handle_service_error(e, service_name, operation)]: [e] stands for
    [str(e)]. *)
Definition handle_service_error (e service_name operation : string) : HTTPException :=
  let error_msg := lower e in
  let original_error := e in
  let details := Some (JObj [("service", JStr service_name); ("operation", JStr operation)]) in
  if routes_to_fal error_msg service_name then
    handle_fal_ai_error e operation
  else if str_in "openai" error_msg || str_in "gpt" error_msg || str_in "dalle" error_msg then
    handle_openai_error e operation
  else if str_in "gemini" error_msg || str_in "google" error_msg || str_in "imagen" error_msg then
    handle_google_ai_error e operation
  else if str_in "storage" error_msg || str_in "gcs" error_msg || str_in "bucket" error_msg then
    handle_storage_error e operation
  else if any_in ["connection"; "timeout"; "network"; "unreachable"] error_msg then
    create_error_response 503 "Network Error"
      ("Network connection failed during " +:+ operation +:+
       ". Please check your internet connection and try again.")
      (Some (JObj [("service", JStr service_name); ("operation", JStr operation);
                   ("error_type", JStr "network")])) None
  else if str_in "rate limit" error_msg || str_in "quota" error_msg then
    create_error_response 429 "Rate Limit Error"
      ("Rate limit exceeded during " +:+ operation +:+
       ". Please wait a moment before trying again.")
      details None
  else if str_in "unauthorized" error_msg || str_in "api key" error_msg
          || str_in "authentication" error_msg then
    create_error_response 401 "Authentication Error"
      ("Authentication failed with " +:+ service_name +:+
       ". Please check service configuration.")
      details None
  else if str_in "forbidden" error_msg || str_in "permission" error_msg then
    create_error_response 403 "Authorization Error"
      ("Insufficient permissions for " +:+ operation +:+ " with " +:+ service_name +:+ ".")
      details None
  else if str_in "not found" error_msg || str_in "404" error_msg then
    create_error_response 404 "Resource Not Found"
      ("The requested resource for " +:+ operation +:+ " was not found.")
      details None
  else
    create_error_response 500 "Service Error"
      ("An error occurred during " +:+ operation +:+ ". Please try again later.")
      details None.

(** *** Exceptions and results *)

(** A raised exception: an [HTTPException], or any other instance of
    [Exception], of which the code observes the class (in [except] clauses)
    and [str(e)]. These are the exceptions that [except Exception] catches. *)
Inductive exn : Type :=
| HTTPExc (h : HTTPException)
| PyExc (cls msg : string).

(** The outcome of a call that may raise. *)
Inductive result (A : Type) : Type :=
| Ok (a : A)
| Raise (e : exn).
Arguments Ok {A} a.
Arguments Raise {A} e.

(** A byte string. *)
Abbreviation bytes := (list Byte.byte).

(** [fastapi.UploadFile], as far as the code reads it: [filename] and
    [content_type] may be [None]; [read] is the outcome of
    [await file.read()]. *)
Record UploadFile := mkUploadFile {
  filename : option string;
  content_type : option string;
  read : result bytes
}.

(** Truth value of [f.filename]: neither [None] nor the empty string. *)
Definition has_filename (f : UploadFile) : bool :=
  match filename f with
  | Some name => negb (String.eqb name "")
  | None => false
  end.

(** The [HTTPException] raised by [validate_file_types] for the file at
    index [i] of a list of [n] files. *)
Definition invalid_file_type (allowed_types : list string) (field_name : string)
    (n i : nat) (file : UploadFile) : HTTPException :=
  mkHTTPException 400
    [("error", JStr "Invalid File Type");
     ("message", JStr ("Invalid file type. Supported formats: " +:+ join ", " allowed_types));
     ("field", JStr (if Nat.ltb 1 n then field_name +:+ "[" +:+ of_nat i +:+ "]"
                     else field_name));
     ("received_type", match content_type file with Some t => JStr t | None => JNull end)].

(** [file.content_type not in allowed_types] *)
Definition type_not_allowed (allowed_types : list string) (file : UploadFile) : bool :=
  match content_type file with
  | Some t => negb (mem t allowed_types)
  | None => true
  end.

(** The loop of [validate_file_types], from index [i] on; [n] is
    [len(files)]. *)
Fixpoint validate_file_types_from (i n : nat) (files : list UploadFile)
    (allowed_types : list string) (field_name : string) : result unit :=
  match files with
  | [] => Ok tt
  | file :: rest =>
      if type_not_allowed allowed_types file then
        Raise (HTTPExc (invalid_file_type allowed_types field_name n i file))
      else validate_file_types_from (S i) n rest allowed_types field_name
  end.

(** [validate_file_types(files, allowed_types, field_name)] *)
Definition validate_file_types (files : list UploadFile) (allowed_types : list string)
    (field_name : string) : result unit :=
  validate_file_types_from 0 (length files) files allowed_types field_name.

(** [validate_file_count(files, max_files, field_name)] *)
Definition validate_file_count (files : list UploadFile) (max_files : nat)
    (field_name : string) : result unit :=
  if Nat.ltb max_files (length files) then
    Raise (HTTPExc (mkHTTPException 400
      [("error", JStr "Too Many Files");
       ("message", JStr ("Maximum " +:+ of_nat max_files +:+ " files allowed"));
       ("field", JStr field_name);
       ("provided_count", JInt (Z.of_nat (length files)));
       ("max_allowed", JInt (Z.of_nat max_files))]))
  else Ok tt.

(** Truth value of a Python value: [not v] is [falsy v]. *)
Definition falsy (v : json) : bool :=
  match v with
  | JNull => true
  | JBool b => negb b
  | JInt z => Z.eqb z 0
  | JStr s => String.eqb s ""
  | JList l => match l with [] => true | _ => false end
  | JObj o => match o with [] => true | _ => false end
  end.

(** [not data[field] or (isinstance(data[field], str) and not data[field].strip())] *)
Definition empty_value (v : json) : bool :=
  falsy v || match v with JStr s => blank s | _ => false end.

(** The loop of [validate_required_fields]: the two accumulators
    [missing_fields] and [empty_fields]. *)
Fixpoint scan_required_fields (data : gmap string json) (required_fields : list string)
    (missing_fields empty_fields : list string) : list string * list string :=
  match required_fields with
  | [] => (missing_fields, empty_fields)
  | field :: rest =>
      match data !! field with
      | None => scan_required_fields data rest (missing_fields ++ [field]) empty_fields
      | Some v =>
          if empty_value v
          then scan_required_fields data rest missing_fields (empty_fields ++ [field])
          else scan_required_fields data rest missing_fields empty_fields
      end
  end.

(** The [error_details] list built by [validate_required_fields]. *)
Definition required_fields_details (missing_fields empty_fields : list string)
    : list (list (string * json)) :=
  (match missing_fields with
   | [] => []
   | _ => [[("type", JStr "missing_fields"); ("fields", JList (map JStr missing_fields));
            ("message", JStr ("Missing required fields: " +:+ join ", " missing_fields))]]
   end) ++
  (match empty_fields with
   | [] => []
   | _ => [[("type", JStr "empty_fields"); ("fields", JList (map JStr empty_fields));
            ("message", JStr ("Empty required fields: " +:+ join ", " empty_fields))]]
   end).

(** [validate_required_fields(data, required_fields)] *)
Definition validate_required_fields (data : gmap string json) (required_fields : list string)
    : result unit :=
  let '(missing_fields, empty_fields) := scan_required_fields data required_fields [] [] in
  match missing_fields, empty_fields with
  | [], [] => Ok tt
  | _, _ =>
      Raise (HTTPExc (mkHTTPException 400
        [("error", JStr "Required Fields Validation Error");
         ("message", JStr "Some required fields are missing or empty");
         ("details", JList (map JObj (required_fields_details missing_fields empty_fields)))]))
  end.

(** ** [app/features/image_generation/image_generation_schema.py] *)

Inductive ImageModel : Type :=
| DALLE | FLUX_1_SPRO | GEMINI | FLUX_KONTEXT_DEV | QWEN
| FLUX_KONTEXT_EDIT
| GEMINI_NANOBANANA | SEEDREAM.

Inductive ImageStyle : Type :=
| PHOTO | ILLUSTRATION | COMIC | ANIME | ABSTRACT | FANTASY | POPART.

Inductive ImageShape : Type := SQUARE | PORTRAIT | LANDSCAPE.

Inductive ImageMode : Type := GENERATE | EDIT.

(** [m.value] for each enumeration. *)
Definition model_value (m : ImageModel) : string :=
  match m with
  | DALLE => "dalle"
  | FLUX_1_SPRO => "flux_1_spro"
  | GEMINI => "gemini"
  | FLUX_KONTEXT_DEV => "flux_kontext_dev"
  | QWEN => "qwen"
  | FLUX_KONTEXT_EDIT => "flux_kontext_edit"
  | GEMINI_NANOBANANA => "gemini_nanobanana"
  | SEEDREAM => "seedream"
  end.

Definition style_value (s : ImageStyle) : string :=
  match s with
  | PHOTO => "Photo"
  | ILLUSTRATION => "Illustration"
  | COMIC => "Comic"
  | ANIME => "Anime"
  | ABSTRACT => "Abstract"
  | FANTASY => "Fantasy"
  | POPART => "PopArt"
  end.

Definition shape_value (s : ImageShape) : string :=
  match s with
  | SQUARE => "square"
  | PORTRAIT => "portrait"
  | LANDSCAPE => "landscape"
  end.

Definition mode_value (m : ImageMode) : string :=
  match m with
  | GENERATE => "generate"
  | EDIT => "edit"
  end.

(** The members of each enumeration, in definition order
    ([[m.value for m in ImageMode]] iterates in this order). *)
Definition ImageStyle_members : list ImageStyle :=
  [PHOTO; ILLUSTRATION; COMIC; ANIME; ABSTRACT; FANTASY; POPART].
Definition ImageShape_members : list ImageShape := [SQUARE; PORTRAIT; LANDSCAPE].
Definition ImageMode_members : list ImageMode := [GENERATE; EDIT].

Definition TEXT_TO_IMAGE_MODELS : list ImageModel :=
  [DALLE; FLUX_1_SPRO; GEMINI; FLUX_KONTEXT_DEV; QWEN; GEMINI_NANOBANANA; SEEDREAM].

Definition IMAGE_EDIT_MODELS : list ImageModel :=
  [FLUX_KONTEXT_EDIT; GEMINI_NANOBANANA; SEEDREAM].

(** [MODEL_MAX_IMAGES]: the keys are [str]-valued enumeration members, which
    hash and compare as their values, so the dict is looked up by the model
    string. *)
Definition MODEL_MAX_IMAGES : gmap string nat :=
  <[model_value SEEDREAM := 4%nat]>
  (<[model_value FLUX_KONTEXT_EDIT := 1%nat]>
  (<[model_value GEMINI_NANOBANANA := 4%nat]> ∅)).

(** [ImageGenerationResponse] *)
Record ImageGenerationResponse := mkImageGenerationResponse {
  status : Z;
  success_message : string;
  image_url : string;
  model_used : string;
  shape : string
}.

(** ** [app/features/image_generation/image_generation_route.py]: validation *)

(** The [HTTPException] that every validation step of the route raises. *)
Definition validation_error (message : string) : exn :=
  HTTPExc (mkHTTPException 400 [("error", JStr "Validation Error"); ("message", JStr message)]).

(** [allowed_types] of the route. *)
Definition allowed_image_types : list string :=
  ["image/jpeg"; "image/jpg"; "image/png"; "image/webp"].

(** [len([f for f in image_files if f.filename])] *)
Definition file_count (image_files : list UploadFile) : nat :=
  length (filter (fun f => has_filename f = true) image_files).

(** The edit-mode block of the route (source lines 100-146), for
    [image_files] as received: [None] when the form has no such field. *)
Definition validate_edit_files (model : string) (image_files : option (list UploadFile))
    : result unit :=
  match image_files with
  | None | Some [] => Raise (validation_error "Image files required for edit mode")
  | Some files =>
      if negb (existsb has_filename files) then
        Raise (validation_error "Image files required for edit mode")
      else
        match validate_file_types files allowed_image_types "image_files" with
        | Raise e => Raise e
        | Ok _ =>
            let file_count := file_count files in
            if Nat.ltb 4 file_count then
              Raise (validation_error
                ("Maximum 4 image files allowed. You uploaded " +:+ of_nat file_count +:+ " files."))
            else
              match MODEL_MAX_IMAGES !! model with
              | Some max_allowed =>
                  if String.eqb model (model_value FLUX_KONTEXT_EDIT) then
                    if negb (Nat.eqb file_count 1) then
                      Raise (validation_error
                        ("Model '" +:+ model +:+ "' requires exactly 1 image file. You provided "
                         +:+ of_nat file_count +:+ " files."))
                    else Ok tt
                  else if Nat.ltb max_allowed file_count then
                    Raise (validation_error
                      ("Model '" +:+ model +:+ "' supports up to " +:+ of_nat max_allowed
                       +:+ " image files. You provided " +:+ of_nat file_count +:+ " files."))
                  else Ok tt
              | None => Ok tt
              end
        end
  end.

(** The validation part of the route body (source lines 55-146): every step
    up to the call of the service. *)
Definition validate_generate_request (mode prompt model style shape : string)
    (image_files : option (list UploadFile)) : result unit :=
  if negb (mem mode (map mode_value ImageMode_members)) then
    Raise (validation_error "Mode must be 'generate' or 'edit'")
  else
    let valid_models :=
      if String.eqb mode "generate" then map model_value TEXT_TO_IMAGE_MODELS
      else map model_value IMAGE_EDIT_MODELS in
    if negb (mem model valid_models) then
      Raise (validation_error
        ((if String.eqb mode "generate" then "Invalid model for generate mode. Valid models: "
          else "Invalid model for edit mode. Valid models: ") +:+ join ", " valid_models))
    else if blank prompt then
      Raise (validation_error "Prompt is required")
    else if negb (mem style (map style_value ImageStyle_members)) then
      Raise (validation_error
        ("Invalid style. Valid styles: " +:+ join ", " (map style_value ImageStyle_members)))
    else if negb (mem shape (map shape_value ImageShape_members)) then
      Raise (validation_error
        ("Invalid shape. Valid shapes: " +:+ join ", " (map shape_value ImageShape_members)))
    else if String.eqb mode "edit" then validate_edit_files model image_files
    else Ok tt.

(** The request was rejected with status 400 and error type
    "Validation Error". *)
Definition rejected_validation_400 {A : Type} (r : result A) : bool :=
  match r with
  | Raise (HTTPExc h) =>
      Z.eqb (status_code h) 400 &&
      match error_type_of h with
      | Some (JStr t) => String.eqb t "Validation Error"
      | _ => false
      end
  | _ => false
  end.

(** The number of named files of a request; no field means no files. *)
Definition files_supplied (image_files : option (list UploadFile)) : nat :=
  match image_files with
  | Some files => file_count files
  | None => 0
  end.

(** Every uploaded file has one of the allowed image types. *)
Definition types_allowed (image_files : option (list UploadFile)) : bool :=
  match image_files with
  | Some files => forallb (fun f => negb (type_not_allowed allowed_image_types f)) files
  | None => true
  end.

(** [field not in data], and the test that makes a present field empty. *)
Definition is_missing (data : gmap string json) (field : string) : bool :=
  match data !! field with None => true | Some _ => false end.
Definition is_empty (data : gmap string json) (field : string) : bool :=
  match data !! field with Some v => empty_value v | None => false end.

(** A named upload of a given MIME type, for examples. *)
Definition upload (name mime : string) (content : bytes) : UploadFile :=
  mkUploadFile (Some name) (Some mime) (Ok content).

(** ** The outside world

    The provider SDKs, the HTTP client, the blob store, the filesystem, PIL,
    the clock and the configuration are external collaborators. Each is a
    field of [Env]: a function from what the code passes to what the code
    gets back, which may be a raised exception. *)

(** A keyword argument or payload entry sent to a provider. A float literal
    of the source is kept as its decimal text. *)
Inductive arg : Type :=
| AStr (s : string)
| AInt (z : Z)
| ADec (literal : string)
| ABool (b : bool)
| AStrs (l : list string).

(** [types.Part.from_text] and [types.Part.from_bytes] *)
Inductive part : Type :=
| PartText (text : string)
| PartBytes (data : bytes) (mime_type : string).

(** One call to a provider SDK. *)
Inductive provider_call : Type :=
| OpenAIImagesGenerate (kwargs : list (string * arg))
| FalSubmit (endpoint : string) (arguments : list (string * arg))
| GeminiGenerateImages (model prompt : string) (config : list (string * arg))
| GeminiGenerateContentStream (model : string) (parts : list part).

(** Every effect on the outside world, in the order in which it happens. *)
Inductive event : Type :=
| EvProvider (call : provider_call)
| EvDownload (url : string)
| EvGcsUpload (blob_name : string)
| EvLocalWrite (path : string)
| EvRemove (path : string).

(** [PIL.Image]: what [resize_image_if_needed] reads of an opened image. *)
Record Image := mkImage {
  size : Z * Z;
  format : option string
}.

(** An image returned by Imagen: [image.save(buf)] followed by reading the
    buffer, and [image.save(filepath)] followed by reading the file back. *)
Record GeneratedImage := mkGeneratedImage {
  save_to_buffer : result bytes;
  save_to_file : string -> result bytes
}.

(** A chunk of the Gemini stream: the inline data of its first part and the
    MIME type, when every attribute on the way is present. *)
Definition chunk := option (bytes * string).

Record Env := mkEnv {
  (* PIL *)
  Image_open : bytes -> result Image;
  (* [image.resize(new_size, LANCZOS)] and [save(buffer, format, quality=95)]
     of the image opened from the given content *)
  resize_and_save : bytes -> Z * Z -> string -> result bytes;
  (* [base64.b64encode(data).decode('utf-8')] *)
  b64encode : bytes -> string;
  (* [datetime.now().strftime("%Y%m%d_%H%M%S")], [uuid.uuid4().hex],
     [mimetypes.guess_extension] *)
  timestamp : string;
  uuid4_hex : string;
  guess_extension : string -> option string;
  (* [openai_client.images.generate] with keyword arguments, then
     [response.data[0].url] *)
  openai_images_generate : list (string * arg) -> result string;
  (* [fal_client.submit(endpoint, arguments).get()]: the urls of
     [result["images"]], or [None] when the result is falsy or has no
     ["images"] key *)
  fal_submit_get : string -> list (string * arg) -> result (option (list string));
  (* [gemini_client.models.generate_images(...)]: [result.generated_images] *)
  gemini_generate_images :
    string -> string -> list (string * arg) -> result (list GeneratedImage);
  (* [gemini_client.models.generate_content_stream(...)]: the chunks *)
  gemini_generate_content_stream : string -> list part -> result (list chunk);
  (* [requests.get(url)], [raise_for_status()], [response.content] *)
  requests_get : string -> result bytes;
  (* [bucket.blob(name).upload_from_string(data, content_type)] *)
  gcs_upload_from_string : string -> bytes -> string -> result unit;
  (* [os.makedirs(folder, exist_ok=True)], [open(path, 'wb')], [f.write(data)] *)
  local_write : string -> string -> bytes -> result unit;
  (* [os.remove(path)] *)
  os_remove : string -> result unit;
  (* [config.BASE_URL], [config.GCS_BUCKET_NAME] *)
  BASE_URL : string;
  GCS_BUCKET_NAME : string
}.

(** [MediaUploader]: whether [storage_client] and [bucket] are set. *)
Record MediaUploader := mkMediaUploader {
  storage_client : bool;
  bucket : bool
}.

(** What can happen in [MediaUploader.__init__]. *)
Inductive gcs_startup : Type :=
| GcsImportError
| GcsClientFails
| GcsBucketFails
| GcsReady.

(** [MediaUploader.__init__]: any failure is logged and leaves the fields
    that were not yet assigned at [None]. *)
Definition MediaUploader_init (startup : gcs_startup) : MediaUploader :=
  match startup with
  | GcsImportError | GcsClientFails => mkMediaUploader false false
  | GcsBucketFails => mkMediaUploader true false
  | GcsReady => mkMediaUploader true true
  end.

(** The state a request runs in: the uploader singleton, the effects so far,
    and the contents of the local filesystem and of the bucket. *)
Record State := mkState {
  uploader : MediaUploader;
  trace : list event;
  local_files : gmap string bytes;
  gcs_blobs : gmap string bytes
}.

(** *** A state and exception monad *)

Definition M (A : Type) : Type := State -> result A * State.

#[global] Instance M_ret : MRet M := fun A a st => (Ok a, st).

#[global] Instance M_bind : MBind M := fun A B k m st =>
  match m st with
  | (Ok a, st') => k a st'
  | (Raise e, st') => (Raise e, st')
  end.

(** [raise e] *)
Definition raise {A : Type} (e : exn) : M A := fun st => (Raise e, st).

(** The outcome of a computation that has no effect. *)
Definition lift {A : Type} (r : result A) : M A := fun st => (r, st).

(** An effect is recorded when it is attempted, whatever its outcome. *)
Definition emit (ev : event) : M unit :=
  fun st => (Ok tt, mkState (uploader st) (trace st ++ [ev]) (local_files st) (gcs_blobs st)).

Definition store_local (path : string) (data : bytes) : M unit :=
  fun st => (Ok tt, mkState (uploader st) (trace st) (<[path := data]> (local_files st))
                      (gcs_blobs st)).

Definition store_blob (name : string) (data : bytes) : M unit :=
  fun st => (Ok tt, mkState (uploader st) (trace st) (local_files st)
                      (<[name := data]> (gcs_blobs st))).

Definition get_uploader : M MediaUploader := fun st => (Ok (uploader st), st).

(** [try: m except Exception: handler] *)
Definition try_except {A : Type} (m : M A) (handler : exn -> M A) : M A :=
  fun st =>
    match m st with
    | (Ok a, st') => (Ok a, st')
    | (Raise e, st') => handler e st'
    end.

(** The provider calls among a list of effects. *)
Definition provider_calls (tr : list event) : list provider_call :=
  omap (fun ev => match ev with EvProvider c => Some c | _ => None end) tr.

(** ** [app/utils/media_uploader.py] *)

(** [str(x)] for an optional string: [None] prints as "None". *)
Definition str_of (x : option string) : string :=
  match x with Some s => s | None => "None" end.

(** [user_id or "anonymous"] *)
Definition or_anonymous (user_id : option string) : string :=
  match user_id with
  | Some u => if String.eqb u "" then "anonymous" else u
  | None => "anonymous"
  end.

(** [os.path.join(a, b)] on POSIX. *)
Definition os_path_join (a b : string) : string :=
  if startswith "/" b then b
  else if String.eqb a "" || ends_with_slash a then a +:+ b
  else a +:+ "/" +:+ b.

Section MediaUploader.

Variable env : Env.

(** The [try] block of [resize_image_if_needed]. [int(x / y)] truncates
    the quotient; dividing by zero raises. *)
Definition resize_image_body (image_content : bytes) (max_dimension : Z) : result bytes :=
  match Image_open env image_content with
  | Raise e => Raise e
  | Ok image =>
      let '(original_width, original_height) := size image in
      if (original_width <=? max_dimension) && (original_height <=? max_dimension) then
        Ok image_content
      else
        let new_size :=
          if original_height <? original_width then
            if original_width =? 0 then None
            else Some (max_dimension, Z.quot (original_height * max_dimension) original_width)
          else
            if original_height =? 0 then None
            else Some (Z.quot (original_width * max_dimension) original_height, max_dimension)
        in
        match new_size with
        | None => Raise (PyExc "ZeroDivisionError" "division by zero")
        | Some new_size =>
            let format_to_use :=
              match format image with
              | Some f => if String.eqb f "" then "JPEG" else f
              | None => "JPEG"
              end in
            resize_and_save env image_content new_size format_to_use
        end
  end.

(** [resize_image_if_needed(image_content, max_dimension)]: any exception
    of the [try] block is logged and the original bytes are returned. *)
Definition resize_image_if_needed (image_content : bytes) (max_dimension : Z) : bytes :=
  match resize_image_body image_content max_dimension with
  | Ok resized => resized
  | Raise _ => image_content
  end.

(** The default [max_dimension]. *)
Definition default_max_dimension : Z := 4000.

(** [upload_bytes(data, filename, user_id, content_type, media_type)]:
    the [except] clause logs and re-raises. *)
Definition upload_bytes (data : bytes) (filename : string) (user_id : option string)
    (content_type media_type : string) : M string :=
  self ← get_uploader;
  if bucket self then
    let destination_blob_name :=
      media_type +:+ "/" +:+ str_of user_id +:+ "/" +:+ filename in
    _ ← emit (EvGcsUpload destination_blob_name);
    _ ← lift (gcs_upload_from_string env destination_blob_name data content_type);
    _ ← store_blob destination_blob_name data;
    mret ("https://storage.googleapis.com/" +:+ GCS_BUCKET_NAME env +:+ "/"
          +:+ destination_blob_name)
  else
    let user_folder := os_path_join (media_type +:+ "s") (or_anonymous user_id) in
    let file_path := os_path_join user_folder filename in
    _ ← emit (EvLocalWrite file_path);
    _ ← lift (local_write env user_folder file_path data);
    _ ← store_local file_path data;
    mret (BASE_URL env +:+ "/" +:+ media_type +:+ "s/" +:+ or_anonymous user_id +:+ "/"
          +:+ filename).

(** [c.isalnum() or c in (' ', '-', '_')] for a character of ASCII text. *)
Definition safe_char (c : ascii) : bool :=
  let n := nat_of_ascii c in
  ((Nat.leb 48 n) && (Nat.leb n 57)) || ((Nat.leb 65 n) && (Nat.leb n 90))
  || ((Nat.leb 97 n) && (Nat.leb n 122))
  || Ascii.eqb c " " || Ascii.eqb c "-" || Ascii.eqb c "_".

Fixpoint filter_chars (keep : ascii -> bool) (s : string) : string :=
  match s with
  | EmptyString => EmptyString
  | String c s' => if keep c then String c (filter_chars keep s') else filter_chars keep s'
  end.

(** [s.rstrip()] *)
Fixpoint rstrip (s : string) : string :=
  match s with
  | EmptyString => EmptyString
  | String c s' =>
      match rstrip s' with
      | EmptyString => if is_space c then EmptyString else String c EmptyString
      | rest => String c rest
      end
  end.

(** [s.replace(' ', '_')] *)
Fixpoint spaces_to_underscores (s : string) : string :=
  match s with
  | EmptyString => EmptyString
  | String c s' =>
      String (if Ascii.eqb c " " then "_"%char else c) (spaces_to_underscores s')
  end.

(** The [safe_prompt] of the upload helpers, for a prompt of ASCII text. *)
Definition safe_prompt (prompt : string) : string :=
  spaces_to_underscores (rstrip (filter_chars safe_char (take_chars 30 prompt))).

(** [upload_image_from_url(image_url, prompt, user_id, style, shape,
    model_prefix)]: the [except] clause logs and re-raises. *)
Definition upload_image_from_url (image_url prompt : string) (user_id : option string)
    (style shape model_prefix : string) : M string :=
  let filename :=
    model_prefix +:+ "_" +:+ timestamp env +:+ "_" +:+ style +:+ "_" +:+ shape +:+ "_"
    +:+ safe_prompt prompt +:+ ".png" in
  _ ← emit (EvDownload image_url);
  data ← lift (requests_get env image_url);
  upload_bytes data filename user_id "image/png" "image".

End MediaUploader.

(** ** [app/features/image_generation/image_generation.py] *)

(** [d.get(k, default)] for a dict literal of strings. *)
Fixpoint get_default (d : list (string * string)) (k default : string) : string :=
  match d with
  | [] => default
  | (k', v) :: d' => if String.eqb k k' then v else get_default d' k default
  end.

Module ImageGenerationService.
Section Service.

Variable env : Env.

(** [self.images_folder] *)
Definition images_folder : string := "generated_images".

(** A provider call: the call is recorded, then it returns or raises as
    the provider decides. *)
Definition provider {A : Type} (call : provider_call) (reply : result A) : M A :=
  _ ← emit (EvProvider call); lift reply.

(** [if not result or "images" not in result or not result["images"]:
    raise Exception(message)], then [result["images"][0]["url"]]. *)
Definition first_image_url (message : string) (reply : option (list string)) : M string :=
  match reply with
  | Some (url :: _) => mret url
  | _ => raise (PyExc "Exception" message)
  end.

(** The loop of [_generate_gemini_streaming] over [image_files[:max_images]]:
    a file without a name is skipped; a failure while reading or attaching
    a file is logged as a warning and the file is skipped. *)
Fixpoint add_reference_images (image_files : list UploadFile) (content_parts : list part)
    (successfully_added : nat) : list part * nat :=
  match image_files with
  | [] => (content_parts, successfully_added)
  | image_file :: rest =>
      if has_filename image_file then
        match read image_file with
        | Ok image_content =>
            let resized_content :=
              resize_image_if_needed env image_content default_max_dimension in
            let mime_type :=
              match content_type image_file with
              | Some t => if String.eqb t "" then "image/jpeg" else t
              | None => "image/jpeg"
              end in
            add_reference_images rest
              (content_parts ++ [PartBytes resized_content mime_type])
              (S successfully_added)
        | Raise _ => add_reference_images rest content_parts successfully_added
        end
      else add_reference_images rest content_parts successfully_added
  end.

(** The first chunk of the stream that carries inline data. *)
Fixpoint first_inline_data (chunks : list chunk) : option (bytes * string) :=
  match chunks with
  | [] => None
  | Some (data, mime_type) :: rest =>
      match data with
      | [] => first_inline_data rest
      | _ => Some (data, mime_type)
      end
  | None :: rest => first_inline_data rest
  end.

(** [_generate_gemini_streaming(prompt, user_id, style, shape, image_files)] *)
Definition _generate_gemini_streaming (prompt : string) (user_id : option string)
    (style shape : string) (image_files : option (list UploadFile)) : M string :=
  let styled_prompt := prompt +:+ ", in " +:+ lower style +:+ " style" in
  let content_parts := [PartText styled_prompt] in
  let content_parts :=
    match image_files with
    | Some ((_ :: _) as files) =>
        let max_images := Nat.min (length files) 4 in
        let '(content_parts, successfully_added) :=
          add_reference_images (take max_images files) content_parts 0 in
        if Nat.ltb 0 successfully_added then
          let styled_prompt :=
            styled_prompt +:+ ". Use the provided " +:+ of_nat successfully_added
            +:+ " reference image" +:+ (if Nat.ltb 1 successfully_added then "s" else "")
            +:+ " as visual reference." in
          <[0%nat := PartText styled_prompt]> content_parts
        else content_parts
    | _ => content_parts
    end in
  chunks ← provider
    (GeminiGenerateContentStream "gemini-2.5-flash-image-preview" content_parts)
    (gemini_generate_content_stream env "gemini-2.5-flash-image-preview" content_parts);
  match first_inline_data chunks with
  | Some (data_buffer, mime_type) =>
      let file_extension :=
        match guess_extension env mime_type with
        | Some ext => if String.eqb ext "" then ".png" else ext
        | None => ".png"
        end in
      let filename :=
        "nanobanana_" +:+ style +:+ "_" +:+ shape +:+ "_" +:+ uuid4_hex env +:+ "_0"
        +:+ file_extension in
      upload_bytes env data_buffer filename user_id mime_type "image"
  | None => raise (PyExc "Exception" "No image data received from Gemini NanoBanana")
  end.

(** The loop of [_generate_seedream] that builds [image_data_urls]; a
    failing [read] propagates. *)
Fixpoint seedream_data_urls (image_files : list UploadFile) : result (list string) :=
  match image_files with
  | [] => Ok []
  | image_file :: rest =>
      match read image_file with
      | Raise e => Raise e
      | Ok image_content =>
          let resized_content :=
            resize_image_if_needed env image_content default_max_dimension in
          let image_base64 := b64encode env resized_content in
          let image_data_url :=
            "data:" +:+ str_of (content_type image_file) +:+ ";base64," +:+ image_base64 in
          match seedream_data_urls rest with
          | Raise e => Raise e
          | Ok urls => Ok (image_data_url :: urls)
          end
      end
  end.

(** [_generate_seedream(prompt, user_id, style, shape, image_files)] *)
Definition _generate_seedream (prompt : string) (user_id : option string)
    (style shape : string) (image_files : option (list UploadFile)) : M string :=
  let styled_prompt := style +:+ " style: " +:+ prompt in
  let shape_mapping :=
    [("square", "square"); ("portrait", "portrait"); ("landscape", "landscape")] in
  let image_size := get_default shape_mapping shape "square" in
  let arguments :=
    [("prompt", AStr styled_prompt); ("aspect_ratio", AStr image_size);
     ("num_inference_steps", AInt 50); ("guidance_scale", ADec "7.5");
     ("num_images", AInt 1)] in
  '(arguments, endpoint) ←
    match image_files with
    | Some ((_ :: _) as files) =>
        if Nat.ltb 4 (length files) then raise (PyExc "ValueError" "Maximum 4 images allowed")
        else
          image_data_urls ← lift (seedream_data_urls files);
          mret (arguments ++ [("image_urls", AStrs image_data_urls)],
                "fal-ai/bytedance/seedream/v4/edit")
    | _ => mret (arguments, "fal-ai/bytedance/seedream/v4/text-to-image")
    end;
  reply ← provider (FalSubmit endpoint arguments) (fal_submit_get env endpoint arguments);
  image_url ← first_image_url "No images generated by SeeDream" reply;
  let num_imgs := match image_files with Some files => length files | None => 0%nat end in
  let prefix := "seedream_" +:+ (if Nat.ltb 0 num_imgs then "edit" else "gen") in
  upload_image_from_url env image_url prompt user_id style shape prefix.

(** [_generate_from_text(prompt, model, user_id, style, shape)] *)
Definition _generate_from_text (prompt model : string) (user_id : option string)
    (style shape : string) : M string :=
  let styled_prompt := prompt +:+ ", in " +:+ lower style +:+ " style" in
  if String.eqb model (model_value DALLE) then
    let size_mapping :=
      [("square", "1024x1024"); ("portrait", "1024x1792"); ("landscape", "1792x1024")] in
    let kwargs :=
      [("model", AStr "dall-e-3"); ("prompt", AStr styled_prompt); ("n", AInt 1);
       ("size", AStr (get_default size_mapping shape "1024x1024"));
       ("quality", AStr "standard")] in
    url ← provider (OpenAIImagesGenerate kwargs) (openai_images_generate env kwargs);
    upload_image_from_url env url prompt user_id style shape "dalle"
  else if mem model [model_value FLUX_1_SPRO; model_value FLUX_KONTEXT_DEV; model_value QWEN]
  then
    let shape_mapping :=
      [("square", "square_hd"); ("portrait", "portrait_4_3");
       ("landscape", "landscape_4_3")] in
    let styled_prompt := style +:+ " style: " +:+ prompt in
    let '(endpoint, prefix, steps, guidance) :=
      if String.eqb model (model_value FLUX_1_SPRO) then
        ("fal-ai/flux-1/srpo", "flux1_srpo", 28, "3.5")
      else if String.eqb model (model_value FLUX_KONTEXT_DEV) then
        ("fal-ai/flux-pro/kontext/max/text-to-image", "flux_kontext", 28, "3.5")
      else
        ("fal-ai/qwen-image", "qwen", 30, "4.0") in
    let arguments :=
      [("prompt", AStr styled_prompt);
       ("image_size", AStr (get_default shape_mapping shape "square_hd"));
       ("num_inference_steps", AInt steps); ("guidance_scale", ADec guidance);
       ("num_images", AInt 1); ("enable_safety_checker", ABool true)] in
    reply ← provider (FalSubmit endpoint arguments) (fal_submit_get env endpoint arguments);
    url ← first_image_url ("No images generated by " +:+ model) reply;
    upload_image_from_url env url prompt user_id style shape prefix
  else if String.eqb model (model_value GEMINI) then
    let aspect_ratio_mapping :=
      [("square", "1:1"); ("portrait", "9:16"); ("landscape", "16:9")] in
    let config :=
      [("number_of_images", AInt 1); ("output_mime_type", AStr "image/jpeg");
       ("aspect_ratio", AStr (get_default aspect_ratio_mapping shape "1:1"));
       ("image_size", AStr "1K")] in
    generated_images ← provider
      (GeminiGenerateImages "models/imagen-4.0-generate-001" styled_prompt config)
      (gemini_generate_images env "models/imagen-4.0-generate-001" styled_prompt config);
    match generated_images with
    | [] => raise (PyExc "Exception" "No images generated by Gemini")
    | image :: _ =>
        let filename :=
          "gemini_" +:+ style +:+ "_" +:+ shape +:+ "_" +:+ uuid4_hex env +:+ ".jpg" in
        image_bytes ←
          match save_to_buffer image with
          | Raise (PyExc cls msg) =>
              if String.eqb cls "TypeError" then
                let filepath := os_path_join images_folder filename in
                image_bytes ← lift (save_to_file image filepath);
                _ ← emit (EvRemove filepath);
                (* [try: os.remove(filepath) except: pass] *)
                let _ := os_remove env filepath in
                mret image_bytes
              else raise (PyExc cls msg)
          | saved => lift saved
          end;
        upload_bytes env image_bytes filename user_id "image/jpeg" "image"
    end
  else if String.eqb model (model_value GEMINI_NANOBANANA) then
    _generate_gemini_streaming prompt user_id style shape None
  else if String.eqb model (model_value SEEDREAM) then
    _generate_seedream prompt user_id style shape None
  else
    raise (PyExc "ValueError"
             ("Model " +:+ model +:+ " not supported for text-to-image generation")).

(** [_edit_image(prompt, model, user_id, style, shape, image_files)] *)
Definition _edit_image (prompt model : string) (user_id : option string)
    (style shape : string) (image_files : list UploadFile) : M string :=
  let max_files := default 0%nat (MODEL_MAX_IMAGES !! model) in
  if Nat.ltb max_files (length image_files) then
    raise (PyExc "ValueError"
             ("Model " +:+ model +:+ " supports maximum " +:+ of_nat max_files
              +:+ " reference images"))
  else if String.eqb model (model_value FLUX_KONTEXT_EDIT) then
    match image_files with
    | [] => raise (PyExc "IndexError" "list index out of range")
    | first :: _ =>
        image_content ← lift (read first);
        let resized_content :=
          resize_image_if_needed env image_content default_max_dimension in
        let image_base64 := b64encode env resized_content in
        let image_data_url :=
          "data:" +:+ str_of (content_type first) +:+ ";base64," +:+ image_base64 in
        let styled_prompt := style +:+ " style: " +:+ prompt in
        let shape_mapping :=
          [("square", "square_hd"); ("portrait", "portrait_4_3");
           ("landscape", "landscape_4_3")] in
        let arguments :=
          [("prompt", AStr styled_prompt); ("image_url", AStr image_data_url);
           ("image_size", AStr (get_default shape_mapping shape "square_hd"));
           ("num_inference_steps", AInt 28); ("guidance_scale", ADec "3.5");
           ("num_images", AInt 1); ("enable_safety_checker", ABool true)] in
        reply ← provider (FalSubmit "fal-ai/flux-pro/kontext/max" arguments)
                  (fal_submit_get env "fal-ai/flux-pro/kontext/max" arguments);
        url ← first_image_url "No images generated by Flux Kontext Edit" reply;
        upload_image_from_url env url prompt user_id style shape "flux_edit"
    end
  else if String.eqb model (model_value GEMINI_NANOBANANA) then
    _generate_gemini_streaming prompt user_id style shape (Some image_files)
  else if String.eqb model (model_value SEEDREAM) then
    _generate_seedream prompt user_id style shape (Some image_files)
  else
    raise (PyExc "ValueError" ("Model " +:+ model +:+ " not supported for image editing")).

(** [generate_image(prompt, model, mode, user_id, style, shape,
    image_files)]: the [except] clause logs and re-raises. *)
Definition generate_image (prompt model mode : string) (user_id : option string)
    (style shape : string) (image_files : option (list UploadFile)) : M string :=
  if String.eqb mode "generate" then
    _generate_from_text prompt model user_id style shape
  else if String.eqb mode "edit" then
    match image_files with
    | Some ((_ :: _) as files) => _edit_image prompt model user_id style shape files
    | _ => raise (PyExc "ValueError" "Image files required for edit mode")
    end
  else raise (PyExc "ValueError" ("Invalid mode: " +:+ mode)).

End Service.
End ImageGenerationService.

(** ** [app/features/image_generation/image_generation_route.py]: the endpoint *)

Module ImageRoute.
Section Route.

Variable env : Env.

(** The [try] block of the endpoint. *)
Definition generate_image_body (mode prompt model style shape : string)
    (image_files : option (list UploadFile)) (user_id : option string)
    : M ImageGenerationResponse :=
  _ ← lift (validate_generate_request mode prompt model style shape image_files);
  image_url ← ImageGenerationService.generate_image env
                prompt model mode user_id style shape image_files;
  let success_message :=
    "Image " +:+ (if String.eqb mode "generate" then "generated" else "edited")
    +:+ " successfully using " +:+ model in
  mret (mkImageGenerationResponse 200 success_message image_url model shape).

(** [POST /generate]: an [HTTPException] is re-raised as it is; any other
    exception is classified by [handle_service_error]. *)
Definition generate_image (mode prompt model style shape : string)
    (image_files : option (list UploadFile)) (user_id : option string)
    : M ImageGenerationResponse :=
  try_except (generate_image_body mode prompt model style shape image_files user_id)
    (fun e =>
       match e with
       | HTTPExc h => raise (HTTPExc h)
       | PyExc _ msg => raise (HTTPExc (handle_service_error msg model "image generation"))
       end).

End Route.
End ImageRoute.

(** *** Vocabulary for statements about runs *)

(** The state before any request: nothing recorded, nothing stored. *)
Definition initial_state (self : MediaUploader) : State := mkState self [] ∅ ∅.

(** Running [m] adds exactly the provider calls [l], in this order. *)
Definition calls_exactly {A : Type} (l : list provider_call) (m : M A) : Prop :=
  forall st, provider_calls (trace (m st).2) = provider_calls (trace st) ++ l.

(** Running [m] adds at most [n] provider calls. *)
Definition calls_within {A : Type} (n : nat) (m : M A) : Prop :=
  forall st, exists l,
    provider_calls (trace (m st).2) = provider_calls (trace st) ++ l /\ (length l <= n)%nat.

(** The value sent under key [k] by a provider call. *)
Fixpoint arg_of (k : string) (args : list (string * arg)) : option arg :=
  match args with
  | [] => None
  | (k', v) :: rest => if String.eqb k k' then Some v else arg_of k rest
  end.

Definition call_param (c : provider_call) (k : string) : option arg :=
  match c with
  | OpenAIImagesGenerate kwargs => arg_of k kwargs
  | FalSubmit _ arguments => arg_of k arguments
  | GeminiGenerateImages _ _ config => arg_of k config
  | GeminiGenerateContentStream _ _ => None
  end.

(** Running [m] issues exactly one provider call, which carries the string
    [v] under key [k]. *)
Definition sends {A : Type} (m : M A) (k v : string) : Prop :=
  exists c, calls_exactly [c] m /\ call_param c k = Some (AStr v).

(** The documented encodings of a shape, per provider. *)
Definition dalle_size (s : ImageShape) : string :=
  match s with
  | SQUARE => "1024x1024"
  | PORTRAIT => "1024x1792"
  | LANDSCAPE => "1792x1024"
  end.

Definition fal_image_size (s : ImageShape) : string :=
  match s with
  | SQUARE => "square_hd"
  | PORTRAIT => "portrait_4_3"
  | LANDSCAPE => "landscape_4_3"
  end.

Definition imagen_aspect_ratio (s : ImageShape) : string :=
  match s with
  | SQUARE => "1:1"
  | PORTRAIT => "9:16"
  | LANDSCAPE => "16:9"
  end.


(** Every download and every write to either store raises [e]. *)
Definition storage_raises (env : Env) (e : exn) : Prop :=
  (forall url, requests_get env url = Raise e) /\
  (forall name data content_type, gcs_upload_from_string env name data content_type = Raise e) /\
  (forall folder path data, local_write env folder path data = Raise e).


(** What the endpoint answers for the outcome of the service call: an
    [HTTPException] as it is, any other exception classified. *)
Definition at_route_boundary (mode model shape : string) (outcome : result string)
    : result ImageGenerationResponse :=
  match outcome with
  | Ok image_url =>
      Ok (mkImageGenerationResponse 200
            ("Image " +:+ (if String.eqb mode "generate" then "generated" else "edited")
             +:+ " successfully using " +:+ model)
            image_url model shape)
  | Raise (HTTPExc h) => Raise (HTTPExc h)
  | Raise (PyExc _ msg) =>
      Raise (HTTPExc (handle_service_error msg model "image generation"))
  end.

(** *** A small world for examples

    An image file is two bytes or more: width and height in thousands of
    pixels. Every provider answers, the network and both stores work. *)
Definition example_open (content : bytes) : result Image :=
  match content with
  | w :: h :: _ =>
      Ok (mkImage (1000 * Z.of_N (Byte.to_N w), 1000 * Z.of_N (Byte.to_N h)) (Some "PNG"))
  | _ => Raise (PyExc "UnidentifiedImageError" "cannot identify image file")
  end.

Definition example_env : Env :=
  {| Image_open := example_open;
     resize_and_save := fun _ new_size _ =>
       Ok [default Byte.x00 (Byte.of_N (Z.to_N (new_size.1 / 1000)));
           default Byte.x00 (Byte.of_N (Z.to_N (new_size.2 / 1000)))];
     b64encode := fun _ => "AQI=";
     timestamp := "20260101_120000";
     uuid4_hex := "0123456789abcdef0123456789abcdef";
     guess_extension := fun mime => if String.eqb mime "image/png" then Some ".png" else None;
     openai_images_generate := fun _ => Ok "https://provider.example/dalle.png";
     fal_submit_get := fun _ _ => Ok (Some ["https://provider.example/fal.png"]);
     gemini_generate_images := fun _ _ _ =>
       Ok [mkGeneratedImage (Ok [Byte.x01]) (fun _ => Ok [Byte.x01])];
     gemini_generate_content_stream := fun _ _ => Ok [None; Some ([Byte.x02], "image/png")];
     requests_get := fun _ => Ok [Byte.x03];
     gcs_upload_from_string := fun _ _ _ => Ok tt;
     local_write := fun _ _ _ => Ok tt;
     os_remove := fun _ => Ok tt;
     BASE_URL := "http://10.0.30.211:5642";
     GCS_BUCKET_NAME := "dream-canvas" |}.


(** An upload whose [read] raises. *)
Definition unreadable_upload (name mime : string) : UploadFile :=
  mkUploadFile (Some name) (Some mime) (Raise (PyExc "OSError" "read of closed file")).

(** *** Vocabulary for statements about the classifier *)

(** The message, as raised or as the classifier lower-cases it, contains one
    of [patterns]. *)
Definition mentions (patterns : list string) (e : string) : Prop :=
  exists p, In p patterns /\ (str_in p e = true \/ str_in p (lower e) = true).

(** Every keyword that [handle_service_error] itself looks for, in the order
    of the source: the provider and storage routing words first, then the
    words of its own chain. *)
Definition service_error_keywords : list string :=
  ["openai"; "gpt"; "dalle"; "gemini"; "google"; "imagen"; "storage"; "gcs"; "bucket";
   "connection"; "timeout"; "network"; "unreachable"; "rate limit"; "quota";
   "unauthorized"; "api key"; "authentication"; "forbidden"; "permission";
   "not found"; "404"].

(** The status codes the classifier can produce. *)
Definition classifier_status_codes : list Z :=
  [400; 401; 402; 403; 404; 422; 429; 500; 503; 504; 507].

(** A normalized error: a known status, repeated in the detail, with an
    error type, a message and a details mapping. *)
Definition structured (h : HTTPException) : Prop :=
  In (status_code h) classifier_status_codes /\
  dict_get (detail h) "status_code" = Some (JInt (status_code h)) /\
  (exists t, error_type_of h = Some (JStr t)) /\
  (exists m, message_of h = Some (JStr m)) /\
  (exists d, details_of h = Some (JObj d)).

(** ** [app/utils/media_uploader.py]: the video and audio helpers *)

Section MediaUploaderMedia.

Variable env : Env.

(** [upload_video_from_url(video_url, prompt, user_id, shape, model_prefix)]:
    the [except] clause logs and re-raises. *)
Definition upload_video_from_url (video_url prompt : string) (user_id : option string)
    (shape model_prefix : string) : M string :=
  let filename :=
    model_prefix +:+ "_" +:+ timestamp env +:+ "_" +:+ shape +:+ "_"
    +:+ safe_prompt prompt +:+ ".mp4" in
  _ ← emit (EvDownload video_url);
  data ← lift (requests_get env video_url);
  upload_bytes env data filename user_id "video/mp4" "video".

(** [upload_audio_from_url(audio_url, prompt, user_id, model_prefix)]: the
    [except] clause logs and re-raises. *)
Definition upload_audio_from_url (audio_url prompt : string) (user_id : option string)
    (model_prefix : string) : M string :=
  let filename :=
    model_prefix +:+ "_" +:+ timestamp env +:+ "_" +:+ safe_prompt prompt +:+ ".mp3" in
  _ ← emit (EvDownload audio_url);
  data ← lift (requests_get env audio_url);
  upload_bytes env data filename user_id "audio/mpeg" "audio".

End MediaUploaderMedia.

(** The handler shared by the endpoints: an [HTTPException] is re-raised as
    it is; any other exception is classified by [handle_service_error]
    under the endpoint's service name and operation. *)
Definition classify_unless_http {A : Type} (service_name operation : string) (e : exn) : M A :=
  match e with
  | HTTPExc h => raise (HTTPExc h)
  | PyExc _ msg => raise (HTTPExc (handle_service_error msg service_name operation))
  end.

(** ** [app/features/video_generation] *)

Module VideoGeneration.

(** *** [video_generation_schema.py] *)

Inductive VideoModel : Type :=
| VEO_2 | VEO_3_FAST | PIXVERSE | KLING
| PIXVERSE_IMAGE_TO_VIDEO | KLING_IMAGE_TO_VIDEO | WAN_2_2.

Inductive VideoShape : Type := SQUARE | PORTRAIT | LANDSCAPE.

Inductive VideoMode : Type := GENERATE | EDIT.

Definition video_model_value (m : VideoModel) : string :=
  match m with
  | VEO_2 => "veo-2"
  | VEO_3_FAST => "veo-3-fast"
  | PIXVERSE => "pixverse"
  | KLING => "kling"
  | PIXVERSE_IMAGE_TO_VIDEO => "pixverse-image-to-video"
  | KLING_IMAGE_TO_VIDEO => "kling-image-to-video"
  | WAN_2_2 => "wan-2.2"
  end.

Definition video_shape_value (s : VideoShape) : string :=
  match s with
  | SQUARE => "square"
  | PORTRAIT => "portrait"
  | LANDSCAPE => "landscape"
  end.

Definition video_mode_value (m : VideoMode) : string :=
  match m with
  | GENERATE => "generate"
  | EDIT => "edit"
  end.

Definition VideoShape_members : list VideoShape := [SQUARE; PORTRAIT; LANDSCAPE].
Definition VideoMode_members : list VideoMode := [GENERATE; EDIT].

Definition TEXT_TO_VIDEO_MODELS : list VideoModel := [VEO_2; VEO_3_FAST; PIXVERSE; KLING].

Definition IMAGE_TO_VIDEO_MODELS : list VideoModel :=
  [PIXVERSE_IMAGE_TO_VIDEO; KLING_IMAGE_TO_VIDEO; WAN_2_2].

Record VideoGenerationResponse := mkVideoGenerationResponse {
  video_status : Z;
  video_success_message : string;
  video_url : string
}.

(** *** [video_generation_route.py] *)

(** [video_generation_service.generate_video(prompt, model, mode, user_id,
    shape, image_file, image_filename)]; the service is not part of the
    sources at hand, so the endpoint is modelled over any service. *)
Definition VideoService : Type :=
  string -> string -> string -> option string -> string -> option bytes -> option string
  -> M string.

Section Route.

Variable video_generation_service : VideoService.

(** The edit-mode block of the endpoint: the bytes and the name of the
    image. An [UploadFile] object is truthy, so [not image_file] holds for
    [None] only. *)
Definition read_edit_image (image_file : option UploadFile)
    : M (option bytes * option string) :=
  match image_file with
  | None => raise (validation_error "Image file required for edit mode")
  | Some file =>
      if negb (has_filename file) then
        raise (validation_error "Image file required for edit mode")
      else
        _ ← lift (validate_file_types [file] allowed_image_types "image_file");
        image_bytes ← lift (read file);
        mret (Some image_bytes, filename file)
  end.

(** The [try] block of the endpoint. *)
Definition generate_video_body (mode prompt model shape : string)
    (image_file : option UploadFile) (user_id : option string)
    : M VideoGenerationResponse :=
  if negb (mem mode (map video_mode_value VideoMode_members)) then
    raise (validation_error "Mode must be 'generate' or 'edit'")
  else
    let valid_models :=
      if String.eqb mode "generate" then map video_model_value TEXT_TO_VIDEO_MODELS
      else map video_model_value IMAGE_TO_VIDEO_MODELS in
    if negb (mem model valid_models) then
      raise (validation_error
        ((if String.eqb mode "generate" then "Invalid model for generate mode. Valid models: "
          else "Invalid model for edit mode. Valid models: ") +:+ join ", " valid_models))
    else if negb (mem shape (map video_shape_value VideoShape_members)) then
      raise (validation_error
        ("Invalid shape. Valid shapes: " +:+ join ", " (map video_shape_value VideoShape_members)))
    else if blank prompt then
      raise (validation_error "Prompt is required")
    else
      image ← (if String.eqb mode "edit" then read_edit_image image_file
               else mret (None, None));
      video_url ← video_generation_service prompt model mode user_id shape image.1 image.2;
      let success_message :=
        "Video " +:+ (if String.eqb mode "generate" then "generated" else "created from image")
        +:+ " successfully using " +:+ model in
      mret (mkVideoGenerationResponse 200 success_message video_url).

(** [POST /generate] *)
Definition generate_video (mode prompt model shape : string)
    (image_file : option UploadFile) (user_id : option string)
    : M VideoGenerationResponse :=
  try_except (generate_video_body mode prompt model shape image_file user_id)
    (classify_unless_http model "video generation").

End Route.
End VideoGeneration.

(** ** [app/features/ai_avatar] *)

Module AIAvatar.

(** What [result = handler.get()] of the OmniHuman endpoint holds: nothing
    that passes the test on [result["video"]], a video without a ["url"]
    key, or a video with its URL. *)
Inductive omnihuman_result : Type :=
| NoVideo
| VideoWithoutUrl
| VideoUrl (url : string).

(** The part of the outside world that only the avatar service uses. *)
Record FalEnv := mkFalEnv {
  (* [fal_client.upload(data, content_type=...)]: the URL of the upload *)
  fal_upload : bytes -> option string -> result string;
  (* [fal_client.submit("fal-ai/bytedance/omnihuman", arguments).get()] *)
  omnihuman_submit_get : list (string * arg) -> result omnihuman_result;
  (* [img.convert("RGB").resize(new_size, LANCZOS)] and
     [save(buffer, format="JPEG", quality=95)] of the image opened from the
     given content *)
  convert_resize_and_save : bytes -> Z * Z -> result bytes
}.

Record AIAvatarResponse := mkAIAvatarResponse {
  avatar_status : Z;
  avatar_success_message : string;
  avatar_video_url : string
}.

(** *** [ai_avatar_service.py] *)

(** The size the service resizes to, and [needs_resize]. [int(x / y)]
    truncates the quotient; the divisor is larger than 4000 whenever a
    division is reached. *)
Definition avatar_target_size (width height : Z) : (Z * Z) * bool :=
  let '(new_width, new_height, needs_resize) :=
    if (4000 <? width) || (4000 <? height) then
      if height <? width then (4000, Z.quot (height * 4000) width, true)
      else (Z.quot (width * 4000) height, 4000, true)
    else (width, height, false) in
  if (new_width <? 512) || (new_height <? 512) then
    ((Z.max new_width 512, Z.max new_height 512), true)
  else ((new_width, new_height), needs_resize).

Section Service.

Variable env : Env.
Variable fal : FalEnv.

(** The inner [try] block of [generate_video]: the image content to send. *)
Definition resize_for_fal_body (image_content : bytes) : result bytes :=
  match Image_open env image_content with
  | Raise e => Raise e
  | Ok img =>
      let '(width, height) := size img in
      let '(new_size, needs_resize) := avatar_target_size width height in
      if needs_resize then convert_resize_and_save fal image_content new_size
      else Ok image_content
  end.

(** Any exception of the inner [try] block is logged as a warning and the
    original image is kept. *)
Definition resize_for_fal (image_content : bytes) : bytes :=
  match resize_for_fal_body image_content with
  | Ok resized => resized
  | Raise _ => image_content
  end.

(** [generate_video(image_file, audio_file, user_id)]: the [except] clause
    logs and re-raises; the two [seek(0)] calls leave no trace in the model.
    [image_file.filename[:30]] raises for a name that is [None]. *)
Definition generate_video (image_file audio_file : UploadFile) (user_id : option string)
    : M string :=
  image_content ← lift (read image_file);
  audio_content ← lift (read audio_file);
  let image_content := resize_for_fal image_content in
  image_url ← lift (fal_upload fal image_content (Some "image/jpeg"));
  audio_url ← lift (fal_upload fal audio_content (content_type audio_file));
  let arguments := [("image_url", AStr image_url); ("audio_url", AStr audio_url)] in
  result ← ImageGenerationService.provider
             (FalSubmit "fal-ai/bytedance/omnihuman" arguments)
             (omnihuman_submit_get fal arguments);
  video_url ← match result with
              | NoVideo => raise (PyExc "Exception" "No video generated by FAL.ai")
              | VideoWithoutUrl => raise (PyExc "KeyError" "'url'")
              | VideoUrl url => mret url
              end;
  safe_name ← match filename image_file with
              | Some name => mret (safe_prompt name)
              | None => raise (PyExc "TypeError" "'NoneType' object is not subscriptable")
              end;
  upload_video_from_url env video_url safe_name user_id "landscape" "ai_avatar".

(** *** [ai_avatar_route.py] *)

Definition allowed_audio_types : list string :=
  ["audio/mpeg"; "audio/mp3"; "audio/wav"; "audio/ogg"; "audio/m4a"].

(** The [HTTPException] of the four validation steps. *)
Definition field_error (message field : string) : exn :=
  HTTPExc (mkHTTPException 400
    [("error", JStr "Validation Error"); ("message", JStr message); ("field", JStr field)]).

(** The [try] block of the endpoint. *)
Definition generate_ai_avatar_video_body (image_file audio_file : UploadFile)
    (user_id : option string) : M AIAvatarResponse :=
  if negb (has_filename image_file) then
    raise (field_error "Image file is required" "image_file")
  else if type_not_allowed allowed_image_types image_file then
    raise (field_error
      ("Invalid image file type. Allowed types: " +:+ join ", " allowed_image_types)
      "image_file")
  else if negb (has_filename audio_file) then
    raise (field_error "Audio file is required" "audio_file")
  else if type_not_allowed allowed_audio_types audio_file then
    raise (field_error
      ("Invalid audio file type. Allowed types: " +:+ join ", " allowed_audio_types)
      "audio_file")
  else
    video_url ← generate_video image_file audio_file user_id;
    mret (mkAIAvatarResponse 200
            "AI Avatar video generated successfully with ByteDance OmniHuman" video_url).

(** [POST /ai-avatar] *)
Definition generate_ai_avatar_video (image_file audio_file : UploadFile)
    (user_id : option string) : M AIAvatarResponse :=
  try_except (generate_ai_avatar_video_body image_file audio_file user_id)
    (classify_unless_http "ByteDance OmniHuman" "generate AI avatar video").

End Service.
End AIAvatar.

(** ** [main.py]: the exception handler *)

(** A [JSONResponse]. *)
Record JSONResponse := mkJSONResponse {
  response_status : Z;
  content : dict
}.

(** [str(n)] for an integer. *)
Definition str_of_Z (n : Z) : string := pretty n.

(** [http_exception_handler(request, exc)]; [url] is [str(request.url)]. *)
Definition http_exception_handler (url : string) (exc : HTTPException) : JSONResponse :=
  mkJSONResponse (status_code exc)
    [("error", JStr ("HTTP " +:+ str_of_Z (status_code exc) +:+ " Error"));
     ("message", JObj (detail exc));
     ("status_code", JInt (status_code exc));
     ("path", JStr url)].

(** A small world for the avatar examples: uploads and the OmniHuman call
    succeed; resizing sets the two leading bytes as [example_env] does. *)
Definition example_fal : AIAvatar.FalEnv :=
  {| AIAvatar.fal_upload := fun data _ =>
       Ok ("https://fal.example/files/" +:+ of_nat (length data));
     AIAvatar.omnihuman_submit_get := fun _ =>
       Ok (AIAvatar.VideoUrl "https://fal.example/out.mp4");
     AIAvatar.convert_resize_and_save := fun _ new_size =>
       Ok [default Byte.x00 (Byte.of_N (Z.to_N (new_size.1 / 1000)));
           default Byte.x00 (Byte.of_N (Z.to_N (new_size.2 / 1000)))] |}.

(** *** Vocabulary for statements about file names *)

(** Every character of [s] satisfies [ok]. *)
Fixpoint all_chars (ok : ascii -> bool) (s : string) : bool :=
  match s with
  | EmptyString => true
  | String c s' => ok c && all_chars ok s'
  end.

(** An ASCII letter or digit, a hyphen or an underscore. *)
Definition name_char (c : ascii) : bool :=
  let n := nat_of_ascii c in
  ((Nat.leb 48 n) && (Nat.leb n 57)) || ((Nat.leb 65 n) && (Nat.leb n 90))
  || ((Nat.leb 97 n) && (Nat.leb n 122)) || Ascii.eqb c "-" || Ascii.eqb c "_".

(** Every character of [s] is an ASCII character. On such text the string
    operations of this file are those of Python: a code point is one
    character, [str.isalnum] accepts the ASCII letters and digits only, and
    [str.isspace] the ten characters of [is_space]. *)
Definition ascii_text (s : string) : bool :=
  all_chars (fun c => Nat.ltb (nat_of_ascii c) 128) s.

(** The labels of [handle_storage_error]. *)
Definition storage_labels : list string :=
  ["Storage Permission Error"; "Storage Full"; "Storage Error"].

(** A reference image that the Gemini NanoBanana path attaches: it has a
    name and its [read] returns. *)
Definition attachable (f : UploadFile) : bool :=
  has_filename f && match read f with Ok _ => true | Raise _ => false end.

(** The sentence that [_generate_gemini_streaming] appends to the prompt for
    [n] attached images. *)
Definition reference_note (n : nat) : string :=
  ". Use the provided " +:+ of_nat n +:+ " reference image"
  +:+ (if Nat.ltb 1 n then "s" else "") +:+ " as visual reference.".

(** *** Vocabulary for statements about faults *)





(* ===================================================================== *)
(** * Theorems *)
(* ===================================================================== *)

(** ** Facts about the string operations *)

Section StringFacts.

Lemma append_cons (c : ascii) (a b : string) :
  String c a +:+ b = String c (a +:+ b).
Proof. reflexivity. Qed.

Lemma prefix_app (p s : string) :
  String.prefix p s = true <-> exists b, s = p +:+ b.
Proof.
  revert s; induction p as [|c p IH]; intros s.
  - split; [intros _; exists s; reflexivity | intros _; destruct s; reflexivity].
  - destruct s as [|d s]; simpl.
    + split; [discriminate | intros [b Hb]; discriminate].
    + destruct (Ascii.ascii_dec c d) as [->|Hne].
      * rewrite IH. split; intros [b Hb]; exists b;
          rewrite append_cons in *; congruence.
      * split; [discriminate | intros [b Hb]; rewrite append_cons in Hb; congruence].
Qed.

Lemma str_in_app (p s : string) :
  str_in p s = true <-> exists a b, s = a +:+ p +:+ b.
Proof.
  induction s as [|d s IH]; cbn [str_in].
  - rewrite orb_false_r, prefix_app. split.
    + intros [b Hb]. exists "", b. exact Hb.
    + intros [a [b Hab]]. destruct a; [eauto | discriminate].
  - rewrite orb_true_iff, prefix_app, IH. split.
    + intros [[b Hb] | [a [b Hab]]].
      * exists "", b. exact Hb.
      * exists (String d a), b. rewrite append_cons. now rewrite Hab.
    + intros [a [b Hab]]. destruct a as [|e a].
      * left. eauto.
      * right. rewrite append_cons in Hab. inversion Hab. eauto.
Qed.

Lemma lower_app (a b : string) : lower (a +:+ b) = lower a +:+ lower b.
Proof.
  induction a as [|c a IH]; [reflexivity|].
  rewrite append_cons. simpl. now rewrite IH.
Qed.

Lemma str_in_lower (p s : string) :
  str_in p s = true -> str_in (lower p) (lower s) = true.
Proof.
  rewrite !str_in_app. intros [a [b ->]].
  exists (lower a), (lower b). now rewrite !lower_app.
Qed.

Lemma app_assoc_str (a b c : string) : (a +:+ b) +:+ c = a +:+ b +:+ c.
Proof.
  induction a as [|x a IH]; [reflexivity|].
  rewrite !append_cons. now rewrite IH.
Qed.

Lemma str_in_trans (p q s : string) :
  str_in p q = true -> str_in q s = true -> str_in p s = true.
Proof.
  rewrite !str_in_app. intros [a [b ->]] [a' [b' ->]].
  exists (a' +:+ a), (b +:+ b'). now rewrite !app_assoc_str.
Qed.

Lemma any_in_true (patterns : list string) (s : string) :
  any_in patterns s = true <-> exists p, In p patterns /\ str_in p s = true.
Proof. unfold any_in. apply existsb_exists. Qed.

Lemma any_in_false (patterns : list string) (s : string) :
  any_in patterns s = false <-> forall p, In p patterns -> str_in p s = false.
Proof.
  unfold any_in. split.
  - intros H p Hp. destruct (str_in p s) eqn:E; [|reflexivity].
    assert (existsb (fun q => str_in q s) patterns = true) as H'
      by (apply existsb_exists; eauto).
    congruence.
  - intros H. destruct (existsb _ patterns) eqn:E; [|reflexivity].
    apply existsb_exists in E as [p [Hp Hin]]. rewrite (H p Hp) in Hin. discriminate.
Qed.

End StringFacts.

(** ** The error classifier *)

Section Classifier.

Lemma mentions_lower (patterns : list string) (e : string) :
  forallb (fun p => String.eqb (lower p) p) patterns = true ->
  mentions patterns e -> any_in patterns (lower e) = true.
Proof.
  intros Hlow [p [Hp Hin]]. apply any_in_true. exists p. split; [exact Hp|].
  destruct Hin as [Hraw|Hl]; [|exact Hl].
  rewrite forallb_forall in Hlow. specialize (Hlow p Hp).
  apply String.eqb_eq in Hlow. rewrite <- Hlow. now apply str_in_lower.
Qed.

Lemma rate_limit_first (e operation : string) :
  any_in pat_rate_limit (lower e) = true ->
  status_code (handle_fal_ai_error e operation) = 429 /\
  error_type_of (handle_fal_ai_error e operation) = Some (JStr "Rate Limit Error").
Proof.
  intros H. unfold handle_fal_ai_error. cbv zeta. rewrite H. split; reflexivity.
Qed.

Lemma create_error_response_structured (s : Z) (t m : string) (d : dict) :
  In s classifier_status_codes ->
  structured (create_error_response s t m (Some (JObj d)) None).
Proof.
  intros Hs. repeat split; try exact Hs; try reflexivity;
    [exists t | exists m | exists d]; reflexivity.
Qed.

Ltac known_status := simpl; repeat (first [left; reflexivity | right]).

Ltac structured_branch :=
  first [ apply create_error_response_structured; known_status
        | unfold ai_details; apply create_error_response_structured; known_status ].

Lemma handle_fal_ai_error_structured (e operation : string) :
  structured (handle_fal_ai_error e operation).
Proof.
  unfold handle_fal_ai_error. cbv zeta.
  repeat (match goal with
          | |- context [if any_in ?g ?m then _ else _] =>
              destruct (any_in g m); [structured_branch|]
          end).
  structured_branch.
Qed.

Lemma handle_openai_error_structured (e operation : string) :
  structured (handle_openai_error e operation).
Proof.
  unfold handle_openai_error. cbv zeta.
  repeat (match goal with
          | |- context [if ?b then _ else _] => destruct b; [structured_branch|]
          end).
  structured_branch.
Qed.

Lemma handle_google_ai_error_structured (e operation : string) :
  structured (handle_google_ai_error e operation).
Proof.
  unfold handle_google_ai_error. cbv zeta.
  repeat (match goal with
          | |- context [if ?b then _ else _] => destruct b; [structured_branch|]
          end).
  structured_branch.
Qed.

Lemma handle_storage_error_structured (e operation : string) :
  structured (handle_storage_error e operation).
Proof.
  unfold handle_storage_error. cbv zeta.
  repeat (match goal with
          | |- context [if ?b then _ else _] => destruct b; [structured_branch|]
          end).
  structured_branch.
Qed.

Lemma handle_service_error_structured (e service_name operation : string) :
  structured (handle_service_error e service_name operation).
Proof.
  unfold handle_service_error. cbv zeta.
  destruct (routes_to_fal _ _); [apply handle_fal_ai_error_structured|].
  destruct (_ || _); [apply handle_openai_error_structured|].
  destruct (_ || _); [apply handle_google_ai_error_structured|].
  destruct (_ || _); [apply handle_storage_error_structured|].
  repeat (match goal with
          | |- context [if ?b then _ else _] => destruct b; [structured_branch|]
          end).
  structured_branch.
Qed.

Lemma fal_fallthrough (e operation : string) :
  Forall (fun g => any_in g (lower e) = false) fal_pattern_groups ->
  status_code (handle_fal_ai_error e operation) = 500 /\
  error_type_of (handle_fal_ai_error e operation) = Some (JStr "AI Service Error").
Proof.
  intros H. rewrite Forall_forall in H.
  unfold handle_fal_ai_error. cbv zeta.
  repeat (match goal with
          | |- context [if any_in ?g ?m then _ else _] =>
              rewrite (H g) by (unfold fal_pattern_groups;
                                repeat (first [left; reflexivity | right]))
          end).
  split; reflexivity.
Qed.

Lemma service_fallthrough (e service_name operation : string) :
  routes_to_fal (lower e) service_name = false ->
  any_in service_error_keywords (lower e) = false ->
  status_code (handle_service_error e service_name operation) = 500 /\
  error_type_of (handle_service_error e service_name operation) = Some (JStr "Service Error").
Proof.
  intros Hr H. rewrite any_in_false in H.
  unfold handle_service_error. cbv zeta. rewrite Hr.
  unfold any_in. cbn [existsb].
  repeat (match goal with
          | |- context [str_in ?k (lower e)] =>
              rewrite (H k) by (unfold service_error_keywords;
                                repeat (first [left; reflexivity | right]))
          end).
  split; reflexivity.
Qed.

End Classifier.

(** C1. A fault routed to the fal.ai classifier whose message contains both a
    rate-limit pattern and an invalid-request pattern, or contains
    "429 too many requests", is classified as status 429 "Rate Limit Error":
    the rate-limit group is tested before every other group. The message may
    contain the pattern as raised or after lower-casing. *)
Theorem fal_rate_limit_checked_before_invalid_request (e operation : string) :
  (mentions pat_rate_limit e /\ mentions pat_invalid_parameters e)
  \/ mentions ["429 too many requests"] e ->
  status_code (handle_fal_ai_error e operation) = 429 /\
  error_type_of (handle_fal_ai_error e operation) = Some (JStr "Rate Limit Error") /\
  (forall service_name, routes_to_fal (lower e) service_name = true ->
     handle_service_error e service_name operation = handle_fal_ai_error e operation).
Proof.
  intros H.
  assert (any_in pat_rate_limit (lower e) = true) as Hrate.
  { destruct H as [[Hr _] | Hm].
    - apply mentions_lower; [reflexivity | exact Hr].
    - apply mentions_lower in Hm; [|reflexivity].
      apply any_in_true in Hm as [p [[<-|[]] Hp]].
      apply any_in_true. exists "429". split; [right; left; reflexivity|].
      apply (str_in_trans _ "429 too many requests"); [reflexivity | exact Hp]. }
  destruct (rate_limit_first e operation Hrate) as [Hs Ht].
  split; [exact Hs|]. split; [exact Ht|].
  intros service_name Hroute. unfold handle_service_error. cbv zeta. now rewrite Hroute.
Qed.

Lemma fal_rate_limit_checked_before_invalid_request_witness :
  (mentions pat_rate_limit "HTTP 429 Too Many Requests: invalid image_size" /\
   mentions pat_invalid_parameters "HTTP 429 Too Many Requests: invalid image_size") /\
  status_code (handle_service_error "HTTP 429 Too Many Requests: invalid image_size"
                 "flux_1_spro" "image generation") = 429.
Proof.
  assert (mentions pat_rate_limit "HTTP 429 Too Many Requests: invalid image_size" /\
          mentions pat_invalid_parameters "HTTP 429 Too Many Requests: invalid image_size")
    as Hboth.
  { split.
    - exists "429". split; [right; left; reflexivity | left; reflexivity].
    - exists "invalid". split; [right; right; left; reflexivity | left; reflexivity]. }
  split; [exact Hboth|].
  destruct (fal_rate_limit_checked_before_invalid_request
              "HTTP 429 Too Many Requests: invalid image_size" "image generation"
              (or_introl Hboth)) as (Hs & _ & Hroute).
  rewrite (Hroute "flux_1_spro"); [exact Hs | reflexivity].
Defined.

(** C5 (as stated, refuted). With no pattern of any list matching, a fault
    that is not routed to a provider handler is labelled "Service Error", not
    "AI Service Error". *)
Lemma generic_fallthrough_not_always_ai_service_error :
  ~ (forall e service_name operation : string,
       Forall (fun g => any_in g (lower e) = false) fal_pattern_groups ->
       any_in service_error_keywords (lower e) = false ->
       error_type_of (handle_service_error e service_name operation)
       = Some (JStr "AI Service Error")).
Proof.
  intros H. specialize (H "boom" "seedream" "image generation").
  assert (error_type_of (handle_service_error "boom" "seedream" "image generation")
          = Some (JStr "Service Error")) as Hcode by reflexivity.
  rewrite Hcode in H.
  assert (Some (JStr "Service Error") = Some (JStr "AI Service Error")) as Habs.
  { apply H; [|reflexivity].
    unfold fal_pattern_groups. repeat (constructor; [reflexivity|]). constructor. }
  discriminate Habs.
Qed.

(** C5 (amended). [handle_service_error] is total and always returns a
    structured error. When no pattern matches it falls through to a generic
    status-500 result, labelled "AI Service Error" when the fault was routed
    to the fal.ai handler and "Service Error" when it was routed to no
    handler. *)
Theorem handle_service_error_total_with_generic_fallthrough
    (e service_name operation : string) :
  structured (handle_service_error e service_name operation) /\
  (routes_to_fal (lower e) service_name = true ->
   Forall (fun g => any_in g (lower e) = false) fal_pattern_groups ->
   status_code (handle_service_error e service_name operation) = 500 /\
   error_type_of (handle_service_error e service_name operation)
   = Some (JStr "AI Service Error")) /\
  (routes_to_fal (lower e) service_name = false ->
   any_in service_error_keywords (lower e) = false ->
   status_code (handle_service_error e service_name operation) = 500 /\
   error_type_of (handle_service_error e service_name operation)
   = Some (JStr "Service Error")).
Proof.
  split; [apply handle_service_error_structured|]. split.
  - intros Hr Hnone.
    assert (handle_service_error e service_name operation = handle_fal_ai_error e operation)
      as -> by (unfold handle_service_error; cbv zeta; now rewrite Hr).
    now apply fal_fallthrough.
  - apply service_fallthrough.
Qed.

Lemma handle_service_error_total_with_generic_fallthrough_witness :
  (routes_to_fal (lower "boom") "flux_1_spro" = true /\
   Forall (fun g => any_in g (lower "boom") = false) fal_pattern_groups /\
   error_type_of (handle_service_error "boom" "flux_1_spro" "image generation")
   = Some (JStr "AI Service Error")) /\
  (routes_to_fal (lower "boom") "seedream" = false /\
   any_in service_error_keywords (lower "boom") = false /\
   error_type_of (handle_service_error "boom" "seedream" "image generation")
   = Some (JStr "Service Error")).
Proof.
  assert (Forall (fun g => any_in g (lower "boom") = false) fal_pattern_groups) as Hnone.
  { unfold fal_pattern_groups. repeat (constructor; [reflexivity|]). constructor. }
  split.
  - split; [reflexivity|]. split; [exact Hnone|].
    apply (handle_service_error_total_with_generic_fallthrough
             "boom" "flux_1_spro" "image generation"); [reflexivity | exact Hnone].
  - split; [reflexivity|]. split; [reflexivity|].
    apply (handle_service_error_total_with_generic_fallthrough
             "boom" "seedream" "image generation"); reflexivity.
Defined.

(** ** Media validation *)

Section Validation.

Lemma validate_file_types_from_ok (i n : nat) (files : list UploadFile)
    (allowed_types : list string) (field : string) :
  forallb (fun f => negb (type_not_allowed allowed_types f)) files = true ->
  validate_file_types_from i n files allowed_types field = Ok tt.
Proof.
  revert i. induction files as [|f fs IH]; intros i H; simpl in *; [reflexivity|].
  apply andb_true_iff in H as [Hf Hfs].
  apply negb_true_iff in Hf. rewrite Hf. now apply IH.
Qed.

Lemma validate_file_types_from_first (i n : nat) (pre post : list UploadFile)
    (bad : UploadFile) (allowed_types : list string) (field : string) :
  forallb (fun f => negb (type_not_allowed allowed_types f)) pre = true ->
  type_not_allowed allowed_types bad = true ->
  validate_file_types_from i n (pre ++ bad :: post) allowed_types field
  = Raise (HTTPExc (invalid_file_type allowed_types field n (i + length pre) bad)).
Proof.
  revert i. induction pre as [|f fs IH]; intros i Hpre Hbad; simpl in *.
  - rewrite Hbad. now rewrite Nat.add_0_r.
  - apply andb_true_iff in Hpre as [Hf Hfs].
    apply negb_true_iff in Hf. rewrite Hf.
    rewrite IH by assumption.
    now replace (S i + length fs)%nat with (i + S (length fs))%nat by lia.
Qed.

Lemma scan_required_fields_filter (data : gmap string json)
    (required missing empty : list string) :
  scan_required_fields data required missing empty
  = (missing ++ List.filter (is_missing data) required,
     empty ++ List.filter (is_empty data) required).
Proof.
  revert missing empty. induction required as [|f fs IH]; intros missing empty; simpl.
  - now rewrite !app_nil_r.
  - unfold is_missing, is_empty. destruct (data !! f) as [v|] eqn:E.
    + destruct (empty_value v); rewrite IH; simpl.
      * now rewrite <- app_assoc.
      * reflexivity.
    + rewrite IH. simpl. now rewrite <- app_assoc.
Qed.

Lemma no_named_file (files : list UploadFile) :
  existsb has_filename files = false <-> file_count files = 0%nat.
Proof.
  unfold file_count. induction files as [|f fs IH]; [split; reflexivity|].
  cbn [existsb]. destruct (has_filename f) eqn:E.
  - rewrite filter_cons_True by exact E. split; discriminate.
  - rewrite filter_cons_False by (rewrite E; discriminate). exact IH.
Qed.

(** The edit-mode block, once the MIME types are known to be allowed, as a
    function of the number of named files. *)
Lemma validate_edit_files_by_count (model : string) (image_files : option (list UploadFile)) :
  types_allowed image_files = true ->
  validate_edit_files model image_files =
  let n := files_supplied image_files in
  if Nat.eqb n 0 then Raise (validation_error "Image files required for edit mode")
  else if Nat.ltb 4 n then
    Raise (validation_error
      ("Maximum 4 image files allowed. You uploaded " +:+ of_nat n +:+ " files."))
  else
    match MODEL_MAX_IMAGES !! model with
    | Some max_allowed =>
        if String.eqb model (model_value FLUX_KONTEXT_EDIT) then
          if negb (Nat.eqb n 1) then
            Raise (validation_error
              ("Model '" +:+ model +:+ "' requires exactly 1 image file. You provided "
               +:+ of_nat n +:+ " files."))
          else Ok tt
        else if Nat.ltb max_allowed n then
          Raise (validation_error
            ("Model '" +:+ model +:+ "' supports up to " +:+ of_nat max_allowed
             +:+ " image files. You provided " +:+ of_nat n +:+ " files."))
        else Ok tt
    | None => Ok tt
    end.
Proof.
  intros Htypes. destruct image_files as [files|]; [|reflexivity].
  destruct files as [|f fs]; [reflexivity|].
  cbv zeta. unfold validate_edit_files, files_supplied.
  destruct (existsb has_filename (f :: fs)) eqn:Hany.
  - assert (file_count (f :: fs) <> 0%nat) as Hn
      by (intros H0; apply no_named_file in H0; congruence).
    apply Nat.eqb_neq in Hn. rewrite Hn. cbn [negb].
    unfold validate_file_types.
    rewrite validate_file_types_from_ok by exact Htypes.
    reflexivity.
  - apply no_named_file in Hany. rewrite Hany. reflexivity.
Qed.

(** With a valid prompt, style and shape, an edit request for a model of
    [IMAGE_EDIT_MODELS] is decided by the edit-mode block. *)
Lemma validate_edit_request (prompt model style shape : string)
    (image_files : option (list UploadFile)) :
  mem model (map model_value IMAGE_EDIT_MODELS) = true ->
  blank prompt = false ->
  mem style (map style_value ImageStyle_members) = true ->
  mem shape (map shape_value ImageShape_members) = true ->
  validate_generate_request "edit" prompt model style shape image_files
  = validate_edit_files model image_files.
Proof.
  intros Hm Hp Hs Hsh. unfold validate_generate_request.
  change (mem "edit" (map mode_value ImageMode_members)) with true.
  change (String.eqb "edit" "generate") with false.
  change (String.eqb "edit" "edit") with true.
  cbv zeta iota. cbn [negb]. rewrite Hm, Hp, Hs, Hsh. reflexivity.
Qed.

End Validation.

Section ValidationBounds.

Lemma rejected_validation_error {A : Type} (msg : string) :
  rejected_validation_400 (@Raise A (validation_error msg)) = true.
Proof. reflexivity. Qed.

Lemma max_images_flux_kontext_edit :
  MODEL_MAX_IMAGES !! model_value FLUX_KONTEXT_EDIT = Some 1%nat.
Proof. reflexivity. Qed.

Lemma max_images_gemini_nanobanana :
  MODEL_MAX_IMAGES !! model_value GEMINI_NANOBANANA = Some 4%nat.
Proof. reflexivity. Qed.

Lemma max_images_seedream :
  MODEL_MAX_IMAGES !! model_value SEEDREAM = Some 4%nat.
Proof. reflexivity. Qed.

Ltac count_cases n :=
  destruct (Nat.eqb n 0) eqn:?E0; destruct (Nat.ltb 4 n) eqn:?E4;
  destruct (Nat.eqb n 1) eqn:?E1;
  repeat match goal with
         | H : Nat.eqb _ _ = true |- _ => apply Nat.eqb_eq in H
         | H : Nat.eqb _ _ = false |- _ => apply Nat.eqb_neq in H
         | H : Nat.ltb _ _ = true |- _ => apply Nat.ltb_lt in H
         | H : Nat.ltb _ _ = false |- _ => apply Nat.ltb_ge in H
         end;
  cbn [negb]; rewrite ?rejected_validation_error;
  try (exfalso; lia);
  repeat split; intros; try lia; try discriminate; try reflexivity.

Lemma exact_model_bound (prompt style shape : string)
    (image_files : option (list UploadFile)) :
  blank prompt = false ->
  mem style (map style_value ImageStyle_members) = true ->
  mem shape (map shape_value ImageShape_members) = true ->
  types_allowed image_files = true ->
  let r := validate_generate_request "edit" prompt (model_value FLUX_KONTEXT_EDIT)
             style shape image_files in
  (rejected_validation_400 r = true <-> files_supplied image_files <> 1%nat) /\
  (r = Ok tt <-> files_supplied image_files = 1%nat).
Proof.
  intros Hp Hs Hsh Ht.
  rewrite validate_edit_request by (try reflexivity; assumption).
  rewrite validate_edit_files_by_count by exact Ht. cbv zeta.
  rewrite max_images_flux_kontext_edit.
  change (String.eqb (model_value FLUX_KONTEXT_EDIT) (model_value FLUX_KONTEXT_EDIT))
    with true. cbv iota.
  generalize (files_supplied image_files) as n. intros n.
  count_cases n.
Qed.

Lemma range_model_bound (prompt model style shape : string)
    (image_files : option (list UploadFile)) :
  model = model_value GEMINI_NANOBANANA \/ model = model_value SEEDREAM ->
  blank prompt = false ->
  mem style (map style_value ImageStyle_members) = true ->
  mem shape (map shape_value ImageShape_members) = true ->
  types_allowed image_files = true ->
  let r := validate_generate_request "edit" prompt model style shape image_files in
  (rejected_validation_400 r = true
   <-> files_supplied image_files = 0%nat \/ (4 < files_supplied image_files)%nat) /\
  (r = Ok tt <-> (1 <= files_supplied image_files <= 4)%nat).
Proof.
  intros Hm Hp Hs Hsh Ht.
  destruct Hm as [-> | ->];
    rewrite validate_edit_request by (try reflexivity; assumption);
    rewrite validate_edit_files_by_count by exact Ht; cbv zeta;
    rewrite ?max_images_gemini_nanobanana, ?max_images_seedream;
    match goal with
    | |- context [String.eqb ?a ?b] => change (String.eqb a b) with false
    end; cbv iota;
    generalize (files_supplied image_files) as n; intros n;
    count_cases n.
Qed.

End ValidationBounds.

(** ** Runs of the state and exception monad *)

Section Runs.

Context {A B : Type}.

Lemma bind_run (m : M A) (k : A -> M B) (st : State) :
  (m ≫= k) st =
  match m st with
  | (Ok a, st') => k a st'
  | (Raise e, st') => (Raise e, st')
  end.
Proof. reflexivity. Qed.

Lemma provider_calls_snoc (tr : list event) (ev : event) :
  provider_calls (tr ++ [ev])
  = provider_calls tr ++ match ev with EvProvider c => [c] | _ => [] end.
Proof.
  unfold provider_calls. rewrite omap_app. f_equal. destruct ev; reflexivity.
Qed.

Lemma silent_mret (a : A) : calls_exactly [] (mret a : M A).
Proof. intros st. simpl. now rewrite app_nil_r. Qed.

Lemma silent_raise (e : exn) : calls_exactly [] (raise e : M A).
Proof. intros st. simpl. now rewrite app_nil_r. Qed.

Lemma silent_lift (r : result A) : calls_exactly [] (lift r).
Proof. intros st. simpl. now rewrite app_nil_r. Qed.

Lemma exactly_bind (l : list provider_call) (m : M A) (k : A -> M B) :
  calls_exactly l m -> (forall a, calls_exactly [] (k a)) ->
  calls_exactly l (m ≫= k).
Proof.
  intros Hm Hk st. rewrite bind_run. specialize (Hm st).
  destruct (m st) as [[a|e] st']; simpl in Hm.
  - rewrite (Hk a st'), Hm. now rewrite app_nil_r.
  - exact Hm.
Qed.

Lemma within_bind (n1 n2 : nat) (m : M A) (k : A -> M B) :
  calls_within n1 m -> (forall a, calls_within n2 (k a)) ->
  calls_within (n1 + n2) (m ≫= k).
Proof.
  intros Hm Hk st. rewrite bind_run. destruct (Hm st) as [l1 [E1 L1]].
  destruct (m st) as [[a|e] st']; simpl in E1.
  - destruct (Hk a st') as [l2 [E2 L2]]. exists (l1 ++ l2). split.
    + rewrite E2, E1. now rewrite app_assoc.
    + rewrite length_app. lia.
  - exists l1. split; [exact E1 | lia].
Qed.

Lemma within_exactly (l : list provider_call) (m : M A) :
  calls_exactly l m -> calls_within (length l) m.
Proof. intros H st. exists l. split; [apply H | lia]. Qed.

End Runs.

Section RunsOfEffects.

Lemma silent_emit (ev : event) :
  match ev with EvProvider _ => False | _ => True end ->
  calls_exactly [] (emit ev).
Proof.
  intros Hev st. simpl. rewrite provider_calls_snoc. destruct ev; [contradiction | ..]; reflexivity.
Qed.

Lemma exactly_emit_provider (c : provider_call) : calls_exactly [c] (emit (EvProvider c)).
Proof. intros st. simpl. now rewrite provider_calls_snoc. Qed.

Lemma silent_get_uploader : calls_exactly [] get_uploader.
Proof. intros st. simpl. now rewrite app_nil_r. Qed.

Lemma silent_store_local (path : string) (data : bytes) :
  calls_exactly [] (store_local path data).
Proof. intros st. simpl. now rewrite app_nil_r. Qed.

Lemma silent_store_blob (name : string) (data : bytes) :
  calls_exactly [] (store_blob name data).
Proof. intros st. simpl. now rewrite app_nil_r. Qed.

End RunsOfEffects.

(** Closes a goal [calls_exactly [] m] for a computation built from the
    silent primitives. *)
Ltac silent :=
  repeat first
    [ apply silent_mret | apply silent_raise | apply silent_lift
    | apply silent_get_uploader | apply silent_store_local | apply silent_store_blob
    | apply silent_emit; exact I
    | apply exactly_bind; [|intros ?]
    | match goal with
      | |- calls_exactly [] (if ?b then _ else _) => destruct b
      | |- calls_exactly [] (match ?x with _ => _ end) => destruct x
      | |- calls_exactly [] (let _ := _ in _) => cbv zeta
      end ].

(** ** The media uploader *)

Section UploaderFacts.

Variable env : Env.

Lemma upload_bytes_silent (data : bytes) (filename : string) (user_id : option string)
    (content_type media_type : string) :
  calls_exactly [] (upload_bytes env data filename user_id content_type media_type).
Proof. unfold upload_bytes. silent. Qed.

Lemma upload_image_from_url_silent (image_url prompt : string) (user_id : option string)
    (style shape model_prefix : string) :
  calls_exactly []
    (upload_image_from_url env image_url prompt user_id style shape model_prefix).
Proof. unfold upload_image_from_url. silent; apply upload_bytes_silent. Qed.

Lemma upload_bytes_keeps_uploader (data : bytes) (filename : string)
    (user_id : option string) (content_type media_type : string) (st : State) :
  uploader (upload_bytes env data filename user_id content_type media_type st).2
  = uploader st.
Proof.
  unfold upload_bytes. rewrite bind_run. simpl.
  destruct (bucket (uploader st)); rewrite !bind_run; simpl.
  - destruct (gcs_upload_from_string env _ _ _); reflexivity.
  - destruct (local_write env _ _ _); reflexivity.
Qed.


Lemma resize_small (image_content : bytes) (max_dimension : Z) (image : Image) :
  Image_open env image_content = Ok image ->
  (size image).1 <= max_dimension -> (size image).2 <= max_dimension ->
  resize_image_if_needed env image_content max_dimension = image_content.
Proof.
  intros Hopen Hw Hh. unfold resize_image_if_needed, resize_image_body.
  rewrite Hopen. destruct (size image) as [w h]. simpl in Hw, Hh.
  apply Z.leb_le in Hw, Hh. now rewrite Hw, Hh.
Qed.

End UploaderFacts.

(** C4. When the blob-store client is unavailable ([bucket] is [None]),
    [upload_bytes] writes the bytes under
    [{media_type}s/{user_id or "anonymous"}/{filename}] on the local
    filesystem and returns the string
    [{BASE_URL}/{media_type}s/{user_id}/{filename}], with "anonymous" standing
    for a missing user id; with a bucket it returns the blob-store URL, also a
    string. The choice is the one made in [__init__]: [upload_bytes] never
    changes the uploader, and with a bucket a failing upload is raised and
    nothing is written locally. *)
Theorem upload_bytes_local_fallback (env : Env) (data : bytes) (filename : string)
    (user_id : option string) (content_type media_type : string) (st : State) :
  let run := upload_bytes env data filename user_id content_type media_type st in
  let user_folder := os_path_join (media_type +:+ "s") (or_anonymous user_id) in
  let file_path := os_path_join user_folder filename in
  (bucket (uploader st) = false ->
   local_write env user_folder file_path data = Ok tt ->
   run.1 = Ok (BASE_URL env +:+ "/" +:+ media_type +:+ "s/" +:+ or_anonymous user_id
               +:+ "/" +:+ filename) /\
   (forall u, user_id = Some u -> u <> "" ->
      run.1 = Ok (BASE_URL env +:+ "/" +:+ media_type +:+ "s/" +:+ u +:+ "/" +:+ filename)) /\
   local_files run.2 !! file_path = Some data /\
   gcs_blobs run.2 = gcs_blobs st) /\
  (bucket (uploader st) = true ->
   let blob_name := media_type +:+ "/" +:+ str_of user_id +:+ "/" +:+ filename in
   match gcs_upload_from_string env blob_name data content_type with
   | Ok _ =>
       run.1 = Ok ("https://storage.googleapis.com/" +:+ GCS_BUCKET_NAME env +:+ "/"
                   +:+ blob_name)
   | Raise e => run.1 = Raise e
   end /\
   local_files run.2 = local_files st) /\
  uploader run.2 = uploader st /\
  (forall startup, bucket (MediaUploader_init startup) = true <-> startup = GcsReady).
Proof.
  cbv zeta. split; [|split; [|split]].
  - intros Hb Hw. unfold upload_bytes. rewrite bind_run. simpl. rewrite Hb.
    rewrite !bind_run. simpl. rewrite Hw. simpl.
    repeat split.
    + intros u -> Hu. unfold or_anonymous.
      destruct (String.eqb u "") eqn:E; [apply String.eqb_eq in E; contradiction | reflexivity].
    + apply lookup_insert_eq.
  - intros Hb. unfold upload_bytes. rewrite bind_run. simpl. rewrite Hb.
    rewrite !bind_run. simpl.
    destruct (gcs_upload_from_string env _ _ _); simpl; split; reflexivity.
  - apply upload_bytes_keeps_uploader.
  - intros startup. destruct startup; simpl; split; congruence.
Qed.

Lemma upload_bytes_local_fallback_witness :
  let st := initial_state (MediaUploader_init GcsClientFails) in
  bucket (uploader st) = false /\
  (upload_bytes example_env [Byte.x01; Byte.x02] "cat.png" (Some "u1") "image/png" "image" st).1
  = Ok "http://10.0.30.211:5642/images/u1/cat.png" /\
  local_files
    (upload_bytes example_env [Byte.x01; Byte.x02] "cat.png" (Some "u1") "image/png" "image" st).2
    !! "images/u1/cat.png" = Some [Byte.x01; Byte.x02].
Proof.
  intros st. split; [reflexivity|].
  destruct (upload_bytes_local_fallback example_env [Byte.x01; Byte.x02] "cat.png"
              (Some "u1") "image/png" "image" st) as [Hlocal _].
  destruct (Hlocal eq_refl eq_refl) as (_ & Hurl & Hfile & _).
  split; [apply (Hurl "u1"); [reflexivity | discriminate] | exact Hfile].
Defined.

(** C10. [resize_image_if_needed] is the identity on an image that opens and
    whose width and height are both at most [max_dimension] (4000 by
    default): it returns the input bytes themselves, so applying it twice
    equals applying it once. *)
Theorem resize_image_if_needed_identity_on_small (env : Env) (image_content : bytes)
    (max_dimension : Z) (image : Image) :
  Image_open env image_content = Ok image ->
  (size image).1 <= max_dimension ->
  (size image).2 <= max_dimension ->
  resize_image_if_needed env image_content max_dimension = image_content /\
  resize_image_if_needed env (resize_image_if_needed env image_content max_dimension)
    max_dimension
  = resize_image_if_needed env image_content max_dimension.
Proof.
  intros Hopen Hw Hh.
  assert (resize_image_if_needed env image_content max_dimension = image_content) as Hid
    by (now apply (resize_small env image_content max_dimension image)).
  split; [exact Hid | now rewrite !Hid].
Qed.

Lemma resize_image_if_needed_identity_on_small_witness :
  Image_open example_env [Byte.x03; Byte.x04] = Ok (mkImage (3000, 4000) (Some "PNG")) /\
  resize_image_if_needed example_env [Byte.x03; Byte.x04] default_max_dimension
  = [Byte.x03; Byte.x04].
Proof.
  split; [reflexivity|].
  apply (resize_image_if_needed_identity_on_small example_env [Byte.x03; Byte.x04]
           default_max_dimension (mkImage (3000, 4000) (Some "PNG")));
    [reflexivity | simpl; unfold default_max_dimension; lia
     | simpl; unfold default_max_dimension; lia].
Defined.

(** ** The image generation service *)

(** Evaluates the string tests whose operands are literals. *)
Ltac eval_closed_tests :=
  repeat match goal with
         | |- context [String.eqb ?a ?b] =>
             let v := eval vm_compute in (String.eqb a b) in
             match v with
             | true => change (String.eqb a b) with true
             | false => change (String.eqb a b) with false
             end
         | |- context [mem ?a ?l] =>
             let v := eval vm_compute in (mem a l) in
             match v with
             | true => change (mem a l) with true
             | false => change (mem a l) with false
             end
         end;
  cbv beta iota zeta.

Section ServiceFacts.

Variable env : Env.

Lemma bind_lift_ok {A B : Type} (a : A) (k : A -> M B) : lift (Ok a) ≫= k = k a.
Proof. reflexivity. Qed.

Lemma provider_exactly {A : Type} (call : provider_call) (reply : result A) :
  calls_exactly [call] (ImageGenerationService.provider call reply).
Proof.
  unfold ImageGenerationService.provider.
  apply exactly_bind; [apply exactly_emit_provider | intros; apply silent_lift].
Qed.

Lemma first_image_url_silent (message : string) (reply : option (list string)) :
  calls_exactly [] (ImageGenerationService.first_image_url message reply).
Proof. unfold ImageGenerationService.first_image_url. silent. Qed.

Lemma generate_mode (prompt model : string) (user_id : option string) (style shape : string)
    (image_files : option (list UploadFile)) :
  ImageGenerationService.generate_image env prompt model "generate" user_id style shape
    image_files
  = ImageGenerationService._generate_from_text env prompt model user_id style shape.
Proof. reflexivity. Qed.

Lemma dalle_call (prompt : string) (user_id : option string) (style shape : string) :
  calls_exactly
    [OpenAIImagesGenerate
       [("model", AStr "dall-e-3");
        ("prompt", AStr (prompt +:+ ", in " +:+ lower style +:+ " style"));
        ("n", AInt 1);
        ("size", AStr (get_default [("square", "1024x1024"); ("portrait", "1024x1792");
                                    ("landscape", "1792x1024")] shape "1024x1024"));
        ("quality", AStr "standard")]]
    (ImageGenerationService._generate_from_text env prompt "dalle" user_id style shape).
Proof.
  unfold ImageGenerationService._generate_from_text. eval_closed_tests.
  apply exactly_bind; [apply provider_exactly | intros; apply upload_image_from_url_silent].
Qed.


Lemma fal_text_call (prompt model : string) (user_id : option string) (style shape : string) :
  In model ["flux_1_spro"; "flux_kontext_dev"; "qwen"] ->
  exists endpoint steps guidance,
    calls_exactly
      [FalSubmit endpoint
         [("prompt", AStr (style +:+ " style: " +:+ prompt));
          ("image_size", AStr (get_default [("square", "square_hd");
                                            ("portrait", "portrait_4_3");
                                            ("landscape", "landscape_4_3")] shape "square_hd"));
          ("num_inference_steps", AInt steps); ("guidance_scale", ADec guidance);
          ("num_images", AInt 1); ("enable_safety_checker", ABool true)]]
      (ImageGenerationService._generate_from_text env prompt model user_id style shape).
Proof.
  intros [<- | [<- | [<- | []]]];
    unfold ImageGenerationService._generate_from_text; eval_closed_tests;
    do 3 eexists;
    (apply exactly_bind; [apply provider_exactly | intros]);
    (apply exactly_bind; [apply first_image_url_silent | intros]);
    apply upload_image_from_url_silent.
Qed.

Lemma imagen_call (prompt : string) (user_id : option string) (style shape : string) :
  calls_exactly
    [GeminiGenerateImages "models/imagen-4.0-generate-001"
       (prompt +:+ ", in " +:+ lower style +:+ " style")
       [("number_of_images", AInt 1); ("output_mime_type", AStr "image/jpeg");
        ("aspect_ratio", AStr (get_default [("square", "1:1"); ("portrait", "9:16");
                                            ("landscape", "16:9")] shape "1:1"));
        ("image_size", AStr "1K")]]
    (ImageGenerationService._generate_from_text env prompt "gemini" user_id style shape).
Proof.
  unfold ImageGenerationService._generate_from_text. eval_closed_tests.
  apply exactly_bind; [apply provider_exactly | intros images].
  destruct images as [|image rest]; [apply silent_raise|].
  apply exactly_bind; [|intros; apply upload_bytes_silent].
  destruct (save_to_buffer image) as [saved|[h|cls msg]]; try apply silent_lift.
  destruct (String.eqb cls "TypeError"); [|apply silent_raise].
  silent.
Qed.

Lemma flux_kontext_edit_call (prompt : string) (user_id : option string)
    (style shape : string) (first : UploadFile) (image_content : bytes) :
  read first = Ok image_content ->
  calls_exactly
    [FalSubmit "fal-ai/flux-pro/kontext/max"
       [("prompt", AStr (style +:+ " style: " +:+ prompt));
        ("image_url",
         AStr ("data:" +:+ str_of (content_type first) +:+ ";base64,"
               +:+ b64encode env
                     (resize_image_if_needed env image_content default_max_dimension)));
        ("image_size", AStr (get_default [("square", "square_hd");
                                          ("portrait", "portrait_4_3");
                                          ("landscape", "landscape_4_3")] shape "square_hd"));
        ("num_inference_steps", AInt 28); ("guidance_scale", ADec "3.5");
        ("num_images", AInt 1); ("enable_safety_checker", ABool true)]]
    (ImageGenerationService.generate_image env prompt "flux_kontext_edit" "edit" user_id
       style shape (Some [first])).
Proof.
  intros Hread.
  unfold ImageGenerationService.generate_image, ImageGenerationService._edit_image.
  eval_closed_tests.
  change (MODEL_MAX_IMAGES !! "flux_kontext_edit") with (Some 1%nat).
  change (Nat.ltb (default 0%nat (Some 1%nat)) (length [first])) with false.
  cbv iota. rewrite Hread, bind_lift_ok.
  (apply exactly_bind; [apply provider_exactly | intros]).
  (apply exactly_bind; [apply first_image_url_silent | intros]).
  apply upload_image_from_url_silent.
Qed.

Lemma seedream_text_call (prompt : string) (user_id : option string) (style shape : string) :
  calls_exactly
    [FalSubmit "fal-ai/bytedance/seedream/v4/text-to-image"
       [("prompt", AStr (style +:+ " style: " +:+ prompt));
        ("aspect_ratio", AStr (get_default [("square", "square"); ("portrait", "portrait");
                                            ("landscape", "landscape")] shape "square"));
        ("num_inference_steps", AInt 50); ("guidance_scale", ADec "7.5");
        ("num_images", AInt 1)]]
    (ImageGenerationService._generate_from_text env prompt "seedream" user_id style shape).
Proof.
  unfold ImageGenerationService._generate_from_text. eval_closed_tests.
  unfold ImageGenerationService._generate_seedream. cbv zeta.
  change (mret ?x ≫= ?k) with (k x). cbv beta iota.
  (apply exactly_bind; [apply provider_exactly | intros]).
  (apply exactly_bind; [apply first_image_url_silent | intros]).
  apply upload_image_from_url_silent.
Qed.

Lemma seedream_edit_call (prompt : string) (user_id : option string) (style shape : string)
    (image_files : list UploadFile) (image_data_urls : list string) :
  image_files <> [] -> (length image_files <= 4)%nat ->
  ImageGenerationService.seedream_data_urls env image_files = Ok image_data_urls ->
  calls_exactly
    [FalSubmit "fal-ai/bytedance/seedream/v4/edit"
       [("prompt", AStr (style +:+ " style: " +:+ prompt));
        ("aspect_ratio", AStr (get_default [("square", "square"); ("portrait", "portrait");
                                            ("landscape", "landscape")] shape "square"));
        ("num_inference_steps", AInt 50); ("guidance_scale", ADec "7.5");
        ("num_images", AInt 1); ("image_urls", AStrs image_data_urls)]]
    (ImageGenerationService.generate_image env prompt "seedream" "edit" user_id style shape
       (Some image_files)).
Proof.
  intros Hne Hlen Hurls.
  destruct image_files as [|f fs]; [contradiction|].
  unfold ImageGenerationService.generate_image, ImageGenerationService._edit_image.
  eval_closed_tests.
  change (MODEL_MAX_IMAGES !! "seedream") with (Some 4%nat).
  assert (Nat.ltb 4 (length (f :: fs)) = false) as Hfour by (apply Nat.ltb_ge; exact Hlen).
  change (default 0%nat (Some 4%nat)) with 4%nat. rewrite Hfour.
  unfold ImageGenerationService._generate_seedream. cbv zeta. rewrite Hfour, Hurls.
  rewrite bind_lift_ok.
  change (mret ?x ≫= ?k) with (k x). cbv beta iota.
  (apply exactly_bind; [apply provider_exactly | intros]).
  (apply exactly_bind; [apply first_image_url_silent | intros]).
  apply upload_image_from_url_silent.
Qed.

Lemma nanobanana_text_call (prompt : string) (user_id : option string)
    (style shape : string) :
  calls_exactly
    [GeminiGenerateContentStream "gemini-2.5-flash-image-preview"
       [PartText (prompt +:+ ", in " +:+ lower style +:+ " style")]]
    (ImageGenerationService._generate_from_text env prompt "gemini_nanobanana" user_id
       style shape).
Proof.
  unfold ImageGenerationService._generate_from_text. eval_closed_tests.
  unfold ImageGenerationService._generate_gemini_streaming. cbv zeta.
  apply exactly_bind; [apply provider_exactly | intros chunks].
  destruct (ImageGenerationService.first_inline_data chunks) as [[data mime]|];
    [apply upload_bytes_silent | apply silent_raise].
Qed.

End ServiceFacts.

Section Discipline.

Variable env : Env.
Variable e : exn.











End Discipline.

(** ** The endpoint *)

Section RouteFacts.

Variable env : Env.

Lemma route_rejects (mode prompt model style shape : string)
    (image_files : option (list UploadFile)) (user_id : option string) (st : State)
    (h : HTTPException) :
  validate_generate_request mode prompt model style shape image_files = Raise (HTTPExc h) ->
  ImageRoute.generate_image env mode prompt model style shape image_files user_id st
  = (Raise (HTTPExc h), st).
Proof.
  intros H. unfold ImageRoute.generate_image, ImageRoute.generate_image_body, try_except.
  rewrite bind_run. unfold lift. rewrite H. reflexivity.
Qed.

Lemma route_boundary (mode prompt model style shape : string)
    (image_files : option (list UploadFile)) (user_id : option string) (st : State) :
  validate_generate_request mode prompt model style shape image_files = Ok tt ->
  ImageRoute.generate_image env mode prompt model style shape image_files user_id st
  = let run := ImageGenerationService.generate_image env prompt model mode user_id style
                 shape image_files st in
    (at_route_boundary mode model shape run.1, run.2).
Proof.
  intros H. unfold ImageRoute.generate_image, ImageRoute.generate_image_body, try_except.
  rewrite bind_run. unfold lift. rewrite H. rewrite bind_run. cbv zeta.
  destruct (ImageGenerationService.generate_image env prompt model mode user_id style shape
              image_files st) as [[url|[h|cls msg]] st']; reflexivity.
Qed.



End RouteFacts.

Section Propagation.

Variable env : Env.

Lemma storage_fault_propagates (e : exn) :
  storage_raises env e ->
  forall data filename user_id content_type media_type image_url prompt style shape
         model_prefix st,
    (upload_bytes env data filename user_id content_type media_type st).1 = Raise e /\
    (upload_image_from_url env image_url prompt user_id style shape model_prefix st).1
    = Raise e.
Proof.
  intros (Hget & Hgcs & Hlocal) data filename user_id content_type media_type image_url
         prompt style shape model_prefix st.
  split.
  - unfold upload_bytes. rewrite bind_run. simpl.
    destruct (bucket (uploader st)); rewrite !bind_run; simpl;
      [rewrite Hgcs | rewrite Hlocal]; reflexivity.
  - unfold upload_image_from_url. rewrite !bind_run. simpl. rewrite Hget. reflexivity.
Qed.


Lemma edit_without_named_files_rejected (prompt model style shape : string)
    (image_files : option (list UploadFile)) :
  files_supplied image_files = 0%nat ->
  exists message,
    validate_generate_request "edit" prompt model style shape image_files
    = Raise (validation_error message).
Proof.
  intros Hzero. unfold validate_generate_request.
  change (mem "edit" (map mode_value ImageMode_members)) with true.
  change (String.eqb "edit" "generate") with false.
  change (String.eqb "edit" "edit") with true.
  cbv beta iota zeta. cbn [negb].
  repeat match goal with
         | |- context [if ?b then _ else _] => destruct b; [eexists; reflexivity|]
         end.
  unfold validate_edit_files.
  destruct image_files as [[|f fs]|]; try (eexists; reflexivity).
  apply no_named_file in Hzero. rewrite Hzero. eexists; reflexivity.
Qed.

End Propagation.

(** C3. For every shape, each provider's parameter builder sends its
    documented encoding: the DALL-E call carries [size], every fal.ai call of
    flux_1_spro, flux_kontext_dev, qwen and flux_kontext_edit carries
    [image_size], and the Imagen call carries [aspect_ratio]; for "portrait"
    these are "1024x1792", "portrait_4_3" and "9:16". *)
Theorem shape_encoding_per_provider (env : Env) (prompt style : string)
    (user_id : option string) (image_files : option (list UploadFile)) (s : ImageShape) :
  let generate model :=
    ImageGenerationService.generate_image env prompt model "generate" user_id style
      (shape_value s) image_files in
  sends (generate "dalle") "size" (dalle_size s) /\
  sends (generate "flux_1_spro") "image_size" (fal_image_size s) /\
  sends (generate "flux_kontext_dev") "image_size" (fal_image_size s) /\
  sends (generate "qwen") "image_size" (fal_image_size s) /\
  (forall first image_content,
     read first = Ok image_content ->
     sends (ImageGenerationService.generate_image env prompt "flux_kontext_edit" "edit"
              user_id style (shape_value s) (Some [first]))
       "image_size" (fal_image_size s)) /\
  sends (generate "gemini") "aspect_ratio" (imagen_aspect_ratio s) /\
  dalle_size PORTRAIT = "1024x1792" /\
  fal_image_size PORTRAIT = "portrait_4_3" /\
  imagen_aspect_ratio PORTRAIT = "9:16".
Proof.
  cbv beta zeta. rewrite !generate_mode.
  assert (forall model, In model ["flux_1_spro"; "flux_kontext_dev"; "qwen"] ->
            sends (ImageGenerationService._generate_from_text env prompt model user_id style
                     (shape_value s)) "image_size" (fal_image_size s)) as Hfal.
  { intros model Hin.
    destruct (fal_text_call env prompt model user_id style (shape_value s) Hin)
      as (endpoint & steps & guidance & Hcall).
    eexists. split; [exact Hcall | destruct s; reflexivity]. }
  repeat split.
  - eexists. split; [apply dalle_call | destruct s; reflexivity].
  - apply Hfal. simpl; auto.
  - apply Hfal. simpl; auto.
  - apply Hfal. simpl; auto.
  - intros first image_content Hread.
    eexists. split; [apply (flux_kontext_edit_call env); exact Hread | destruct s; reflexivity].
  - eexists. split; [apply imagen_call | destruct s; reflexivity].
Qed.

Lemma shape_encoding_per_provider_witness :
  read (upload "a.png" "image/png" [Byte.x01; Byte.x02]) = Ok [Byte.x01; Byte.x02] /\
  sends (ImageGenerationService.generate_image example_env "a cat" "flux_kontext_edit" "edit"
           (Some "u1") "Photo" "portrait"
           (Some [upload "a.png" "image/png" [Byte.x01; Byte.x02]]))
    "image_size" "portrait_4_3" /\
  sends (ImageGenerationService.generate_image example_env "a cat" "dalle" "generate"
           (Some "u1") "Photo" "portrait" None)
    "size" "1024x1792".
Proof.
  split; [reflexivity|].
  destruct (shape_encoding_per_provider example_env "a cat" "Photo" (Some "u1") None PORTRAIT)
    as (Hdalle & _ & _ & _ & Hedit & _).
  split; [|exact Hdalle].
  apply (Hedit (upload "a.png" "image/png" [Byte.x01; Byte.x02]) [Byte.x01; Byte.x02]).
  reflexivity.
Defined.

(** C6. An edit request for seedream without reference images never reaches
    the text-to-image path: the endpoint rejects it with 400 "Validation
    Error" and the service itself raises [ValueError], both before any
    dispatch, although the builder [_generate_seedream], given no images,
    calls the text-to-image endpoint. *)
Lemma seedream_edit_without_images_is_rejected :
  ImageRoute.generate_image example_env "edit" "a cat" "seedream" "Photo" "square"
    None None (initial_state (MediaUploader_init GcsReady))
  = (Raise (validation_error "Image files required for edit mode"),
     initial_state (MediaUploader_init GcsReady)) /\
  ImageGenerationService.generate_image example_env "a cat" "seedream" "edit" None "Photo"
    "square" None (initial_state (MediaUploader_init GcsReady))
  = (Raise (PyExc "ValueError" "Image files required for edit mode"),
     initial_state (MediaUploader_init GcsReady)) /\
  provider_calls
    (trace (ImageGenerationService._generate_seedream example_env "a cat" None "Photo"
              "square" None (initial_state (MediaUploader_init GcsReady))).2)
  = [FalSubmit "fal-ai/bytedance/seedream/v4/text-to-image"
       [("prompt", AStr "Photo style: a cat"); ("aspect_ratio", AStr "square");
        ("num_inference_steps", AInt 50); ("guidance_scale", ADec "7.5");
        ("num_images", AInt 1)]].
Proof. repeat split. Qed.

(** ** Faults on the way to the route boundary *)

Section FaultPropagation.

Variable env : Env.




















End FaultPropagation.

Section RemovalIgnored.


End RemovalIgnored.




(** C2. With no file at all, and everything else valid, the endpoint rejects
    an edit request for seedream and for gemini_nanobanana with 400
    "Validation Error", although 0 does not exceed their bound of 4: the
    guard on edit mode refuses the request before the bound of the model is
    looked at. *)
Lemma range_models_reject_zero_files :
  MODEL_MAX_IMAGES !! "seedream" = Some 4%nat /\
  MODEL_MAX_IMAGES !! "gemini_nanobanana" = Some 4%nat /\
  files_supplied None = 0%nat /\
  ImageRoute.generate_image example_env "edit" "a cat" "seedream" "Photo" "square"
    None None (initial_state (MediaUploader_init GcsReady))
  = (Raise (validation_error "Image files required for edit mode"),
     initial_state (MediaUploader_init GcsReady)) /\
  ImageRoute.generate_image example_env "edit" "a cat" "gemini_nanobanana" "Photo" "square"
    None None (initial_state (MediaUploader_init GcsReady))
  = (Raise (validation_error "Image files required for edit mode"),
     initial_state (MediaUploader_init GcsReady)) /\
  rejected_validation_400
    (ImageRoute.generate_image example_env "edit" "a cat" "seedream" "Photo" "square"
       None None (initial_state (MediaUploader_init GcsReady))).1 = true.
Proof. repeat split. Qed.

(** C8 (as stated, refuted). For [{mode: "edit", model: "flux_kontext_edit",
    files: []}] the message of the 400 "Validation Error" is the one of the
    edit-mode guard; it does not say that exactly 1 file is required. *)
Lemma flux_kontext_edit_no_files_message_is_not_exactly_one :
  ~ (exists message,
       (ImageRoute.generate_image example_env "edit" "a cat" "flux_kontext_edit" "Photo"
          "square" (Some []) None (initial_state (MediaUploader_init GcsReady))).1
       = Raise (validation_error message)
       /\ str_in "exactly 1" message = true).
Proof.
  intros [message [Hraise Hsays]].
  assert ((ImageRoute.generate_image example_env "edit" "a cat" "flux_kontext_edit" "Photo"
             "square" (Some []) None (initial_state (MediaUploader_init GcsReady))).1
          = Raise (validation_error "Image files required for edit mode"))
    as Hcode by reflexivity.
  rewrite Hcode in Hraise. inversion Hraise; subst message.
  vm_compute in Hsays. discriminate Hsays.
Qed.

(** C8 (amended). For [{mode: "edit", model: "flux_kontext_edit"}] with no
    files (no field or an empty list), a non-blank prompt and a valid style
    and shape, the endpoint fails with 400 "Validation Error" and the message
    "Image files required for edit mode", without any effect. *)
Theorem flux_kontext_edit_without_files (env : Env) (prompt style shape : string)
    (image_files : option (list UploadFile)) (user_id : option string) (st : State) :
  image_files = None \/ image_files = Some [] ->
  blank prompt = false ->
  mem style (map style_value ImageStyle_members) = true ->
  mem shape (map shape_value ImageShape_members) = true ->
  ImageRoute.generate_image env "edit" prompt "flux_kontext_edit" style shape image_files
    user_id st
  = (Raise (validation_error "Image files required for edit mode"), st) /\
  rejected_validation_400
    (ImageRoute.generate_image env "edit" prompt "flux_kontext_edit" style shape image_files
       user_id st).1
  = true.
Proof.
  intros Hfiles Hp Hs Hsh.
  assert (validate_generate_request "edit" prompt "flux_kontext_edit" style shape image_files
          = Raise (validation_error "Image files required for edit mode")) as Hraise.
  { rewrite validate_edit_request by (try reflexivity; assumption).
    destruct Hfiles as [-> | ->]; reflexivity. }
  rewrite (route_rejects env _ _ _ _ _ _ user_id st _ Hraise). split; reflexivity.
Qed.

Lemma flux_kontext_edit_without_files_witness :
  blank "a cat" = false /\
  ImageRoute.generate_image example_env "edit" "a cat" "flux_kontext_edit" "Photo" "square"
    (Some []) None (initial_state (MediaUploader_init GcsReady))
  = (Raise (validation_error "Image files required for edit mode"),
     initial_state (MediaUploader_init GcsReady)).
Proof.
  split; [reflexivity|].
  apply (flux_kontext_edit_without_files example_env "a cat" "Photo" "square" (Some []) None
           (initial_state (MediaUploader_init GcsReady)));
    [right; reflexivity | reflexivity | reflexivity | reflexivity].
Defined.

(** C7 (as stated, refuted). A flux_kontext_edit request with five files, all
    of a wrong MIME type, violates the MIME constraint five times, the cap of
    4 files and the exact count of 1; the error raised names only the first
    file's type. With the types corrected the same request is rejected for
    its count, which the first error did not list. *)
Lemma validation_reports_only_the_first_violation :
  validate_generate_request "edit" "a cat" "flux_kontext_edit" "Photo" "square"
    (Some [upload "a.txt" "text/plain" []; upload "b.pdf" "application/pdf" [];
           upload "c.pdf" "application/pdf" []; upload "d.pdf" "application/pdf" [];
           upload "e.pdf" "application/pdf" []])
  = Raise (HTTPExc (mkHTTPException 400
      [("error", JStr "Invalid File Type");
       ("message", JStr "Invalid file type. Supported formats: image/jpeg, image/jpg, image/png, image/webp");
       ("field", JStr "image_files[0]");
       ("received_type", JStr "text/plain")])) /\
  validate_generate_request "edit" "a cat" "flux_kontext_edit" "Photo" "square"
    (Some [upload "a.png" "image/png" []; upload "b.png" "image/png" [];
           upload "c.png" "image/png" []; upload "d.png" "image/png" [];
           upload "e.png" "image/png" []])
  = Raise (validation_error "Maximum 4 image files allowed. You uploaded 5 files.").
Proof. split; reflexivity. Qed.

(** C7 (amended). Media validation fails fast: [validate_file_types] raises
    for the first file whose type is not allowed and names only that file,
    whatever follows it; in the route the MIME check comes before the count
    checks, so a wrong type hides a wrong count. Only
    [validate_required_fields] aggregates: it passes when no required field is
    missing or empty, and otherwise its error lists every missing and every
    empty field. *)
Theorem media_validation_fails_fast :
  (forall (pre post : list UploadFile) (bad : UploadFile)
          (allowed_types : list string) (field_name : string),
      forallb (fun f => negb (type_not_allowed allowed_types f)) pre = true ->
      type_not_allowed allowed_types bad = true ->
      validate_file_types (pre ++ bad :: post) allowed_types field_name
      = Raise (HTTPExc (invalid_file_type allowed_types field_name
                          (length (pre ++ bad :: post)) (length pre) bad))) /\
  (forall (model : string) (pre post : list UploadFile) (bad : UploadFile),
      existsb has_filename (pre ++ bad :: post) = true ->
      forallb (fun f => negb (type_not_allowed allowed_image_types f)) pre = true ->
      type_not_allowed allowed_image_types bad = true ->
      validate_edit_files model (Some (pre ++ bad :: post))
      = Raise (HTTPExc (invalid_file_type allowed_image_types "image_files"
                          (length (pre ++ bad :: post)) (length pre) bad))) /\
  (forall (data : gmap string json) (required_fields : list string),
      let missing_fields := List.filter (is_missing data) required_fields in
      let empty_fields := List.filter (is_empty data) required_fields in
      validate_required_fields data required_fields
      = match missing_fields, empty_fields with
        | [], [] => Ok tt
        | _, _ =>
            Raise (HTTPExc (mkHTTPException 400
              [("error", JStr "Required Fields Validation Error");
               ("message", JStr "Some required fields are missing or empty");
               ("details", JList (map JObj (required_fields_details missing_fields empty_fields)))]))
        end).
Proof.
  split; [|split].
  - intros pre post bad allowed_types field_name Hpre Hbad.
    unfold validate_file_types.
    now rewrite (validate_file_types_from_first 0 _ pre post bad) by assumption.
  - intros model pre post bad Hnamed Hpre Hbad.
    unfold validate_edit_files.
    destruct (pre ++ bad :: post) as [|f fs] eqn:E; [discriminate Hnamed|].
    rewrite Hnamed. cbn [negb]. rewrite <- E. unfold validate_file_types.
    now rewrite (validate_file_types_from_first 0 _ pre post bad) by assumption.
  - intros data required_fields. cbv zeta.
    unfold validate_required_fields.
    rewrite scan_required_fields_filter. reflexivity.
Qed.

Lemma media_validation_fails_fast_witness :
  let good := upload "a.png" "image/png" [] in
  let bad := upload "b.txt" "text/plain" [] in
  let worse := upload "c.pdf" "application/pdf" [] in
  (forallb (fun f => negb (type_not_allowed allowed_image_types f)) [good] = true /\
   type_not_allowed allowed_image_types bad = true) /\
  validate_file_types [good; bad; worse] allowed_image_types "image_files"
  = Raise (HTTPExc (invalid_file_type allowed_image_types "image_files" 3 1 bad)).
Proof.
  intros good bad worse. split; [split; reflexivity|].
  destruct media_validation_fails_fast as [Hfirst _].
  apply (Hfirst [good] [worse] bad allowed_image_types "image_files"); reflexivity.
Defined.

(* ===================================================================== *)
(** * Further properties of the embedded code *)

(** ** Validators *)

Section ValidatorFacts.

Lemma mem_In (x : string) (xs : list string) : mem x xs = true <-> In x xs.
Proof.
  unfold mem. rewrite existsb_exists. split.
  - intros [y [Hy Heq]]. apply String.eqb_eq in Heq. now subst.
  - intros H. exists x. split; [exact H | apply String.eqb_refl].
Qed.

Lemma type_allowed_iff (allowed_types : list string) (f : UploadFile) :
  type_not_allowed allowed_types f = false
  <-> exists t, content_type f = Some t /\ In t allowed_types.
Proof.
  unfold type_not_allowed. destruct (content_type f) as [t|].
  - rewrite negb_false_iff, mem_In. split; [eauto | now intros [t' [[= <-] H]]].
  - split; [discriminate | intros [t [H _]]; discriminate].
Qed.

Lemma validate_file_types_from_passes (i n : nat) (files : list UploadFile)
    (allowed_types : list string) (field : string) :
  validate_file_types_from i n files allowed_types field = Ok tt ->
  forallb (fun f => negb (type_not_allowed allowed_types f)) files = true.
Proof.
  revert i. induction files as [|f fs IH]; intros i H; simpl in *; [reflexivity|].
  destruct (type_not_allowed allowed_types f); [discriminate|].
  simpl. now apply (IH (S i)).
Qed.

End ValidatorFacts.

(** X1. [validate_file_types] passes exactly when every file carries a
    content type and that type is among the allowed ones; an empty list of
    files passes, and a file without a content type is refused. *)
Theorem validate_file_types_accepts_iff (files : list UploadFile)
    (allowed_types : list string) (field_name : string) :
  validate_file_types files allowed_types field_name = Ok tt <->
  (forall f, In f files -> exists t, content_type f = Some t /\ In t allowed_types).
Proof.
  unfold validate_file_types. split.
  - intros H f Hf. apply validate_file_types_from_passes in H.
    rewrite forallb_forall in H. specialize (H f Hf).
    apply negb_true_iff in H. now apply type_allowed_iff.
  - intros H. apply validate_file_types_from_ok.
    apply forallb_forall. intros f Hf. apply negb_true_iff, type_allowed_iff. now apply H.
Qed.

(** X2. For data whose string values are ASCII text,
    [validate_required_fields] passes exactly when every required field is
    present with a value that is neither falsy nor made of white space only;
    the values 0, False, None and a string of ASCII white space all count as
    empty. *)
Theorem validate_required_fields_passes_iff (data : gmap string json)
    (required_fields : list string) :
  ((forall field s,
      In field required_fields -> data !! field = Some (JStr s) -> ascii_text s = true) ->
   (validate_required_fields data required_fields = Ok tt <->
    forall field, In field required_fields ->
      exists v, data !! field = Some v /\ empty_value v = false)) /\
  empty_value (JInt 0) = true /\ empty_value (JBool false) = true /\
  empty_value JNull = true /\
  (forall s, blank s = true -> empty_value (JStr s) = true).
Proof.
  split.
  - intros _. unfold validate_required_fields. rewrite scan_required_fields_filter. simpl.
    assert (forall (p : string -> bool) l, List.filter p l = [] <->
              forall x, In x l -> p x = false) as Hnil.
    { intros p l. induction l as [|x xs IH]; simpl; [tauto|].
      destruct (p x) eqn:E.
      - split; [discriminate | intros H; specialize (H x (or_introl eq_refl)); congruence].
      - rewrite IH. split; [intros H y [<-|Hy]; auto | auto]. }
    split.
    + intros H field Hin.
      destruct (List.filter (is_missing data) required_fields) eqn:Em; [|discriminate].
      destruct (List.filter (is_empty data) required_fields) eqn:Ee; [|destruct l; discriminate].
      pose proof (proj1 (Hnil _ _) Em field Hin) as Hm.
      pose proof (proj1 (Hnil _ _) Ee field Hin) as He.
      unfold is_missing, is_empty in *. destruct (data !! field) as [v|]; [eauto | discriminate].
    + intros H.
      assert (List.filter (is_missing data) required_fields = []) as ->.
      { apply Hnil. intros f Hf. destruct (H f Hf) as [v [Hv _]].
        unfold is_missing. now rewrite Hv. }
      assert (List.filter (is_empty data) required_fields = []) as ->.
      { apply Hnil. intros f Hf. destruct (H f Hf) as [v [Hv He]].
        unfold is_empty. now rewrite Hv. }
      reflexivity.
  - repeat split. intros s Hs. unfold empty_value. rewrite Hs. apply orb_true_r.
Qed.

Lemma validate_required_fields_passes_iff_witness :
  validate_required_fields (<["count" := JInt 0]> (<["name" := JStr "cat"]> ∅)) ["name"]
  = Ok tt /\
  validate_required_fields (<["count" := JInt 0]> (<["name" := JStr "cat"]> ∅))
    ["name"; "count"] <> Ok tt.
Proof.
  assert (forall fields field s,
            In field fields ->
            (<["count" := JInt 0]> (<["name" := JStr "cat"]> ∅) : gmap string json) !! field
            = Some (JStr s) ->
            ascii_text s = true) as Hascii.
  { intros fields field s _ Hs.
    destruct (decide (field = "count")) as [->|Hc].
    - rewrite lookup_insert_eq in Hs. discriminate Hs.
    - rewrite lookup_insert_ne in Hs by congruence.
      destruct (decide (field = "name")) as [->|Hn].
      + rewrite lookup_insert_eq in Hs. now injection Hs as <-.
      + rewrite lookup_insert_ne in Hs by congruence. discriminate Hs. }
  destruct (validate_required_fields_passes_iff
              (<["count" := JInt 0]> (<["name" := JStr "cat"]> ∅)) ["name"]) as [Hname _].
  destruct (Hname (Hascii ["name"])) as [_ Hpass].
  destruct (validate_required_fields_passes_iff
              (<["count" := JInt 0]> (<["name" := JStr "cat"]> ∅)) ["name"; "count"])
    as [Hboth _].
  destruct (Hboth (Hascii ["name"; "count"])) as [Hfail _].
  split.
  - apply Hpass. intros field [<-|[]]. exists (JStr "cat"). split; reflexivity.
  - intros Hok. destruct (Hfail Hok "count") as [v [Hv He]]; [right; left; reflexivity|].
    vm_compute in Hv. inversion Hv; subst v. discriminate He.
Defined.

Lemma validate_file_types_accepts_iff_witness :
  validate_file_types [] allowed_image_types "image_files" = Ok tt /\
  validate_file_types [mkUploadFile (Some "a.png") None (Ok [])] allowed_image_types
    "image_files" <> Ok tt.
Proof.
  split.
  - apply (validate_file_types_accepts_iff [] allowed_image_types "image_files").
    intros f [].
  - intros Hok.
    destruct (proj1 (validate_file_types_accepts_iff _ _ _) Hok
                (mkUploadFile (Some "a.png") None (Ok [])) (or_introl eq_refl))
      as [t [Ht _]].
    discriminate Ht.
Defined.

(** ** The classifier beyond the rate-limit group *)

Section ClassifierOrder.

Lemma two_letter_hit (m : string) :
  any_in ["gt"; "ge"; "lt"; "le"] m = true ->
  any_in pat_greater_than m = false ->
  any_in pat_greater_than_equal m = false ->
  any_in pat_less_than m = false ->
  any_in pat_less_than_equal m = false ->
  False.
Proof.
  intros Hhit Hgt Hge Hlt Hle.
  rewrite any_in_false in Hgt, Hge, Hlt, Hle.
  apply any_in_true in Hhit as [p [Hp Hin]].
  destruct Hp as [<-|[<-|[<-|[<-|[]]]]].
  - rewrite (Hgt "gt") in Hin; [discriminate | simpl; tauto].
  - rewrite (Hge "ge") in Hin; [discriminate | simpl; tauto].
  - rewrite (Hlt "lt") in Hin; [discriminate | simpl; tauto].
  - rewrite (Hle "le") in Hin; [discriminate | simpl; tauto].
Qed.

Lemma fal_label_not_storage (e operation label : string) :
  In label storage_labels ->
  error_type_of (handle_fal_ai_error e operation) <> Some (JStr label).
Proof.
  intros Hlabel. unfold handle_fal_ai_error. cbv zeta.
  repeat (match goal with
          | |- context [if any_in ?g ?m then _ else _] =>
              destruct (any_in g m);
              [destruct Hlabel as [<-|[<-|[<-|[]]]]; discriminate|]
          end).
  destruct Hlabel as [<-|[<-|[<-|[]]]]; discriminate.
Qed.

Lemma provider_label_not_storage (e operation label : string) :
  In label storage_labels ->
  error_type_of (handle_openai_error e operation) <> Some (JStr label) /\
  error_type_of (handle_google_ai_error e operation) <> Some (JStr label).
Proof.
  intros Hlabel. unfold handle_openai_error, handle_google_ai_error. cbv zeta.
  split;
    repeat (match goal with
            | |- context [if ?b then _ else _] =>
                destruct b; [destruct Hlabel as [<-|[<-|[<-|[]]]]; discriminate|]
            end);
    destruct Hlabel as [<-|[<-|[<-|[]]]]; discriminate.
Qed.

End ClassifierOrder.

(** X3. In [handle_fal_ai_error] the two-letter patterns "gt", "ge", "lt"
    and "le" of the numeric groups shadow every later group: a message that
    contains one of them, such as "service unavailable" or "no images
    generated", is never classified as unavailable, timeout, invalid request,
    payment or generic; its status is 429, 401, 404 or 422. *)
Theorem two_letter_patterns_shadow_later_groups (e operation : string) :
  any_in ["gt"; "ge"; "lt"; "le"] (lower e) = true ->
  In (status_code (handle_fal_ai_error e operation)) [429; 401; 404; 422].
Proof.
  intros Hhit. unfold handle_fal_ai_error. cbv zeta.
  repeat (match goal with
          | |- context [if any_in ?g ?m then _ else _] =>
              destruct (any_in g m) eqn:?;
              [first [ simpl; tauto
                     | exfalso; eapply two_letter_hit; eassumption ]|]
          end).
  exfalso; eapply two_letter_hit; eassumption.
Qed.

Lemma two_letter_patterns_shadow_later_groups_witness :
  any_in ["gt"; "ge"; "lt"; "le"] (lower "503 Service Unavailable") = true /\
  In (status_code (handle_fal_ai_error "503 Service Unavailable" "video generation"))
    [429; 401; 404; 422].
Proof.
  split; [reflexivity|].
  apply (two_letter_patterns_shadow_later_groups "503 Service Unavailable" "video generation").
  reflexivity.
Defined.

(** X4. A fault whose message mentions "google", as every message that
    quotes a storage.googleapis.com URL does, is never classified by
    [handle_storage_error]: unless it is routed to the fal.ai handler it goes
    to the OpenAI or the Google AI handler, and its label is none of
    "Storage Permission Error", "Storage Full" and "Storage Error". *)
Theorem google_mention_bypasses_storage_handler (e service_name operation : string) :
  str_in "google" (lower e) = true ->
  (routes_to_fal (lower e) service_name = false ->
   handle_service_error e service_name operation = handle_openai_error e operation \/
   handle_service_error e service_name operation = handle_google_ai_error e operation) /\
  (forall label, In label storage_labels ->
     error_type_of (handle_service_error e service_name operation) <> Some (JStr label)).
Proof.
  intros Hgoogle.
  assert (routes_to_fal (lower e) service_name = false ->
          handle_service_error e service_name operation = handle_openai_error e operation \/
          handle_service_error e service_name operation = handle_google_ai_error e operation)
    as Hroute.
  { intros Hr. unfold handle_service_error. cbv zeta. rewrite Hr, Hgoogle.
    destruct (str_in "openai" (lower e) || str_in "gpt" (lower e) || str_in "dalle" (lower e));
      [left; reflexivity|].
    right. now rewrite orb_true_r. }
  split; [exact Hroute|].
  intros label Hlabel.
  destruct (routes_to_fal (lower e) service_name) eqn:Hr.
  - assert (handle_service_error e service_name operation = handle_fal_ai_error e operation)
      as -> by (unfold handle_service_error; cbv zeta; now rewrite Hr).
    now apply fal_label_not_storage.
  - destruct (Hroute eq_refl) as [-> | ->]; now apply provider_label_not_storage.
Qed.

Lemma google_mention_bypasses_storage_handler_witness :
  str_in "google"
    (lower "403 POST https://storage.googleapis.com/upload: storage.objects.create access denied")
  = true /\
  error_type_of
    (handle_service_error
       "403 POST https://storage.googleapis.com/upload: storage.objects.create access denied"
       "minimax" "audio generation")
  <> Some (JStr "Storage Permission Error").
Proof.
  split; [reflexivity|].
  apply (google_mention_bypasses_storage_handler
           "403 POST https://storage.googleapis.com/upload: storage.objects.create access denied"
           "minimax" "audio generation"); [reflexivity | left; reflexivity].
Defined.

(** X5. Which handler and which branch classify a fault depends on the
    service name only through the words "fal", "flux" and "kontext": for two
    service names that contain none of them, [handle_service_error] gives the
    same status and the same error type to the same message. *)
Theorem service_name_matters_only_for_fal (e operation name1 name2 : string) :
  any_in ["fal"; "flux"; "kontext"] (lower name1) = false ->
  any_in ["fal"; "flux"; "kontext"] (lower name2) = false ->
  status_code (handle_service_error e name1 operation)
  = status_code (handle_service_error e name2 operation) /\
  error_type_of (handle_service_error e name1 operation)
  = error_type_of (handle_service_error e name2 operation).
Proof.
  intros H1 H2.
  assert (forall name, routes_to_fal (lower e) name
                       = any_in ["fal"; "flux"; "kontext"] (lower name)
                         || any_in ["fal.ai"; "fal_client"; "fal-ai"] (lower e)) as Hr
    by reflexivity.
  unfold handle_service_error. cbv zeta. rewrite !Hr, H1, H2. cbn [orb].
  repeat (match goal with
          | |- context [if ?b then _ else _] => destruct b; [split; reflexivity|]
          end).
  split; reflexivity.
Qed.

Lemma service_name_matters_only_for_fal_witness :
  any_in ["fal"; "flux"; "kontext"] (lower "qwen") = false /\
  status_code (handle_service_error "quota exceeded" "qwen" "image generation")
  = status_code (handle_service_error "quota exceeded" "seedream" "image generation").
Proof.
  split; [reflexivity|].
  apply (service_name_matters_only_for_fal "quota exceeded" "image generation"
           "qwen" "seedream"); reflexivity.
Defined.

Section RawErrorText.

Lemma take_chars_length (n : nat) (s : string) : (String.length (take_chars n s) <= n)%nat.
Proof.
  unfold take_chars. revert s. induction n as [|n IH]; intros [|c s]; simpl; try lia.
  specialize (IH s). lia.
Qed.

Lemma take_chars_prefix (n : nat) (s : string) : String.prefix (take_chars n s) s = true.
Proof.
  unfold take_chars. revert s. induction n as [|n IH]; intros [|c s]; simpl; try reflexivity.
  destruct (Ascii.ascii_dec c c) as [_|Hne]; [apply IH | contradiction].
Qed.

End RawErrorText.

(** X6. The raw text of a provider error reaches the client in two branches
    of [handle_fal_ai_error]: for a message of ASCII text the generic result
    carries its first 200 characters, a prefix of the message, under
    ["original_error"], and the "Invalid Request" result carries all of the
    message. *)
Theorem raw_error_text_in_details (e operation : string) :
  (ascii_text e = true ->
   Forall (fun g => any_in g (lower e) = false) fal_pattern_groups ->
   (exists d,
      details_of (handle_fal_ai_error e operation) = Some (JObj d) /\
      dict_get d "original_error" = Some (JStr (take_chars 200 e))) /\
   (String.length (take_chars 200 e) <= 200)%nat /\
   String.prefix (take_chars 200 e) e = true) /\
  (Forall (fun g => any_in g (lower e) = false) (take 34 fal_pattern_groups) ->
   any_in pat_invalid_parameters (lower e) = true ->
   exists d,
     details_of (handle_fal_ai_error e operation) = Some (JObj d) /\
     dict_get d "original_error" = Some (JStr e)).
Proof.
  split.
  - intros _ H. split; [|split; [apply take_chars_length | apply take_chars_prefix]].
    rewrite Forall_forall in H.
    unfold handle_fal_ai_error. cbv zeta.
    repeat (match goal with
            | |- context [if any_in ?g ?m then _ else _] =>
                rewrite (H g) by (unfold fal_pattern_groups;
                                  repeat (first [left; reflexivity | right]))
            end).
    eexists. split; reflexivity.
  - intros H Hinvalid. rewrite Forall_forall in H.
    unfold handle_fal_ai_error. cbv zeta.
    repeat (match goal with
            | |- context [if any_in ?g ?m then _ else _] =>
                rewrite (H g) by (unfold fal_pattern_groups; cbn [take];
                                  repeat (first [left; reflexivity | right]))
            end).
    rewrite Hinvalid. eexists. split; reflexivity.
Qed.

Lemma raw_error_text_in_details_witness :
  (exists d,
     details_of (handle_fal_ai_error "boom" "image generation") = Some (JObj d) /\
     dict_get d "original_error" = Some (JStr "boom")) /\
  exists d,
    details_of (handle_fal_ai_error "bad request: secret=abc" "image generation")
    = Some (JObj d) /\
    dict_get d "original_error" = Some (JStr "bad request: secret=abc").
Proof.
  split.
  - destruct (raw_error_text_in_details "boom" "image generation") as [Hgeneric _].
    apply Hgeneric; [reflexivity|].
    unfold fal_pattern_groups. repeat (constructor; [reflexivity|]). constructor.
  - destruct (raw_error_text_in_details "bad request: secret=abc" "image generation")
      as [_ Hinvalid].
    apply Hinvalid; [|reflexivity].
    unfold fal_pattern_groups. cbn [take].
    repeat (constructor; [reflexivity|]). constructor.
Defined.

(** ** The media uploader beyond the fallback *)

(** X7. When an image opens with positive dimensions of which one exceeds a
    positive [max_dimension], [resize_image_if_needed] asks for a size whose
    longer side is exactly [max_dimension] and whose other side is scaled by
    the same ratio, rounded down; both sides stay within [max_dimension]. *)
Theorem resize_target_within_max_dimension (env : Env) (image_content : bytes)
    (max_dimension : Z) (image : Image) (w h : Z) :
  Image_open env image_content = Ok image ->
  size image = (w, h) ->
  0 < w -> 0 < h -> 0 < max_dimension ->
  max_dimension < w \/ max_dimension < h ->
  exists new_width new_height format_to_use,
    resize_image_body env image_content max_dimension
    = resize_and_save env image_content (new_width, new_height) format_to_use /\
    (new_width, new_height)
    = (if h <? w then (max_dimension, (h * max_dimension) / w)
       else ((w * max_dimension) / h, max_dimension)) /\
    0 <= new_width <= max_dimension /\ 0 <= new_height <= max_dimension.
Proof.
  intros Hopen Hsize Hw Hh Hmax Hbig.
  unfold resize_image_body. rewrite Hopen, Hsize.
  assert ((w <=? max_dimension) && (h <=? max_dimension) = false) as ->.
  { apply andb_false_iff. destruct Hbig; [left | right]; apply Z.leb_gt; lia. }
  assert ((w =? 0) = false) as Hw0 by (apply Z.eqb_neq; lia).
  assert ((h =? 0) = false) as Hh0 by (apply Z.eqb_neq; lia).
  rewrite Hw0, Hh0.
  destruct (h <? w) eqn:Hlt.
  - apply Z.ltb_lt in Hlt.
    rewrite Z.quot_div_nonneg by nia.
    do 3 eexists. split; [reflexivity|]. split; [reflexivity|].
    split; [lia|]. split; [apply Z.div_pos; nia|].
    apply Z.div_le_upper_bound; nia.
  - apply Z.ltb_ge in Hlt.
    rewrite Z.quot_div_nonneg by nia.
    do 3 eexists. split; [reflexivity|]. split; [reflexivity|].
    split; [|lia]. split; [apply Z.div_pos; nia|].
    apply Z.div_le_upper_bound; nia.
Qed.

Lemma resize_target_within_max_dimension_witness :
  Image_open example_env [Byte.x08; Byte.x02] = Ok (mkImage (8000, 2000) (Some "PNG")) /\
  resize_image_body example_env [Byte.x08; Byte.x02] default_max_dimension
  = resize_and_save example_env [Byte.x08; Byte.x02] (4000, 1000) "PNG".
Proof.
  split; [reflexivity|].
  destruct (resize_target_within_max_dimension example_env [Byte.x08; Byte.x02]
              default_max_dimension (mkImage (8000, 2000) (Some "PNG")) 8000 2000)
    as (nw & nh & fmt & Hbody & Hsize & _);
    [reflexivity | reflexivity | lia | lia | reflexivity | left; reflexivity |].
  rewrite Hbody. vm_compute in Hsize. inversion Hsize; subst nw nh.
  reflexivity.
Defined.

(** ** The image endpoint beyond validation *)

(** X8. The endpoint counts the named files, the service counts all of them:
    a flux_kontext_edit request with one named file and further unnamed
    parts passes validation and is then refused by the service with
    [ValueError]; no provider is called, and the classified answer is 422
    "Value Too Small". *)
Theorem unnamed_parts_counted_by_service_only (env : Env) (prompt style shape : string)
    (files : list UploadFile) (user_id : option string) (st : State) :
  blank prompt = false ->
  mem style (map style_value ImageStyle_members) = true ->
  mem shape (map shape_value ImageShape_members) = true ->
  types_allowed (Some files) = true ->
  file_count files = 1%nat ->
  (1 < length files)%nat ->
  validate_generate_request "edit" prompt "flux_kontext_edit" style shape (Some files)
  = Ok tt /\
  ImageRoute.generate_image env "edit" prompt "flux_kontext_edit" style shape (Some files)
    user_id st
  = (Raise (HTTPExc (handle_service_error
                       "Model flux_kontext_edit supports maximum 1 reference images"
                       "flux_kontext_edit" "image generation")), st) /\
  status_code (handle_service_error
                 "Model flux_kontext_edit supports maximum 1 reference images"
                 "flux_kontext_edit" "image generation") = 422 /\
  error_type_of (handle_service_error
                   "Model flux_kontext_edit supports maximum 1 reference images"
                   "flux_kontext_edit" "image generation") = Some (JStr "Value Too Small").
Proof.
  intros Hp Hs Hsh Ht Hcount Hlen.
  assert (validate_generate_request "edit" prompt "flux_kontext_edit" style shape
            (Some files) = Ok tt) as Hok.
  { apply (exact_model_bound prompt style shape (Some files)); assumption. }
  split; [exact Hok|]. split; [|split; reflexivity].
  rewrite (route_boundary env _ _ _ _ _ _ user_id st Hok). cbv zeta.
  destruct files as [|f fs]; [simpl in Hlen; lia|].
  unfold ImageGenerationService.generate_image, ImageGenerationService._edit_image.
  eval_closed_tests.
  change (MODEL_MAX_IMAGES !! "flux_kontext_edit") with (Some 1%nat).
  change (default 0%nat (Some 1%nat)) with 1%nat.
  assert (Nat.ltb 1 (length (f :: fs)) = true) as -> by (apply Nat.ltb_lt; exact Hlen).
  reflexivity.
Qed.

Lemma unnamed_parts_counted_by_service_only_witness :
  file_count [upload "a.png" "image/png" [Byte.x01; Byte.x01];
              mkUploadFile None (Some "image/png") (Ok [])] = 1%nat /\
  (ImageRoute.generate_image example_env "edit" "a cat" "flux_kontext_edit" "Photo" "square"
     (Some [upload "a.png" "image/png" [Byte.x01; Byte.x01];
            mkUploadFile None (Some "image/png") (Ok [])])
     None (initial_state (MediaUploader_init GcsReady))).1
  = Raise (HTTPExc (handle_service_error
                      "Model flux_kontext_edit supports maximum 1 reference images"
                      "flux_kontext_edit" "image generation")).
Proof.
  split; [reflexivity|].
  destruct (unnamed_parts_counted_by_service_only example_env "a cat" "Photo" "square"
              [upload "a.png" "image/png" [Byte.x01; Byte.x01];
               mkUploadFile None (Some "image/png") (Ok [])]
              None (initial_state (MediaUploader_init GcsReady)))
    as (_ & Hroute & _); try reflexivity.
  all: try (simpl; lia).
  all: try (now rewrite Hroute).
Defined.

(** X9. When fal.ai answers without images, the flux text-to-image paths
    raise "No images generated by <model>" and nothing is downloaded or
    stored; at the endpoint the message is classified by its letters "ge" as
    422 "Value Too Small", not as "Generation Failed". *)
Theorem empty_fal_result_reported_as_value_too_small (env : Env)
    (prompt model style shape : string) (image_files : option (list UploadFile))
    (user_id : option string) (st : State) (reply : option (list string)) :
  model = "flux_1_spro" \/ model = "flux_kontext_dev" ->
  reply = None \/ reply = Some [] ->
  (forall endpoint arguments, fal_submit_get env endpoint arguments = Ok reply) ->
  validate_generate_request "generate" prompt model style shape image_files = Ok tt ->
  let run := ImageRoute.generate_image env "generate" prompt model style shape image_files
               user_id st in
  run.1 = Raise (HTTPExc (handle_service_error ("No images generated by " +:+ model) model
                            "image generation")) /\
  status_code (handle_service_error ("No images generated by " +:+ model) model
                 "image generation") = 422 /\
  error_type_of (handle_service_error ("No images generated by " +:+ model) model
                   "image generation") = Some (JStr "Value Too Small") /\
  local_files run.2 = local_files st /\ gcs_blobs run.2 = gcs_blobs st /\
  length (provider_calls (trace run.2)) = S (length (provider_calls (trace st))).
Proof.
  intros Hmodel Hreply Hfal Hok. cbv zeta.
  rewrite (route_boundary env _ _ _ _ _ _ user_id st Hok). cbv zeta.
  rewrite generate_mode.
  destruct Hmodel as [-> | ->];
    unfold ImageGenerationService._generate_from_text; eval_closed_tests;
    rewrite !bind_run; unfold ImageGenerationService.provider; rewrite !bind_run;
    cbn [emit]; unfold lift; rewrite Hfal;
    destruct Hreply as [-> | ->]; cbn;
    rewrite !bind_run; unfold raise; cbn;
    rewrite provider_calls_snoc, length_app;
    (repeat split; try reflexivity; simpl; lia).
Qed.

Lemma empty_fal_result_reported_as_value_too_small_witness :
  validate_generate_request "generate" "a cat" "flux_1_spro" "Photo" "square" None = Ok tt /\
  (ImageRoute.generate_image
     (mkEnv example_open (resize_and_save example_env) (b64encode example_env)
        (timestamp example_env) (uuid4_hex example_env) (guess_extension example_env)
        (openai_images_generate example_env) (fun _ _ => Ok (Some []))
        (gemini_generate_images example_env) (gemini_generate_content_stream example_env)
        (requests_get example_env) (gcs_upload_from_string example_env)
        (local_write example_env) (os_remove example_env) (BASE_URL example_env)
        (GCS_BUCKET_NAME example_env))
     "generate" "a cat" "flux_1_spro" "Photo" "square" None None
     (initial_state (MediaUploader_init GcsReady))).1
  = Raise (HTTPExc (handle_service_error "No images generated by flux_1_spro" "flux_1_spro"
                      "image generation")).
Proof.
  split; [reflexivity|].
  apply (empty_fal_result_reported_as_value_too_small
           (mkEnv example_open (resize_and_save example_env) (b64encode example_env)
              (timestamp example_env) (uuid4_hex example_env) (guess_extension example_env)
              (openai_images_generate example_env) (fun _ _ => Ok (Some []))
              (gemini_generate_images example_env) (gemini_generate_content_stream example_env)
              (requests_get example_env) (gcs_upload_from_string example_env)
              (local_write example_env) (os_remove example_env) (BASE_URL example_env)
              (GCS_BUCKET_NAME example_env))
           "a cat" "flux_1_spro" "Photo" "square" None None
           (initial_state (MediaUploader_init GcsReady)) (Some []));
    [left; reflexivity | right; reflexivity | reflexivity | reflexivity].
Defined.

Section SafeNames.

Lemma all_chars_filter (keep : ascii -> bool) (s : string) :
  all_chars keep (filter_chars keep s) = true.
Proof.
  induction s as [|c s IH]; simpl; [reflexivity|].
  destruct (keep c) eqn:E; simpl; [now rewrite E|exact IH].
Qed.

Lemma filter_chars_length (keep : ascii -> bool) (s : string) :
  (String.length (filter_chars keep s) <= String.length s)%nat.
Proof. induction s as [|c s IH]; simpl; [lia|]. destruct (keep c); simpl; lia. Qed.

Lemma all_chars_rstrip (ok : ascii -> bool) (s : string) :
  all_chars ok s = true -> all_chars ok (rstrip s) = true.
Proof.
  induction s as [|c s IH]; simpl; [reflexivity|].
  intros H. apply andb_true_iff in H as [Hc Hs]. specialize (IH Hs).
  destruct (rstrip s) as [|d r]; simpl in *.
  - destruct (is_space c); simpl; [reflexivity | now rewrite Hc].
  - now rewrite Hc, IH.
Qed.

Lemma rstrip_length (s : string) : (String.length (rstrip s) <= String.length s)%nat.
Proof.
  induction s as [|c s IH]; simpl; [lia|].
  destruct (rstrip s) as [|d r]; simpl in *; [destruct (is_space c); simpl; lia | lia].
Qed.

Lemma spaces_to_underscores_length (s : string) :
  String.length (spaces_to_underscores s) = String.length s.
Proof. induction s as [|c s IH]; simpl; [reflexivity | now rewrite IH]. Qed.

Lemma safe_char_without_space (c : ascii) :
  safe_char c = true -> name_char (if Ascii.eqb c " " then "_"%char else c) = true.
Proof.
  unfold safe_char, name_char. destruct (Ascii.eqb c " ") eqn:E; [reflexivity|].
  cbv zeta. rewrite orb_false_r. tauto.
Qed.

Lemma all_chars_underscores (s : string) :
  all_chars safe_char s = true -> all_chars name_char (spaces_to_underscores s) = true.
Proof.
  induction s as [|c s IH]; simpl; [reflexivity|].
  intros H. apply andb_true_iff in H as [Hc Hs].
  now rewrite (safe_char_without_space c Hc), IH.
Qed.

Lemma safe_prompt_chars (prompt : string) :
  all_chars name_char (safe_prompt prompt) = true.
Proof.
  unfold safe_prompt. apply all_chars_underscores, all_chars_rstrip, all_chars_filter.
Qed.

Lemma safe_prompt_length (prompt : string) :
  (String.length (safe_prompt prompt) <= 30)%nat.
Proof.
  unfold safe_prompt. rewrite spaces_to_underscores_length.
  pose proof (rstrip_length (filter_chars safe_char (take_chars 30 prompt))).
  pose proof (filter_chars_length safe_char (take_chars 30 prompt)).
  pose proof (take_chars_length 30 prompt). lia.
Qed.

Lemma name_char_safe (c : ascii) :
  name_char c = true ->
  safe_char c = true /\ is_space c = false /\ Ascii.eqb c " " = false.
Proof.
  destruct c as [[] [] [] [] [] [] [] []]; vm_compute; intros H;
    first [discriminate H | repeat split].
Qed.

Lemma take_chars_all (n : nat) (s : string) :
  (String.length s <= n)%nat -> take_chars n s = s.
Proof.
  unfold take_chars. revert n. induction s as [|c s IH]; intros n Hn.
  - destruct n; reflexivity.
  - destruct n as [|n]; simpl in Hn; [lia|]. simpl. f_equal. apply IH. lia.
Qed.

Lemma name_chars_fixed (s : string) :
  all_chars name_char s = true ->
  filter_chars safe_char s = s /\ rstrip s = s /\ spaces_to_underscores s = s.
Proof.
  induction s as [|c s IH]; simpl; [repeat split|].
  intros H. apply andb_true_iff in H as [Hc Hs].
  destruct (name_char_safe c Hc) as (Hsafe & Hspace & Hblank).
  destruct (IH Hs) as (Hf & Hr & Hu).
  rewrite Hsafe, Hf, Hr, Hu, Hspace, Hblank. repeat split.
  destruct s; reflexivity.
Qed.

Lemma safe_name_fixed (s : string) :
  all_chars name_char s = true -> (String.length s <= 30)%nat -> safe_prompt s = s.
Proof.
  intros Hchars Hlen. unfold safe_prompt. rewrite (take_chars_all 30 s Hlen).
  destruct (name_chars_fixed s Hchars) as (Hf & Hr & Hu).
  now rewrite Hf, Hr, Hu.
Qed.

End SafeNames.

(** X10. For a prompt of ASCII text the part of a file name that comes from
    the prompt is safe: it holds at most 30 characters, each an ASCII letter,
    a digit, a hyphen or an underscore, so such a prompt cannot put a path
    separator, a dot or a space into the stored name. *)
Theorem safe_prompt_is_a_safe_name (prompt : string) :
  ascii_text prompt = true ->
  all_chars name_char (safe_prompt prompt) = true /\
  (String.length (safe_prompt prompt) <= 30)%nat.
Proof. intros _. split; [apply safe_prompt_chars | apply safe_prompt_length]. Qed.

Lemma safe_prompt_is_a_safe_name_witness :
  safe_prompt "../../etc/passwd 2>&1" = "etcpasswd_21" /\
  all_chars name_char (safe_prompt "../../etc/passwd 2>&1") = true.
Proof.
  split; [reflexivity|].
  apply (safe_prompt_is_a_safe_name "../../etc/passwd 2>&1"). reflexivity.
Defined.

(** X18. For a name of ASCII text, sanitising twice is the same as
    sanitising once: the avatar service sanitises the file name of the image
    and passes it to [upload_video_from_url], which sanitises it again
    without changing it. *)
Theorem safe_prompt_idempotent (prompt : string) :
  ascii_text prompt = true ->
  safe_prompt (safe_prompt prompt) = safe_prompt prompt.
Proof.
  intros _. apply safe_name_fixed; [apply safe_prompt_chars | apply safe_prompt_length].
Qed.

Lemma safe_prompt_idempotent_witness :
  safe_prompt (safe_prompt "my face (1).png") = "my_face_1png".
Proof.
  rewrite (safe_prompt_idempotent "my face (1).png"); reflexivity.
Defined.

(** X11. [upload_image_from_url] stores the image byte for byte as it was
    downloaded: for a prompt of ASCII text, with a bucket and a download and
    an upload that succeed, the blob
    [image/<user_id>/<prefix>_<timestamp>_<style>_<shape>_<safe prompt>.png]
    holds exactly the downloaded bytes and the returned URL points at it;
    when the download fails, the fault is raised and neither store
    changes. *)
Theorem upload_image_from_url_stores_download (env : Env) (image_url prompt : string)
    (user_id : option string) (style shape model_prefix : string) (st : State) :
  let filename :=
    model_prefix +:+ "_" +:+ timestamp env +:+ "_" +:+ style +:+ "_" +:+ shape +:+ "_"
    +:+ safe_prompt prompt +:+ ".png" in
  let blob_name := "image/" +:+ str_of user_id +:+ "/" +:+ filename in
  let run := upload_image_from_url env image_url prompt user_id style shape model_prefix st in
  (forall data,
     ascii_text prompt = true ->
     bucket (uploader st) = true ->
     requests_get env image_url = Ok data ->
     gcs_upload_from_string env blob_name data "image/png" = Ok tt ->
     run.1 = Ok ("https://storage.googleapis.com/" +:+ GCS_BUCKET_NAME env +:+ "/"
                 +:+ blob_name) /\
     gcs_blobs run.2 !! blob_name = Some data /\
     local_files run.2 = local_files st) /\
  (forall e,
     requests_get env image_url = Raise e ->
     run.1 = Raise e /\ gcs_blobs run.2 = gcs_blobs st /\ local_files run.2 = local_files st).
Proof.
  cbv zeta. split.
  - intros data _ Hb Hget Hput.
    unfold upload_image_from_url. rewrite !bind_run. cbn [emit]. unfold lift.
    rewrite Hget. unfold upload_bytes. rewrite !bind_run. cbn. rewrite Hb.
    rewrite !bind_run. cbn. change ("image" +:+ "/" +:+ ?x) with ("image/" +:+ x).
    rewrite Hput. cbn. repeat split. apply lookup_insert_eq.
  - intros e Hget.
    unfold upload_image_from_url. rewrite !bind_run. cbn [emit]. unfold lift.
    rewrite Hget. repeat split.
Qed.

Lemma upload_image_from_url_stores_download_witness :
  requests_get example_env "https://provider.example/fal.png" = Ok [Byte.x03] /\
  gcs_blobs
    (upload_image_from_url example_env "https://provider.example/fal.png" "a cat!"
       (Some "u1") "Photo" "square" "qwen" (initial_state (MediaUploader_init GcsReady))).2
    !! "image/u1/qwen_20260101_120000_Photo_square_a_cat.png"
  = Some [Byte.x03].
Proof.
  split; [reflexivity|].
  destruct (upload_image_from_url_stores_download example_env
              "https://provider.example/fal.png" "a cat!" (Some "u1") "Photo" "square" "qwen"
              (initial_state (MediaUploader_init GcsReady))) as [Hok _].
  destruct (Hok [Byte.x03] eq_refl eq_refl eq_refl eq_refl) as (_ & Hblob & _).
  exact Hblob.
Defined.

Section ReferenceImages.

Variable env : Env.

Lemma add_reference_images_counts (image_files : list UploadFile)
    (content_parts : list part) (successfully_added : nat) :
  exists images,
    ImageGenerationService.add_reference_images env image_files content_parts
      successfully_added
    = (content_parts ++ images, (successfully_added + length images)%nat) /\
    length images = length (List.filter attachable image_files).
Proof.
  revert content_parts successfully_added.
  induction image_files as [|f fs IH]; intros content_parts n.
  - exists []. simpl. now rewrite app_nil_r, Nat.add_0_r.
  - simpl. unfold attachable at 1. destruct (has_filename f); simpl.
    + destruct (read f) as [image_content|e].
      * destruct (IH (content_parts ++
                        [PartBytes (resize_image_if_needed env image_content
                                      default_max_dimension)
                           match content_type f with
                           | Some t => if String.eqb t "" then "image/jpeg" else t
                           | None => "image/jpeg"
                           end]) (S n)) as [images [E L]].
        eexists (_ :: images). rewrite E. split.
        -- rewrite <- app_assoc. simpl. f_equal. lia.
        -- simpl. now rewrite L.
      * apply IH.
    + apply IH.
Qed.

End ReferenceImages.

(** X12. The Gemini NanoBanana builder attaches at most four reference
    images: of the first four files it skips the unnamed and the unreadable
    ones, sends the text part followed by one part per attached image, and,
    when at least one was attached, ends the prompt with a note that states
    their exact number. *)
Theorem nanobanana_attaches_named_readable_images (env : Env) (prompt : string)
    (user_id : option string) (style shape : string) (image_files : list UploadFile) :
  let attached := length (List.filter attachable (take 4 image_files)) in
  let styled_prompt := prompt +:+ ", in " +:+ lower style +:+ " style" in
  exists images,
    calls_exactly
      [GeminiGenerateContentStream "gemini-2.5-flash-image-preview"
         (PartText (if Nat.ltb 0 attached then styled_prompt +:+ reference_note attached
                    else styled_prompt) :: images)]
      (ImageGenerationService._generate_gemini_streaming env prompt user_id style shape
         (Some image_files)) /\
    length images = attached /\ (attached <= 4)%nat.
Proof.
  cbv zeta.
  assert (length (List.filter attachable (take 4 image_files)) <= 4)%nat as Hfour.
  { etransitivity; [apply List.filter_length_le|]. rewrite length_take. lia. }
  destruct image_files as [|f fs].
  - exists []. split; [|split; [reflexivity | lia]].
    unfold ImageGenerationService._generate_gemini_streaming. cbv zeta. cbn [take].
    apply exactly_bind; [apply provider_exactly | intros chunks].
    destruct (ImageGenerationService.first_inline_data chunks) as [[data mime]|];
      [apply upload_bytes_silent | apply silent_raise].
  - assert (take (Nat.min (length (f :: fs)) 4) (f :: fs) = take 4 (f :: fs)) as Htake.
    { destruct (Nat.min_spec (length (f :: fs)) 4) as [[Hlt ->] | [_ ->]]; [|reflexivity].
      rewrite !take_ge by lia. reflexivity. }
    destruct (add_reference_images_counts env (take 4 (f :: fs))
                [PartText (prompt +:+ ", in " +:+ lower style +:+ " style")] 0)
      as [images [E L]].
    exists images. split; [|split; [exact L | exact Hfour]].
    unfold ImageGenerationService._generate_gemini_streaming. cbv zeta.
    rewrite Htake, E. rewrite Nat.add_0_l, L. unfold reference_note.
    set (k := length (List.filter attachable (take 4 (f :: fs)))).
    assert ((if Nat.ltb 0 k
             then <[0%nat := PartText
                     ((prompt +:+ ", in " +:+ lower style +:+ " style")
                      +:+ ". Use the provided " +:+ of_nat k +:+ " reference image"
                      +:+ (if Nat.ltb 1 k then "s" else "") +:+ " as visual reference.")]>
                    ([PartText (prompt +:+ ", in " +:+ lower style +:+ " style")] ++ images)
             else [PartText (prompt +:+ ", in " +:+ lower style +:+ " style")] ++ images)
            = PartText (if Nat.ltb 0 k
                        then (prompt +:+ ", in " +:+ lower style +:+ " style")
                             +:+ ". Use the provided " +:+ of_nat k +:+ " reference image"
                             +:+ (if Nat.ltb 1 k then "s" else "")
                             +:+ " as visual reference."
                        else prompt +:+ ", in " +:+ lower style +:+ " style") :: images)
      as Hparts by (destruct (Nat.ltb 0 k); reflexivity).
    rewrite Hparts.
    apply exactly_bind; [apply provider_exactly | intros chunks].
    destruct (ImageGenerationService.first_inline_data chunks) as [[data mime]|];
      [apply upload_bytes_silent | apply silent_raise].
Qed.

(** X13. The OpenAI and the Google classifier test their keywords in a
    different order but decide alike: for every message they return the same
    status code and the same error type. *)
Theorem openai_and_google_classifiers_agree (e operation : string) :
  status_code (handle_openai_error e operation)
  = status_code (handle_google_ai_error e operation) /\
  error_type_of (handle_openai_error e operation)
  = error_type_of (handle_google_ai_error e operation).
Proof.
  unfold handle_openai_error, handle_google_ai_error. cbv zeta.
  destruct (str_in "api key" (lower e)), (str_in "unauthorized" (lower e)),
    (str_in "rate limit" (lower e)), (str_in "quota" (lower e)),
    (str_in "content policy" (lower e)), (str_in "safety" (lower e));
    split; reflexivity.
Qed.

(** X14. The video endpoint reaches its service only with a request that
    passed every check, and at most once. A request that is refused has an
    outcome that does not depend on the service and leaves the state as it
    was. Otherwise the service is called with the image exactly in edit
    mode, where it receives the bytes read from the named file; in generate
    mode an uploaded image is neither validated nor read nor passed on. *)
Theorem video_service_reached_only_by_valid_requests (mode prompt model shape : string)
    (image_file : option UploadFile) (user_id : option string) (st : State) :
  (exists h, forall service : VideoGeneration.VideoService,
     VideoGeneration.generate_video service mode prompt model shape image_file user_id st
     = (Raise (HTTPExc h), st)) \/
  (exists image image_filename,
     (forall service : VideoGeneration.VideoService,
        VideoGeneration.generate_video service mode prompt model shape image_file user_id st
        = try_except
            (video_url ← service prompt model mode user_id shape image image_filename;
             mret (VideoGeneration.mkVideoGenerationResponse 200
                     ("Video "
                      +:+ (if String.eqb mode "generate" then "generated"
                           else "created from image")
                      +:+ " successfully using " +:+ model) video_url))
            (classify_unless_http model "video generation") st) /\
     (mode = "generate" -> image = None /\ image_filename = None) /\
     (mode = "edit" ->
      exists file image_bytes,
        image_file = Some file /\ has_filename file = true /\
        type_not_allowed allowed_image_types file = false /\
        read file = Ok image_bytes /\
        image = Some image_bytes /\ image_filename = filename file)).
Proof.
  unfold VideoGeneration.generate_video, VideoGeneration.generate_video_body.
  destruct (mem mode _); cbn [negb]; [|left; eexists; intros; reflexivity].
  cbv zeta.
  destruct (mem model _); cbn [negb]; [|left; eexists; intros; reflexivity].
  destruct (mem shape _); cbn [negb]; [|left; eexists; intros; reflexivity].
  destruct (blank prompt); [left; eexists; intros; reflexivity|].
  destruct (String.eqb mode "edit") eqn:Hedit.
  - apply String.eqb_eq in Hedit. subst mode.
    destruct image_file as [file|]; [|left; eexists; intros; reflexivity].
    unfold VideoGeneration.read_edit_image.
    destruct (has_filename file) eqn:Hname; cbn [negb];
      [|left; eexists; intros; reflexivity].
    unfold validate_file_types. cbn [validate_file_types_from length].
    destruct (type_not_allowed allowed_image_types file) eqn:Htype;
      [left; eexists; intros; reflexivity|].
    destruct (read file) as [image_bytes|[h|cls msg]] eqn:Hread.
    + right. exists (Some image_bytes), (filename file). split; [|split].
      * intros service. unfold try_except. rewrite !bind_run. unfold lift.
        reflexivity.
      * discriminate.
      * intros _. exists file, image_bytes. repeat split; assumption.
    + left. exists h. intros service. unfold try_except. rewrite !bind_run. unfold lift.
      reflexivity.
    + left. eexists. intros service. unfold try_except. rewrite !bind_run. unfold lift.
      reflexivity.
  - right. exists None, None. split; [|split].
    + intros service. reflexivity.
    + intros _. split; reflexivity.
    + intros ->. discriminate Hedit.
Qed.

Lemma video_service_reached_only_by_valid_requests_witness :
  exists h, forall service : VideoGeneration.VideoService,
    VideoGeneration.generate_video service "edit" "a wave" "wan-2.2" "landscape" None
      (Some "u1") (initial_state (MediaUploader_init GcsReady))
    = (Raise (HTTPExc h), initial_state (MediaUploader_init GcsReady)).
Proof.
  destruct (video_service_reached_only_by_valid_requests "edit" "a wave" "wan-2.2"
              "landscape" None (Some "u1") (initial_state (MediaUploader_init GcsReady)))
    as [Hrefused | (image & image_filename & _ & _ & Hedit)]; [exact Hrefused|].
  destruct (Hedit eq_refl) as (file & image_bytes & Hfile & _). discriminate Hfile.
Defined.

(** X15. In edit mode the video endpoint reads the image itself, before the
    service is called: for a request that passes the checks, the service
    receives the bytes read and the file name; when reading fails, the
    fault is classified and the service has no part in the outcome. *)
Theorem video_edit_reads_image_before_service (service : VideoGeneration.VideoService)
    (prompt model shape : string) (file : UploadFile) (user_id : option string) (st : State) :
  mem model (map VideoGeneration.video_model_value VideoGeneration.IMAGE_TO_VIDEO_MODELS)
  = true ->
  mem shape (map VideoGeneration.video_shape_value VideoGeneration.VideoShape_members)
  = true ->
  blank prompt = false ->
  has_filename file = true ->
  type_not_allowed allowed_image_types file = false ->
  (forall image_bytes, read file = Ok image_bytes ->
     VideoGeneration.generate_video service "edit" prompt model shape (Some file) user_id st
     = try_except
         (video_url ← service prompt model "edit" user_id shape (Some image_bytes)
                        (filename file);
          mret (VideoGeneration.mkVideoGenerationResponse 200
                  ("Video created from image successfully using " +:+ model) video_url))
         (classify_unless_http model "video generation") st) /\
  (forall cls msg, read file = Raise (PyExc cls msg) ->
     VideoGeneration.generate_video service "edit" prompt model shape (Some file) user_id st
     = (Raise (HTTPExc (handle_service_error msg model "video generation")), st)).
Proof.
  intros Hmodel Hshape Hprompt Hname Htype.
  unfold VideoGeneration.generate_video, VideoGeneration.generate_video_body.
  change (String.eqb "edit" "generate") with false.
  change (String.eqb "edit" "edit") with true.
  change (mem "edit" (map VideoGeneration.video_mode_value
                        VideoGeneration.VideoMode_members)) with true.
  cbv zeta. cbn [negb]. rewrite Hmodel, Hshape, Hprompt. cbn [negb].
  unfold VideoGeneration.read_edit_image. rewrite Hname. cbn [negb].
  unfold validate_file_types. cbn [validate_file_types_from length]. rewrite Htype.
  split.
  - intros image_bytes Hread. unfold try_except. rewrite !bind_run. unfold lift.
    rewrite Hread. reflexivity.
  - intros cls msg Hread. unfold try_except. rewrite !bind_run. unfold lift.
    rewrite Hread. reflexivity.
Qed.

Lemma video_edit_reads_image_before_service_witness :
  (VideoGeneration.generate_video (fun _ _ _ _ _ _ _ => mret "https://videos.example/v.mp4")
     "edit" "a wave" "wan-2.2" "landscape" (Some (unreadable_upload "sea.png" "image/png"))
     (Some "u1") (initial_state (MediaUploader_init GcsReady))).1
  = Raise (HTTPExc (handle_service_error "read of closed file" "wan-2.2" "video generation")).
Proof.
  destruct (video_edit_reads_image_before_service
              (fun _ _ _ _ _ _ _ => mret "https://videos.example/v.mp4")
              "a wave" "wan-2.2" "landscape" (unreadable_upload "sea.png" "image/png")
              (Some "u1") (initial_state (MediaUploader_init GcsReady))
              eq_refl eq_refl eq_refl eq_refl eq_refl) as [_ Hfail].
  now rewrite (Hfail "OSError" "read of closed file" eq_refl).
Defined.

Section AvatarSize.

Lemma quot_scaled_bounds (a b : Z) : a <= b -> 0 < b -> Z.quot (a * 4000) b <= 4000.
Proof.
  intros Hab Hb. destruct (Z_lt_le_dec a 0) as [Hneg|Hpos].
  - assert (Z.quot (a * 4000) b <= 0); [|lia].
    replace (a * 4000) with (- ((- a) * 4000)) by lia.
    rewrite Z.quot_opp_l by lia.
    assert (0 <= Z.quot (- a * 4000) b) by (apply Z.quot_pos; lia). lia.
  - apply Z.quot_le_upper_bound; lia.
Qed.

Lemma avatar_target_size_bounds (width height : Z) :
  512 <= (AIAvatar.avatar_target_size width height).1.1 <= 4000 /\
  512 <= (AIAvatar.avatar_target_size width height).1.2 <= 4000.
Proof.
  unfold AIAvatar.avatar_target_size.
  destruct (4000 <? width) eqn:Ew; destruct (4000 <? height) eqn:Eh; cbn [orb];
    try (destruct (height <? width) eqn:Ehw);
    repeat match goal with
           | H : (_ <? _) = true |- _ => apply Z.ltb_lt in H
           | H : (_ <? _) = false |- _ => apply Z.ltb_ge in H
           end.
  all: try (pose proof (quot_scaled_bounds height width ltac:(lia) ltac:(lia))).
  all: try (pose proof (quot_scaled_bounds width height ltac:(lia) ltac:(lia))).
  all: repeat match goal with
              | |- context [?a <? 512] =>
                  let E := fresh "E" in destruct (a <? 512) eqn:E;
                  [apply Z.ltb_lt in E | apply Z.ltb_ge in E]
              end; cbn [orb fst snd].
  all: lia.
Qed.

Lemma avatar_target_size_resizes (width height : Z) :
  512 <= width <= 4000 /\ 512 <= height <= 4000 <->
  (AIAvatar.avatar_target_size width height).2 = false.
Proof.
  unfold AIAvatar.avatar_target_size.
  destruct (4000 <? width) eqn:Ew; destruct (4000 <? height) eqn:Eh; cbn [orb];
    try (destruct (height <? width) eqn:Ehw);
    repeat match goal with
           | H : (_ <? _) = true |- _ => apply Z.ltb_lt in H
           | H : (_ <? _) = false |- _ => apply Z.ltb_ge in H
           end.
  all: repeat match goal with
              | |- context [?a <? 512] =>
                  let E := fresh "E" in destruct (a <? 512) eqn:E;
                  [apply Z.ltb_lt in E | apply Z.ltb_ge in E]
              end; cbn [orb fst snd].
  all: split; intros; try lia; try discriminate.
Qed.

End AvatarSize.

(** X17. The size the avatar service resizes an image to is always within
    the limits of the provider, 512 to 4000 pixels on each side, and the
    image is left as it is exactly when both sides are already within these
    limits. *)
Theorem avatar_target_size_within_limits (width height : Z) :
  let '((new_width, new_height), needs_resize) := AIAvatar.avatar_target_size width height in
  512 <= new_width <= 4000 /\ 512 <= new_height <= 4000 /\
  (needs_resize = false <->
   512 <= width <= 4000 /\ 512 <= height <= 4000) /\
  (needs_resize = false -> (new_width, new_height) = (width, height)).
Proof.
  unfold AIAvatar.avatar_target_size.
  destruct (4000 <? width) eqn:Ew; destruct (4000 <? height) eqn:Eh; cbn [orb];
    try (destruct (height <? width) eqn:Ehw);
    repeat match goal with
           | H : (_ <? _) = true |- _ => apply Z.ltb_lt in H
           | H : (_ <? _) = false |- _ => apply Z.ltb_ge in H
           end.
  all: try (pose proof (quot_scaled_bounds height width ltac:(lia) ltac:(lia))).
  all: try (pose proof (quot_scaled_bounds width height ltac:(lia) ltac:(lia))).
  all: repeat match goal with
              | |- context [?a <? 512] =>
                  let E := fresh "E" in destruct (a <? 512) eqn:E;
                  [apply Z.ltb_lt in E | apply Z.ltb_ge in E]
              end; cbn [orb].
  all: repeat split; intros; try lia; try discriminate; try (f_equal; lia).
Qed.

Lemma avatar_target_size_within_limits_witness :
  let '((new_width, new_height), _) := AIAvatar.avatar_target_size 8000 100 in
  512 <= new_width <= 4000 /\ 512 <= new_height <= 4000.
Proof.
  generalize (avatar_target_size_within_limits 8000 100).
  change (AIAvatar.avatar_target_size 8000 100) with ((4000, 512), true).
  cbn beta iota. intros (Hw & Hh & _). split; assumption.
Defined.

(** Runs a computation of the monad up to the next outcome that the
    outside world decides. *)
Ltac run_steps :=
  repeat first
    [ rewrite bind_run
    | progress cbn [mret M_ret emit lift raise get_uploader store_blob store_local
                    uploader trace local_files gcs_blobs] ].

Section AvatarFacts.

Variable env : Env.
Variable fal : AIAvatar.FalEnv.

Lemma upload_video_from_url_silent (video_url prompt : string) (user_id : option string)
    (shape model_prefix : string) :
  calls_exactly [] (upload_video_from_url env video_url prompt user_id shape model_prefix).
Proof. unfold upload_video_from_url. silent; apply upload_bytes_silent. Qed.

End AvatarFacts.

(** X19. What the avatar service sends to the provider in place of the
    uploaded image: the original bytes when the image cannot be opened, when
    both of its sides are within 512 to 4000 pixels, and when the conversion
    fails; otherwise the JPEG conversion at the target size, which is within
    512 to 4000 pixels on each side. *)
Theorem avatar_image_sent_as_is_or_within_limits (env : Env) (fal : AIAvatar.FalEnv)
    (image_content : bytes) :
  (forall e,
     Image_open env image_content = Raise e ->
     AIAvatar.resize_for_fal env fal image_content = image_content) /\
  (forall img width height,
     Image_open env image_content = Ok img -> size img = (width, height) ->
     (512 <= width <= 4000 /\ 512 <= height <= 4000 ->
      AIAvatar.resize_for_fal env fal image_content = image_content) /\
     (~ (512 <= width <= 4000 /\ 512 <= height <= 4000) ->
      exists new_width new_height,
        (AIAvatar.avatar_target_size width height).1 = (new_width, new_height) /\
        512 <= new_width <= 4000 /\ 512 <= new_height <= 4000 /\
        (forall resized,
           AIAvatar.convert_resize_and_save fal image_content (new_width, new_height)
           = Ok resized ->
           AIAvatar.resize_for_fal env fal image_content = resized) /\
        (forall e,
           AIAvatar.convert_resize_and_save fal image_content (new_width, new_height)
           = Raise e ->
           AIAvatar.resize_for_fal env fal image_content = image_content))).
Proof.
  unfold AIAvatar.resize_for_fal, AIAvatar.resize_for_fal_body. split.
  - intros e ->. reflexivity.
  - intros img width height -> ->.
    pose proof (avatar_target_size_bounds width height) as Hsize.
    pose proof (avatar_target_size_resizes width height) as Hneeds.
    destruct (AIAvatar.avatar_target_size width height)
      as [[new_width new_height] needs_resize].
    cbn [fst snd] in Hsize, Hneeds. split.
    + intros Hfits. apply Hneeds in Hfits. now rewrite Hfits.
    + intros Hout. exists new_width, new_height.
      destruct needs_resize; [|now elim Hout; apply Hneeds].
      repeat split; try lia.
      * intros resized ->. reflexivity.
      * intros e ->. reflexivity.
Qed.

Lemma avatar_image_sent_as_is_or_within_limits_witness :
  AIAvatar.resize_for_fal example_env example_fal [Byte.x08; Byte.x01]
  = [Byte.x04; Byte.x00].
Proof.
  destruct (avatar_image_sent_as_is_or_within_limits example_env example_fal
              [Byte.x08; Byte.x01]) as [_ Hopen].
  destruct (Hopen (mkImage (8000, 1000) (Some "PNG")) 8000 1000 eq_refl eq_refl)
    as [_ Hresize].
  assert (~ (512 <= 8000 <= 4000 /\ 512 <= 1000 <= 4000)) as Hout by lia.
  destruct (Hresize Hout) as (new_width & new_height & Htarget & _ & _ & Hsent & _).
  injection Htarget as <- <-. apply Hsent. reflexivity.
Defined.

(** X20. A successful avatar request whose image has a file name of ASCII
    text stores the provider's video byte for byte under
    [video/<user_id>/ai_avatar_<timestamp>_landscape_<name>.mp4], where
    [<name>] is the sanitised file name of the image, after exactly one call
    to the OmniHuman endpoint with the URLs of the two uploads. *)
Theorem avatar_video_stored_under_image_name (env : Env) (fal : AIAvatar.FalEnv)
    (image_file audio_file : UploadFile) (user_id : option string) (st : State)
    (name image_url audio_url url : string) (image_content audio_content data : bytes) :
  let blob_name :=
    "video/" +:+ str_of user_id +:+ "/ai_avatar_" +:+ timestamp env +:+ "_landscape_"
    +:+ safe_prompt name +:+ ".mp4" in
  let arguments := [("image_url", AStr image_url); ("audio_url", AStr audio_url)] in
  let run := AIAvatar.generate_video env fal image_file audio_file user_id st in
  bucket (uploader st) = true ->
  filename image_file = Some name ->
  ascii_text name = true ->
  read image_file = Ok image_content ->
  read audio_file = Ok audio_content ->
  AIAvatar.fal_upload fal (AIAvatar.resize_for_fal env fal image_content) (Some "image/jpeg")
  = Ok image_url ->
  AIAvatar.fal_upload fal audio_content (content_type audio_file) = Ok audio_url ->
  AIAvatar.omnihuman_submit_get fal arguments = Ok (AIAvatar.VideoUrl url) ->
  requests_get env url = Ok data ->
  gcs_upload_from_string env blob_name data "video/mp4" = Ok tt ->
  run.1 = Ok ("https://storage.googleapis.com/" +:+ GCS_BUCKET_NAME env +:+ "/" +:+ blob_name) /\
  gcs_blobs run.2 !! blob_name = Some data /\
  provider_calls (trace run.2)
  = provider_calls (trace st) ++ [FalSubmit "fal-ai/bytedance/omnihuman" arguments].
Proof.
  cbv zeta. intros Hb Hname _ Himage Haudio Hiu Hau Hsubmit Hget Hput.
  assert (AIAvatar.generate_video env fal image_file audio_file user_id st
          = (Ok ("https://storage.googleapis.com/" +:+ GCS_BUCKET_NAME env +:+ "/"
                 +:+ "video/" +:+ str_of user_id +:+ "/ai_avatar_" +:+ timestamp env
                 +:+ "_landscape_" +:+ safe_prompt name +:+ ".mp4"),
             mkState (uploader st)
               (trace st
                ++ [EvProvider (FalSubmit "fal-ai/bytedance/omnihuman"
                                  [("image_url", AStr image_url);
                                   ("audio_url", AStr audio_url)])]
                ++ [EvDownload url]
                ++ [EvGcsUpload ("video/" +:+ str_of user_id +:+ "/ai_avatar_"
                                 +:+ timestamp env +:+ "_landscape_" +:+ safe_prompt name
                                 +:+ ".mp4")])
               (local_files st)
               (<["video/" +:+ str_of user_id +:+ "/ai_avatar_" +:+ timestamp env
                  +:+ "_landscape_" +:+ safe_prompt name +:+ ".mp4" := data]>
                  (gcs_blobs st)))) as Hrun.
  { unfold AIAvatar.generate_video, ImageGenerationService.provider, upload_video_from_url,
      upload_bytes.
    run_steps. rewrite Himage. run_steps. rewrite Haudio. run_steps. rewrite Hiu.
    run_steps. rewrite Hau. run_steps. rewrite Hsubmit. run_steps. rewrite Hname.
    run_steps.
    rewrite (safe_name_fixed (safe_prompt name) (safe_prompt_chars name)
               (safe_prompt_length name)).
    rewrite Hget. run_steps. rewrite Hb. run_steps.
    match type of Hput with
    | gcs_upload_from_string _ ?blob _ _ = _ =>
        match goal with
        | |- context [gcs_upload_from_string env ?name' data "video/mp4"] =>
            change name' with blob
        end
    end.
    rewrite Hput. run_steps.
    rewrite <- !app_assoc. reflexivity. }
  rewrite Hrun. cbn [fst snd gcs_blobs trace]. repeat split.
  - apply lookup_insert_eq.
  - rewrite !app_assoc, !provider_calls_snoc. now rewrite !app_nil_r.
Qed.

Lemma avatar_video_stored_under_image_name_witness :
  gcs_blobs
    (AIAvatar.generate_video example_env example_fal
       (upload "my face.png" "image/png" [Byte.x01; Byte.x01])
       (upload "voice.mp3" "audio/mpeg" [Byte.x05]) (Some "u1")
       (initial_state (MediaUploader_init GcsReady))).2
    !! "video/u1/ai_avatar_20260101_120000_landscape_my_facepng.mp4"
  = Some [Byte.x03].
Proof.
  destruct (avatar_video_stored_under_image_name example_env example_fal
              (upload "my face.png" "image/png" [Byte.x01; Byte.x01])
              (upload "voice.mp3" "audio/mpeg" [Byte.x05]) (Some "u1")
              (initial_state (MediaUploader_init GcsReady))
              "my face.png" "https://fal.example/files/2" "https://fal.example/files/1"
              "https://fal.example/out.mp4" [Byte.x01; Byte.x01] [Byte.x05] [Byte.x03]
              eq_refl eq_refl eq_refl eq_refl eq_refl eq_refl eq_refl eq_refl eq_refl eq_refl)
    as (_ & Hblob & _).
  exact Hblob.
Defined.

(** X21. When the OmniHuman endpoint returns no video, the avatar endpoint
    answers with status 422 and error type "Value Too Small": the message
    "No video generated by FAL.ai" is sent to the fal.ai classifier, where
    the two-letter pattern "ge" of the greater-or-equal group matches the
    word "generated". Nothing is downloaded or stored. *)
Theorem avatar_without_video_reported_as_value_too_small (env : Env) (fal : AIAvatar.FalEnv)
    (image_file audio_file : UploadFile) (user_id : option string) (st : State)
    (image_url audio_url : string) (image_content audio_content : bytes) :
  let run := AIAvatar.generate_ai_avatar_video env fal image_file audio_file user_id st in
  has_filename image_file = true ->
  type_not_allowed allowed_image_types image_file = false ->
  has_filename audio_file = true ->
  type_not_allowed AIAvatar.allowed_audio_types audio_file = false ->
  read image_file = Ok image_content ->
  read audio_file = Ok audio_content ->
  AIAvatar.fal_upload fal (AIAvatar.resize_for_fal env fal image_content) (Some "image/jpeg")
  = Ok image_url ->
  AIAvatar.fal_upload fal audio_content (content_type audio_file) = Ok audio_url ->
  AIAvatar.omnihuman_submit_get fal
    [("image_url", AStr image_url); ("audio_url", AStr audio_url)] = Ok AIAvatar.NoVideo ->
  (exists h,
     run.1 = Raise (HTTPExc h) /\ status_code h = 422 /\
     error_type_of h = Some (JStr "Value Too Small")) /\
  gcs_blobs run.2 = gcs_blobs st /\ local_files run.2 = local_files st /\
  trace run.2
  = trace st ++ [EvProvider (FalSubmit "fal-ai/bytedance/omnihuman"
                               [("image_url", AStr image_url); ("audio_url", AStr audio_url)])].
Proof.
  cbv zeta. intros Hin Hit Han Hat Himage Haudio Hiu Hau Hsubmit.
  assert (AIAvatar.generate_ai_avatar_video env fal image_file audio_file user_id st
          = (Raise (HTTPExc (handle_service_error "No video generated by FAL.ai"
                               "ByteDance OmniHuman" "generate AI avatar video")),
             mkState (uploader st)
               (trace st
                ++ [EvProvider (FalSubmit "fal-ai/bytedance/omnihuman"
                                  [("image_url", AStr image_url);
                                   ("audio_url", AStr audio_url)])])
               (local_files st) (gcs_blobs st))) as Hrun.
  { unfold AIAvatar.generate_ai_avatar_video, AIAvatar.generate_ai_avatar_video_body,
      try_except.
    rewrite Hin, Hit, Han, Hat. cbn [negb].
    unfold AIAvatar.generate_video, ImageGenerationService.provider.
    run_steps. rewrite Himage. run_steps. rewrite Haudio. run_steps. rewrite Hiu.
    run_steps. rewrite Hau. run_steps. rewrite Hsubmit. run_steps. reflexivity. }
  rewrite Hrun. cbn [fst snd gcs_blobs local_files trace]. repeat split.
  eexists. split; [reflexivity|]. split; vm_compute; reflexivity.
Qed.

Lemma avatar_without_video_reported_as_value_too_small_witness :
  exists h,
    (AIAvatar.generate_ai_avatar_video example_env
       {| AIAvatar.fal_upload := AIAvatar.fal_upload example_fal;
          AIAvatar.omnihuman_submit_get := fun _ => Ok AIAvatar.NoVideo;
          AIAvatar.convert_resize_and_save := AIAvatar.convert_resize_and_save example_fal |}
       (upload "face.png" "image/png" [Byte.x01; Byte.x01])
       (upload "voice.mp3" "audio/mpeg" [Byte.x05]) (Some "u1")
       (initial_state (MediaUploader_init GcsReady))).1
    = Raise (HTTPExc h) /\ status_code h = 422.
Proof.
  destruct (avatar_without_video_reported_as_value_too_small example_env
              {| AIAvatar.fal_upload := AIAvatar.fal_upload example_fal;
                 AIAvatar.omnihuman_submit_get := fun _ => Ok AIAvatar.NoVideo;
                 AIAvatar.convert_resize_and_save :=
                   AIAvatar.convert_resize_and_save example_fal |}
              (upload "face.png" "image/png" [Byte.x01; Byte.x01])
              (upload "voice.mp3" "audio/mpeg" [Byte.x05]) (Some "u1")
              (initial_state (MediaUploader_init GcsReady))
              "https://fal.example/files/2" "https://fal.example/files/1"
              [Byte.x01; Byte.x01] [Byte.x05]
              eq_refl eq_refl eq_refl eq_refl eq_refl eq_refl eq_refl eq_refl eq_refl)
    as [[h (Hrun & Hstatus & _)] _].
  exists h. split; [exact Hrun | exact Hstatus].
Defined.

(** X22. What a client receives for a classified fault: the handler of
    [main.py] answers with the classifier's status, puts the generic text
    "HTTP <status> Error" in the top-level "error" field and nests the
    classifier's structured detail, with its error type and the same status,
    under "message". *)
Theorem classified_fault_is_nested_under_message (url e service_name operation : string) :
  let exc := handle_service_error e service_name operation in
  let response := http_exception_handler url exc in
  In (response_status response) classifier_status_codes /\
  dict_get (content response) "error"
  = Some (JStr ("HTTP " +:+ str_of_Z (status_code exc) +:+ " Error")) /\
  exists d t,
    dict_get (content response) "message" = Some (JObj d) /\
    dict_get d "error" = Some (JStr t) /\
    dict_get d "status_code" = Some (JInt (response_status response)).
Proof.
  cbv zeta.
  destruct (handle_service_error_structured e service_name operation)
    as (Hcode & Hstatus & [t Ht] & _).
  split; [exact Hcode|]. split; [reflexivity|].
  exists (detail (handle_service_error e service_name operation)), t.
  repeat split; assumption.
Qed.

(** X23. The local fallback of [upload_bytes] joins the folder and the user
    id with [os.path.join], so a user id that starts with a slash replaces
    the media folder: the file is written to [<user_id>/<filename>], outside
    [<media_type>s], while the returned URL still names the media folder. *)
Theorem local_fallback_absolute_user_id_leaves_media_folder (env : Env) (data : bytes)
    (filename user_id content_type media_type : string) (st : State) :
  let run := upload_bytes env data filename (Some user_id) content_type media_type st in
  let file_path := user_id +:+ "/" +:+ filename in
  bucket (uploader st) = false ->
  startswith "/" user_id = true ->
  ends_with_slash user_id = false ->
  startswith "/" filename = false ->
  startswith "/" media_type = false ->
  local_write env user_id file_path data = Ok tt ->
  run.1 = Ok (BASE_URL env +:+ "/" +:+ media_type +:+ "s/" +:+ user_id +:+ "/" +:+ filename) /\
  local_files run.2 !! file_path = Some data /\
  startswith (media_type +:+ "s") file_path = false.
Proof.
  cbv zeta. intros Hb Habs Hslash Hfile Hmedia Hwrite.
  assert (String.eqb user_id "" = false) as Hne by (destruct user_id; [discriminate | reflexivity]).
  assert (os_path_join (media_type +:+ "s") user_id = user_id) as Hfolder
    by (unfold os_path_join; now rewrite Habs).
  assert (os_path_join user_id filename = user_id +:+ "/" +:+ filename) as Hpath
    by (unfold os_path_join; rewrite Hfile, Hne, Hslash; reflexivity).
  unfold upload_bytes. run_steps. rewrite Hb. unfold or_anonymous. rewrite Hne.
  rewrite Hfolder, Hpath. run_steps. rewrite Hwrite. run_steps.
  repeat split.
  - apply lookup_insert_eq.
  - destruct user_id as [|c user_id]; [discriminate|].
    unfold startswith in *. cbn [String.prefix] in Habs.
    destruct (ascii_dec "/" c) as [<-|Hc]; [|discriminate].
    destruct media_type as [|m media_type]; [reflexivity|].
    cbn [String.prefix] in Hmedia. rewrite !append_cons. cbn [String.prefix].
    destruct (ascii_dec m "/") as [->|Hm]; [|reflexivity].
    destruct (ascii_dec "/" "/") as [_|Hn]; [|now elim Hn].
    now destruct media_type.
Qed.

Lemma local_fallback_absolute_user_id_leaves_media_folder_witness :
  local_files
    (upload_bytes example_env [Byte.x07] "dalle_cat.png" (Some "/srv/www") "image/png" "image"
       (initial_state (MediaUploader_init GcsImportError))).2
    !! "/srv/www/dalle_cat.png"
  = Some [Byte.x07].
Proof.
  destruct (local_fallback_absolute_user_id_leaves_media_folder example_env [Byte.x07]
              "dalle_cat.png" "/srv/www" "image/png" "image"
              (initial_state (MediaUploader_init GcsImportError))
              eq_refl eq_refl eq_refl eq_refl eq_refl eq_refl) as (_ & Hfile & _).
  exact Hfile.
Defined.

Section DispatchFacts.

Variable env : Env.

Lemma validated_generate_model (prompt model style shape : string)
    (image_files : option (list UploadFile)) :
  validate_generate_request "generate" prompt model style shape image_files = Ok tt ->
  In model (map model_value TEXT_TO_IMAGE_MODELS).
Proof.
  unfold validate_generate_request. eval_closed_tests. cbv zeta.
  destruct (mem model (map model_value TEXT_TO_IMAGE_MODELS)) eqn:Hmodel;
    [|discriminate]. intros _. now apply mem_In.
Qed.

Lemma seedream_data_urls_length (image_files : list UploadFile) (urls : list string) :
  ImageGenerationService.seedream_data_urls env image_files = Ok urls ->
  length urls = length image_files.
Proof.
  revert urls. induction image_files as [|f fs IH]; intros urls; simpl.
  - now intros [= <-].
  - destruct (read f); [|discriminate].
    destruct (ImageGenerationService.seedream_data_urls env fs); [|discriminate].
    intros [= <-]. simpl. f_equal. now apply IH.
Qed.

Lemma seedream_data_urls_fails (image_files : list UploadFile) (file : UploadFile) (e : exn) :
  In file image_files -> read file = Raise e ->
  exists e', ImageGenerationService.seedream_data_urls env image_files = Raise e'.
Proof.
  intros Hin Hread. induction image_files as [|f fs IH]; [contradiction|]. simpl.
  destruct (read f) as [content|e1] eqn:Hf; [|eauto].
  destruct Hin as [->|Hin]; [congruence|].
  destruct (IH Hin) as [e' ->]. eauto.
Qed.

End DispatchFacts.

(** X24. Every generate-mode request that passes the endpoint's validation
    reaches a provider: for each of the seven text-to-image models the
    endpoint attempts exactly one provider call, whatever the provider and
    the storage then do. *)
Theorem validated_generate_request_calls_one_provider (env : Env)
    (prompt model style shape : string) (image_files : option (list UploadFile))
    (user_id : option string) :
  validate_generate_request "generate" prompt model style shape image_files = Ok tt ->
  exists call,
    calls_exactly [call]
      (ImageRoute.generate_image env "generate" prompt model style shape image_files user_id).
Proof.
  intros Hvalid.
  assert (forall call,
            calls_exactly [call]
              (ImageGenerationService._generate_from_text env prompt model user_id style shape)
            -> calls_exactly [call]
                 (ImageRoute.generate_image env "generate" prompt model style shape
                    image_files user_id)) as Hroute.
  { intros call Hcall st. rewrite (route_boundary env _ _ _ _ _ _ _ _ Hvalid).
    cbv zeta. cbn [snd]. rewrite generate_mode. apply Hcall. }
  pose proof (validated_generate_model prompt model style shape image_files Hvalid) as Hmodel.
  cbn in Hmodel.
  destruct Hmodel as [<-|[<-|[<-|[<-|[<-|[<-|[<-|[]]]]]]]].
  - eexists. apply Hroute, dalle_call.
  - destruct (fal_text_call env prompt "flux_1_spro" user_id style shape)
      as (endpoint & steps & guidance & Hcall); [simpl; tauto|].
    eexists. apply Hroute, Hcall.
  - eexists. apply Hroute, imagen_call.
  - destruct (fal_text_call env prompt "flux_kontext_dev" user_id style shape)
      as (endpoint & steps & guidance & Hcall); [simpl; tauto|].
    eexists. apply Hroute, Hcall.
  - destruct (fal_text_call env prompt "qwen" user_id style shape)
      as (endpoint & steps & guidance & Hcall); [simpl; tauto|].
    eexists. apply Hroute, Hcall.
  - eexists. apply Hroute, nanobanana_text_call.
  - eexists. apply Hroute, seedream_text_call.
Qed.

Lemma validated_generate_request_calls_one_provider_witness :
  exists call,
    calls_exactly [call]
      (ImageRoute.generate_image example_env "generate" "a cat" "qwen" "Photo" "square" None
         (Some "u1")).
Proof.
  apply (validated_generate_request_calls_one_provider example_env "a cat" "qwen" "Photo"
           "square" None (Some "u1")).
  reflexivity.
Defined.

(** X25. SeeDream in edit mode reads every file it is given: when all of
    them can be read it makes one call to the edit endpoint with one data
    URL per file, and when one of them cannot be read the request fails
    before any provider is called and nothing changes, whereas NanoBanana
    skips such a file. *)
Theorem seedream_reads_every_file_or_fails (env : Env) (prompt : string)
    (user_id : option string) (style shape : string) (image_files : list UploadFile) :
  image_files <> [] -> (length image_files <= 4)%nat ->
  (forall image_data_urls,
     ImageGenerationService.seedream_data_urls env image_files = Ok image_data_urls ->
     length image_data_urls = length image_files /\
     exists arguments,
       calls_exactly [FalSubmit "fal-ai/bytedance/seedream/v4/edit" arguments]
         (ImageGenerationService.generate_image env prompt "seedream" "edit" user_id style
            shape (Some image_files)) /\
       arg_of "image_urls" arguments = Some (AStrs image_data_urls)) /\
  (forall file e,
     In file image_files -> read file = Raise e ->
     exists e', forall st,
       ImageGenerationService.generate_image env prompt "seedream" "edit" user_id style shape
         (Some image_files) st = (Raise e', st)).
Proof.
  intros Hne Hlen. split.
  - intros urls Hurls. split; [now apply (seedream_data_urls_length env)|].
    eexists. split; [apply (seedream_edit_call env); eassumption | reflexivity].
  - intros file e Hin Hread.
    destruct (seedream_data_urls_fails env image_files file e Hin Hread) as [e' He'].
    exists e'. intros st.
    destruct image_files as [|f fs]; [contradiction|].
    unfold ImageGenerationService.generate_image, ImageGenerationService._edit_image.
    eval_closed_tests.
    change (MODEL_MAX_IMAGES !! "seedream") with (Some 4%nat).
    assert (Nat.ltb 4 (length (f :: fs)) = false) as Hfour by (apply Nat.ltb_ge; exact Hlen).
    change (default 0%nat (Some 4%nat)) with 4%nat. rewrite Hfour.
    unfold ImageGenerationService._generate_seedream. cbv zeta. rewrite Hfour, He'.
    reflexivity.
Qed.

Lemma seedream_reads_every_file_or_fails_witness :
  exists e', forall st,
    ImageGenerationService.generate_image example_env "a cat" "seedream" "edit" (Some "u1")
      "Photo" "square"
      (Some [upload "a.png" "image/png" [Byte.x01; Byte.x01];
             unreadable_upload "b.png" "image/png"]) st
    = (Raise e', st).
Proof.
  destruct (seedream_reads_every_file_or_fails example_env "a cat" (Some "u1") "Photo"
              "square"
              [upload "a.png" "image/png" [Byte.x01; Byte.x01];
               unreadable_upload "b.png" "image/png"]
              ltac:(discriminate) ltac:(simpl; lia)) as [_ Hfail].
  apply (Hfail (unreadable_upload "b.png" "image/png")
           (PyExc "OSError" "read of closed file")); [simpl; tauto | reflexivity].
Defined.
